(** * Verification of the user-data timeline sample

    The repository holds three generations of one VS Code extension that keeps
    a history of the user's settings file:

    - [src/extension.ts]: [UserDataBackupService] (module [Extension] below);
    - the first file of [unnamed/part_000]: the same service with paging in
      its timeline provider (module [Paged]);
    - the second file of [unnamed/part_000]: [UserDataBackupResolver] with
      its subclasses [UserDataSyncBackupResolver] and
      [UserDataChangesBackupService], and [UserDataBackupTimelineProvider]
      (module [Resolver]).

    The embedding is shallow.  The JavaScript built-ins the code calls
    (string methods, [parseInt], regular expressions, [JSON.parse], the
    [Date] constructor, Node's [path] and [fs]) are modelled first, then the
    source functions are transcribed over them, then the properties are
    proved. *)

From Stdlib Require Import ZArith Lia Ascii.
From stdpp Require Import base numbers list strings gmap sorting pretty.

Local Open Scope Z_scope.

(** ** JavaScript values used by the code *)

(** Numbers.  Every number the code handles is an integer or [NaN]; integers
    are exact in a double below 2^53, which covers calendar fields, epoch
    milliseconds and array lengths. *)
Inductive number :=
| NaN
| Num (z : Z).

Definition num_add (a b : number) : number :=
  match a, b with
  | Num x, Num y => Num (x + y)
  | _, _ => NaN
  end.

Definition num_sub (a b : number) : number :=
  match a, b with
  | Num x, Num y => Num (x - y)
  | _, _ => NaN
  end.

(** [a > b] on numbers: any comparison with [NaN] is false. *)
Definition num_gt (a b : number) : bool :=
  match a, b with
  | Num x, Num y => bool_decide (x > y)
  | _, _ => false
  end.

(** [`${n}`] and ['' + n] for a number. *)
Definition Number_toString (n : number) : string :=
  match n with
  | NaN => "NaN"
  | Num z => pretty z
  end.

(** Exceptions the code can meet. *)
Inductive exn :=
| SystemError (code : string)   (* a rejected [fs] promise: ENOENT, EISDIR, ... *)
| SyntaxError (msg : string)    (* [JSON.parse] *)
| TypeError (msg : string)      (* destructuring [null] or [undefined] *)
| Error (msg : string).         (* [throw new Error(...)] *)

Inductive outcome (A : Type) :=
| Returned (a : A)
| Thrown (e : exn).
Arguments Returned {A} a.
Arguments Thrown {A} e.

(** ** Strings *)

Module JsString.

Definition is_digit (c : ascii) : bool :=
  (48 <=? N_of_ascii c)%N && (N_of_ascii c <=? 57)%N.

Definition digit_value (c : ascii) : Z := Z.of_N (N_of_ascii c) - 48.

Definition is_hex_digit (c : ascii) : bool :=
  is_digit c
  || ((97 <=? N_of_ascii c)%N && (N_of_ascii c <=? 102)%N)
  || ((65 <=? N_of_ascii c)%N && (N_of_ascii c <=? 70)%N).

Definition hex_value (c : ascii) : Z :=
  let n := Z.of_N (N_of_ascii c) in
  if is_digit c then n - 48
  else if (97 <=? n) then n - 87 else n - 55.

(** White space that [parseInt] skips (the ASCII part of StrWhiteSpaceChar). *)
Definition is_white (c : ascii) : bool :=
  let n := N_of_ascii c in
  ((9 <=? n)%N && (n <=? 13)%N) || (n =? 32)%N.

Fixpoint drop (n : nat) (s : string) : string :=
  match n, s with
  | O, _ => s
  | S _, EmptyString => EmptyString
  | S n', String _ s' => drop n' s'
  end.

Fixpoint take (n : nat) (s : string) : string :=
  match n, s with
  | O, _ => EmptyString
  | S _, EmptyString => EmptyString
  | S n', String c s' => String c (take n' s')
  end.

Definition clamp (len : nat) (i : Z) : nat := Z.to_nat (Z.min (Z.max i 0) (Z.of_nat len)).

(** [s.substring(a, b)]: both ends clamped to [0, length], swapped when
    [a > b]. *)
Definition substring (s : string) (a b : Z) : string :=
  let len := String.length s in
  let a' := clamp len a in
  let b' := clamp len b in
  let lo := Nat.min a' b' in
  let hi := Nat.max a' b' in
  take (hi - lo) (drop lo s).

(** Relative index of [slice]: negative counts from the end. *)
Definition rel_index (len : nat) (i : Z) : nat :=
  if i <? 0 then Z.to_nat (Z.max (Z.of_nat len + i) 0)
  else Z.to_nat (Z.min i (Z.of_nat len)).

(** [s.slice(a, b)]. *)
Definition slice (s : string) (a b : Z) : string :=
  let len := String.length s in
  let from := rel_index len a in
  let to := rel_index len b in
  take (to - from) (drop from s).

Fixpoint skip_white (s : string) : string :=
  match s with
  | String c s' => if is_white c then skip_white s' else s
  | EmptyString => s
  end.

(** Value of the longest prefix of radix-10 digits, [None] when the prefix
    is empty. *)
Fixpoint decimal_prefix (s : string) (acc : option Z) : option Z :=
  match s with
  | String c s' =>
      if is_digit c
      then decimal_prefix s' (Some (10 * default 0 acc + digit_value c))
      else acc
  | EmptyString => acc
  end.

Fixpoint hex_prefix (s : string) (acc : option Z) : option Z :=
  match s with
  | String c s' =>
      if is_hex_digit c
      then hex_prefix s' (Some (16 * default 0 acc + hex_value c))
      else acc
  | EmptyString => acc
  end.

Definition of_digits (sign : Z) (v : option Z) : number :=
  match v with
  | Some z => Num (sign * z)
  | None => NaN
  end.

Definition parse_unsigned (sign : Z) (s : string) : number :=
  match s with
  | String "0" (String "x" s') => of_digits sign (hex_prefix s' None)
  | String "0" (String "X" s') => of_digits sign (hex_prefix s' None)
  | _ => of_digits sign (decimal_prefix s None)
  end.

(** [parseInt(s)] with no radix argument. *)
Definition parseInt (s : string) : number :=
  match skip_white s with
  | String "-" s' => parse_unsigned (-1) s'
  | String "+" s' => parse_unsigned 1 s'
  | s' => parse_unsigned 1 s'
  end.

(** [parts.join('')]. *)
Definition join_empty (parts : list string) : string :=
  foldr String.append EmptyString parts.

End JsString.

(** ** Buffers *)

(** A [Buffer] is the string of its bytes.  [content.toString()] decodes
    the bytes as UTF-8, putting U+FFFD for what is no UTF-8, and
    [writeFile] of a string encodes it as UTF-8: together they give back
    the bytes they started from exactly when these are well-formed
    UTF-8. *)
Module Buffer.

Definition in_range (lo hi : N) (c : ascii) : bool :=
  (lo <=? N_of_ascii c)%N && (N_of_ascii c <=? hi)%N.

(** A continuation byte, 80 to BF. *)
Definition continuation (c : ascii) : bool := in_range 128 191 c.

(** Well-formed UTF-8, by the table of the Unicode Standard: one byte 00..7F;
    two bytes C2..DF 80..BF; three bytes E0 A0..BF, E1..EC 80..BF, ED 80..9F
    or EE..EF 80..BF, and a continuation byte; four bytes F0 90..BF,
    F1..F3 80..BF or F4 80..8F, and two continuation bytes. *)
Fixpoint well_formed_utf8 (s : string) : bool :=
  match s with
  | EmptyString => true
  | String c1 s1 =>
      if in_range 0 127 c1 then well_formed_utf8 s1
      else
        match s1 with
        | String c2 s2 =>
            if in_range 194 223 c1 && continuation c2 then well_formed_utf8 s2
            else
              match s2 with
              | String c3 s3 =>
                  if (in_range 224 224 c1 && in_range 160 191 c2
                      || in_range 225 236 c1 && continuation c2
                      || in_range 237 237 c1 && in_range 128 159 c2
                      || in_range 238 239 c1 && continuation c2)
                     && continuation c3
                  then well_formed_utf8 s3
                  else
                    match s3 with
                    | String c4 s4 =>
                        if (in_range 240 240 c1 && in_range 144 191 c2
                            || in_range 241 243 c1 && continuation c2
                            || in_range 244 244 c1 && in_range 128 143 c2)
                           && continuation c3 && continuation c4
                        then well_formed_utf8 s4
                        else false
                    | EmptyString => false
                    end
              | EmptyString => false
              end
        | EmptyString => false
        end
  end.

(** The buffer of the given bytes. *)
Definition from (l : list Z) : string :=
  foldr (fun n s => String (ascii_of_N (Z.to_N n)) s) EmptyString l.

End Buffer.

(** ** Regular expressions *)

(** The fragment of the regular-expression syntax the sources use.  A pattern
    written [/^r$/] is tested against the whole string. *)
Module RegExp.

Inductive regex :=
| Void                        (* matches nothing *)
| Eps                         (* the empty string *)
| Chr (c : ascii)             (* a literal character *)
| Digit                       (* \d *)
| Seq (r1 r2 : regex)         (* r1r2 *)
| Alt (r1 r2 : regex)         (* r1|r2 *)
| Star (r : regex).           (* r* *)

(** [r?], [r+], [r{n}] and a literal word. *)
Definition Opt (r : regex) : regex := Alt r Eps.
Definition Plus (r : regex) : regex := Seq r (Star r).
Fixpoint Rep (n : nat) (r : regex) : regex :=
  match n with
  | O => Eps
  | S n' => Seq r (Rep n' r)
  end.
Fixpoint Lit (s : string) : regex :=
  match s with
  | EmptyString => Eps
  | String c s' => Seq (Chr c) (Lit s')
  end.

Fixpoint nullable (r : regex) : bool :=
  match r with
  | Void => false
  | Eps => true
  | Chr _ => false
  | Digit => false
  | Seq r1 r2 => nullable r1 && nullable r2
  | Alt r1 r2 => nullable r1 || nullable r2
  | Star _ => true
  end.

(** Brzozowski derivative. *)
Fixpoint deriv (c : ascii) (r : regex) : regex :=
  match r with
  | Void => Void
  | Eps => Void
  | Chr c' => if Ascii.eqb c c' then Eps else Void
  | Digit => if JsString.is_digit c then Eps else Void
  | Seq r1 r2 =>
      if nullable r1
      then Alt (Seq (deriv c r1) r2) (deriv c r2)
      else Seq (deriv c r1) r2
  | Alt r1 r2 => Alt (deriv c r1) (deriv c r2)
  | Star r1 => Seq (deriv c r1) (Star r1)
  end.

(** [/^r$/.test(s)]. *)
Fixpoint test (r : regex) (s : string) : bool :=
  match s with
  | EmptyString => nullable r
  | String c s' => test (deriv c r) s'
  end.

(** The language of a pattern, as a relation. *)
Inductive matches : regex -> string -> Prop :=
| M_Eps : matches Eps EmptyString
| M_Chr c : matches (Chr c) (String c EmptyString)
| M_Digit c : JsString.is_digit c = true -> matches Digit (String c EmptyString)
| M_Seq r1 r2 s1 s2 : matches r1 s1 -> matches r2 s2 -> matches (Seq r1 r2) (s1 +:+ s2)
| M_AltL r1 r2 s : matches r1 s -> matches (Alt r1 r2) s
| M_AltR r1 r2 s : matches r2 s -> matches (Alt r1 r2) s
| M_StarNil r : matches (Star r) EmptyString
| M_StarCons r s1 s2 : matches r s1 -> matches (Star r) s2 -> matches (Star r) (s1 +:+ s2).

End RegExp.

(** ** Dates *)

(** What [new Date()] shows through its local-time getters.  [getMonth] is
    zero-based. *)
Record Date := {
  getFullYear : Z;
  getMonth : Z;
  getDate : Z;
  getHours : Z;
  getMinutes : Z;
  getSeconds : Z;
  getMilliseconds : Z
}.

Module DateMath.

Definition msPerDay : Z := 86400000.
Definition msPerHour : Z := 3600000.
Definition msPerMinute : Z := 60000.
Definition msPerSecond : Z := 1000.

Definition DaysInYear (y : Z) : Z :=
  if bool_decide (y mod 4 ≠ 0) then 365
  else if bool_decide (y mod 100 ≠ 0) then 366
  else if bool_decide (y mod 400 ≠ 0) then 365
  else 366.

Definition DayFromYear (y : Z) : Z :=
  365 * (y - 1970) + (y - 1969) / 4 - (y - 1901) / 100 + (y - 1601) / 400.

Definition InLeapYear (y : Z) : Z := DaysInYear y - 365.

(** Day number within the year of the first day of month [mn] (0 to 11). *)
Definition DayWithinYear (mn leap : Z) : Z :=
  match mn with
  | 0 => 0
  | 1 => 31
  | 2 => 59 + leap
  | 3 => 90 + leap
  | 4 => 120 + leap
  | 5 => 151 + leap
  | 6 => 181 + leap
  | 7 => 212 + leap
  | 8 => 243 + leap
  | 9 => 273 + leap
  | 10 => 304 + leap
  | _ => 334 + leap
  end.

(** Days in month [mn] (0 to 11) of year [y]. *)
Definition DaysInMonth (y mn : Z) : Z :=
  match mn with
  | 1 => 28 + InLeapYear y
  | 3 | 5 | 8 | 10 => 30
  | _ => 31
  end.

(** [MakeDay]: month overflow carries into the year, day overflow into the
    following months. *)
Definition MakeDay (year month date : Z) : Z :=
  let ym := year + month / 12 in
  let mn := month mod 12 in
  DayFromYear ym + DayWithinYear mn (InLeapYear ym) + date - 1.

Definition MakeTime (hour min sec ms : Z) : Z :=
  hour * msPerHour + min * msPerMinute + sec * msPerSecond + ms.

Definition MakeDate (day time : Z) : Z := day * msPerDay + time.

Definition TimeClip (t : Z) : number :=
  if bool_decide (Z.abs t > 8640000000000000) then NaN else Num t.

Section LocalTime.
(** The host's time zone: the offset, in milliseconds, of local time from
    UTC at the local time value [t]. *)
Variable LocalTZA : Z -> Z.

Definition UTC (t : Z) : Z := t - LocalTZA t.

(** [new Date(year, month, date, hours, minutes, seconds).getTime()].
    A year from 0 to 99 means 1900 + year. *)
Definition Date_getTime (year month date hours minutes seconds : number) : number :=
  match year, month, date, hours, minutes, seconds with
  | Num y, Num m, Num dt, Num h, Num mi, Num s =>
      let yr := if bool_decide (0 <= y <= 99) then 1900 + y else y in
      TimeClip (UTC (MakeDate (MakeDay yr m dt) (MakeTime h mi s 0)))
  | _, _, _, _, _, _ => NaN
  end.
End LocalTime.

End DateMath.

(** ** Node's [path] module (POSIX flavour) *)

(** A path is kept as the list of its segments from the root; [path.join]
    splits every part at the separator, drops empty and dot segments and
    lets a double dot remove the segment before it. *)
Module path.

Abbreviation t := (list string) (only parsing).

(** [s.split('/')]: the segments between the separators. *)
Fixpoint split (s : string) : list string :=
  match s with
  | EmptyString => [EmptyString]
  | String c s' =>
      if Ascii.eqb c "/" then EmptyString :: split s'
      else
        match split s' with
        | seg :: rest => String c seg :: rest
        | [] => [String c EmptyString]
        end
  end.

Definition push (p : t) (seg : string) : t :=
  if decide (seg = EmptyString) then p
  else if decide (seg = ".") then p
  else if decide (seg = "..") then removelast p
  else p ++ [seg].

(** [path.join(base, ...parts)]. *)
Definition join (base : t) (parts : list string) : t :=
  foldl push base (concat (split <$> parts)).

(** [path.dirname(p)]. *)
Definition dirname (p : t) : t := removelast p.

(** [path.basename(p)]: the last segment, and the empty string at the
    root. *)
Definition basename (p : t) : string := default EmptyString (last p).

End path.

(** ** Effects *)

(** An asynchronous function is a state transformer that returns or throws;
    [await] is sequencing, and a rejected promise is a thrown exception. *)
Definition IO (W A : Type) : Type := W -> outcome A * W.

Definition ret {W A} (a : A) : IO W A := fun w => (Returned a, w).

Definition throw {W A} (e : exn) : IO W A := fun w => (Thrown e, w).

Definition bind {W A B} (m : IO W A) (k : A -> IO W B) : IO W B :=
  fun w =>
    match m w with
    | (Returned a, w') => k a w'
    | (Thrown e, w') => (Thrown e, w')
    end.

(** [try { m } catch (e) { h e }]. *)
Definition try_catch {W A} (m : IO W A) (h : exn -> IO W A) : IO W A :=
  fun w =>
    match m w with
    | (Returned a, w') => (Returned a, w')
    | (Thrown e, w') => h e w'
    end.

(** A synchronous computation that may throw, used inside an [IO] block. *)
Definition lift {W A} (o : outcome A) : IO W A := fun w => (o, w).

#[global] Instance IO_ret {W} : MRet (IO W) := fun A a => ret a.
#[global] Instance IO_bind {W} : MBind (IO W) := fun A B k m => bind m k.

(** [UserDataResource], a string enum. *)
Inductive UserDataResource :=
| Settings
| Keybindings.

Definition resource_string (r : UserDataResource) : string :=
  match r with
  | Settings => "settings"
  | Keybindings => "keybindings"
  end.

#[global] Instance UserDataResource_eq_dec : EqDecision UserDataResource.
Proof. solve_decision. Defined.

(** What the extension host offers the code: the promisified [fs] functions
    it calls, the clock behind [new Date()], the time zone, the process
    environment read by [getUserDataPath], and the [fire] method of the
    service's event emitter.  [W] is the state of the outside world. *)
Record Host (W : Type) := {
  fs_exists : path.t -> IO W bool;
  fs_mkdir_recursive : path.t -> IO W unit;
  fs_readdir : path.t -> IO W (list string);
  fs_readFile : path.t -> IO W string;
  fs_writeFile : path.t -> string -> IO W unit;
  new_Date : IO W Date;
  emitter_fire : UserDataResource -> IO W unit;
  LocalTZA : Z -> Z;
  process_platform : string;
  os_homedir : path.t;
  env_USERPROFILE : option path.t
}.
Arguments fs_exists {W} _ _ _.
Arguments fs_mkdir_recursive {W} _ _ _.
Arguments fs_readdir {W} _ _ _.
Arguments fs_readFile {W} _ _ _.
Arguments fs_writeFile {W} _ _ _ _.
Arguments new_Date {W} _ _.
Arguments emitter_fire {W} _ _ _.
Arguments LocalTZA {W} _ _.
Arguments process_platform {W} _.
Arguments os_homedir {W} _.
Arguments env_USERPROFILE {W} _.

(** [context.globalStoragePath] is all the code reads of the extension
    context. *)
Record ExtensionContext := {
  globalStoragePath : path.t
}.

(** [IUserDataBackupEntry] of [extension.ts] and of the first file of
    [part_000]. *)
Record IUserDataBackupEntry := {
  resource : UserDataResource;
  name : string;
  created : number
}.

(** The pattern [/^\d{8}T\d{6}(\.json)?$/] of [getAllEntries]. *)
Definition entry_pattern : RegExp.regex :=
  RegExp.Seq (RegExp.Rep 8 RegExp.Digit)
    (RegExp.Seq (RegExp.Chr "T")
       (RegExp.Seq (RegExp.Rep 6 RegExp.Digit)
          (RegExp.Opt (RegExp.Lit ".json")))).

(** The third alternative of [/-|:|\.\d+Z$/g]. *)
Definition fraction_pattern : RegExp.regex :=
  RegExp.Seq (RegExp.Chr ".") (RegExp.Seq (RegExp.Plus RegExp.Digit) (RegExp.Chr "Z")).

(** [s.replace(/-|:|\.\d+Z$/g, '')].  The scan goes left to right.  At each
    position the alternatives are tried in order: a dash or a colon is one
    character and is dropped; the third alternative is anchored at the end
    of the input, so when it matches it takes all that is left. *)
Fixpoint replace_separators (s : string) : string :=
  match s with
  | EmptyString => EmptyString
  | String c s' =>
      if Ascii.eqb c "-" then replace_separators s'
      else if Ascii.eqb c ":" then replace_separators s'
      else if RegExp.test fraction_pattern s then EmptyString
      else String c (replace_separators s')
  end.

(** [(ms / 1000).toFixed(3)] for a non-negative integer [ms]: the quotient
    has at most three decimals, which [toFixed(3)] prints exactly. *)
Definition thousandths_toFixed3 (ms : Z) : string :=
  let frac := pretty (ms mod 1000) in
  pretty (ms / 1000) +:+ "." +:+
  JsString.join_empty (replicate (3 - String.length frac) "0") +:+ frac.

(** ** [src/extension.ts] *)

Module Extension.

Section Service.
Context {W : Type} (host : Host W).

(** [function pad(n, l, char = '0')]. *)
Definition pad (n : Z) (l : nat) : string :=
  let char := "0" in
  let str := Number_toString (Num n) in
  let r := [str] in
  (* the loop pushes [char] once for every [i] from [str.length] up to [l] *)
  let r := r ++ replicate (l - String.length str) char in
  JsString.join_empty (reverse r).

(** [function toLocalISOString(date)]. *)
Definition toLocalISOString (date : Date) : string :=
  Number_toString (Num (getFullYear date)) +:+
  "-" +:+ pad (getMonth date + 1) 2 +:+
  "-" +:+ pad (getDate date) 2 +:+
  "T" +:+ pad (getHours date) 2 +:+
  ":" +:+ pad (getMinutes date) 2 +:+
  ":" +:+ pad (getSeconds date) 2 +:+
  "." +:+ JsString.slice (thousandths_toFixed3 (getMilliseconds date)) 2 5 +:+
  "Z".

(** [function getUserDataPath()]; [path.join] throws on an undefined part. *)
Definition getUserDataPath : outcome path.t :=
  let name := "Code - Insiders" in
  if decide (process_platform host = "win32") then
    match env_USERPROFILE host with
    | Some profile => Returned (path.join profile ["AppData"; "Roaming"; name; "User"])
    | None => Thrown (TypeError "The path argument must be of type string")
    end
  else if decide (process_platform host = "darwin") then
    Returned (path.join (os_homedir host) ["Library"; "Application Support"; name; "User"])
  else if decide (process_platform host = "linux") then
    Returned (path.join (os_homedir host) [".config"; name; "User"])
  else Thrown (Error "Platform not supported").

(** The fields of a [UserDataBackupService] object. *)
Record UserDataBackupService := {
  userDataBackupFolder : path.t;
  userDataPath : path.t
}.

(** [new UserDataBackupService(context)]: the field initialiser
    [path.resolve(getUserDataPath())], then the constructor body. *)
Definition new_UserDataBackupService (context : ExtensionContext) : outcome UserDataBackupService :=
  match getUserDataPath with
  | Returned p =>
      Returned {| userDataBackupFolder := path.join (globalStoragePath context) ["userdata-backup"];
                  userDataPath := p |}
  | Thrown e => Thrown e
  end.

Variable this : UserDataBackupService.

Definition resolveContent (resource : UserDataResource) (name : string) : IO W string :=
  try_catch
    (let userDataBackupFilePath :=
       path.join (userDataBackupFolder this) [resource_string resource; name] in
     content ← fs_readFile host userDataBackupFilePath;
     mret content)
    (fun e => mret EmptyString).

Definition getCreationTime (name : string) : number :=
  DateMath.Date_getTime (LocalTZA host)
    (JsString.parseInt (JsString.substring name 0 4))
    (num_sub (JsString.parseInt (JsString.substring name 4 6)) (Num 1))
    (JsString.parseInt (JsString.substring name 6 8))
    (JsString.parseInt (JsString.substring name 9 11))
    (JsString.parseInt (JsString.substring name 11 13))
    (JsString.parseInt (JsString.substring name 13 15)).

Definition getAllEntries (resource : UserDataResource) : IO W (list IUserDataBackupEntry) :=
  try_catch
    (let userDataBackupFolderPath :=
       path.join (userDataBackupFolder this) [resource_string resource] in
     children ← fs_readdir host userDataBackupFolderPath;
     let all :=
       reverse (merge_sort String.le (filter (fun name => RegExp.test entry_pattern name = true) children)) in
     mret ((fun name => {| name := name; created := getCreationTime name; resource := resource |}) <$> all))
    (fun e => mret []).

Definition backup (resource : UserDataResource) : IO W unit :=
  let userDataFilePath :=
    path.join (userDataPath this) [resource_string resource +:+ ".json"] in
  let userDataBackupFolderPath :=
    path.join (userDataBackupFolder this) [resource_string resource] in
  present ← fs_exists host userDataBackupFolderPath;
  (if negb present then fs_mkdir_recursive host userDataBackupFolderPath else mret tt);;
  date ← new_Date host;
  let userDataBackupFilePath :=
    path.join userDataBackupFolderPath
      [replace_separators (toLocalISOString date) +:+ ".json"] in
  content ← fs_readFile host userDataFilePath;
  fs_writeFile host userDataBackupFilePath content;;
  emitter_fire host resource.

End Service.

End Extension.

(** ** The second generation: first file of [unnamed/part_000] *)

Module Paged.

Section Service.
Context {W : Type} (host : Host W).

(** [function pad(n, l, char = '0')]. *)
Definition pad (n : Z) (l : nat) : string :=
  let char := "0" in
  let str := Number_toString (Num n) in
  let r := [str] in
  let r := r ++ replicate (l - String.length str) char in
  JsString.join_empty (reverse r).

(** [function toLocalISOString(date)]. *)
Definition toLocalISOString (date : Date) : string :=
  Number_toString (Num (getFullYear date)) +:+
  "-" +:+ pad (getMonth date + 1) 2 +:+
  "-" +:+ pad (getDate date) 2 +:+
  "T" +:+ pad (getHours date) 2 +:+
  ":" +:+ pad (getMinutes date) 2 +:+
  ":" +:+ pad (getSeconds date) 2 +:+
  "." +:+ JsString.slice (thousandths_toFixed3 (getMilliseconds date)) 2 5 +:+
  "Z".

Record UserDataBackupService := {
  userDataPath : path.t;
  userDataBackupFolder : path.t
}.

(** [new UserDataBackupService(context)]. *)
Definition new_UserDataBackupService (context : ExtensionContext) : UserDataBackupService :=
  {| userDataPath := path.dirname (path.dirname (globalStoragePath context));
     userDataBackupFolder := path.join (globalStoragePath context) ["userdata-backup"] |}.

Variable this : UserDataBackupService.

Definition resolveContent (resource : UserDataResource) (name : string) : IO W string :=
  try_catch
    (let userDataBackupFilePath :=
       path.join (userDataBackupFolder this) [resource_string resource; name] in
     content ← fs_readFile host userDataBackupFilePath;
     mret content)
    (fun e => mret EmptyString).

Definition getCreationTime (name : string) : number :=
  DateMath.Date_getTime (LocalTZA host)
    (JsString.parseInt (JsString.substring name 0 4))
    (num_sub (JsString.parseInt (JsString.substring name 4 6)) (Num 1))
    (JsString.parseInt (JsString.substring name 6 8))
    (JsString.parseInt (JsString.substring name 9 11))
    (JsString.parseInt (JsString.substring name 11 13))
    (JsString.parseInt (JsString.substring name 13 15)).

Definition getAllEntries (resource : UserDataResource) : IO W (list IUserDataBackupEntry) :=
  try_catch
    (let userDataBackupFolderPath :=
       path.join (userDataBackupFolder this) [resource_string resource] in
     children ← fs_readdir host userDataBackupFolderPath;
     let all :=
       reverse (merge_sort String.le (filter (fun name => RegExp.test entry_pattern name = true) children)) in
     mret ((fun name => {| name := name; created := getCreationTime name; resource := resource |}) <$> all))
    (fun e => mret []).

Definition backup (resource : UserDataResource) : IO W unit :=
  let userDataFilePath :=
    path.join (userDataPath this) [resource_string resource +:+ ".json"] in
  let userDataBackupFolderPath :=
    path.join (userDataBackupFolder this) [resource_string resource] in
  present ← fs_exists host userDataBackupFolderPath;
  (if negb present then fs_mkdir_recursive host userDataBackupFolderPath else mret tt);;
  date ← new_Date host;
  let userDataBackupFilePath :=
    path.join userDataBackupFolderPath
      [replace_separators (toLocalISOString date) +:+ ".json"] in
  content ← fs_readFile host userDataFilePath;
  fs_writeFile host userDataBackupFilePath content;;
  emitter_fire host resource.

End Service.

End Paged.

(** ** [JSON.parse] *)

Module JSON.

Set Warnings "-register-all".

Inductive value :=
| Null
| Bool (b : bool)
| Number (text : string)       (* a number, kept as its literal *)
| Str (s : string)
| Array (items : list value)
| Object (members : list (string * value)).

(** A JavaScript value as far as the code can see one: a parsed JSON value
    or [undefined]. *)
Inductive js :=
| Undefined
| Json (v : value).

Definition is_ws (c : ascii) : bool :=
  let n := N_of_ascii c in
  (n =? 32)%N || (n =? 9)%N || (n =? 10)%N || (n =? 13)%N.

Fixpoint skip_ws (s : string) : string :=
  match s with
  | String c s' => if is_ws c then skip_ws s' else s
  | EmptyString => s
  end.

(** The longest prefix of digits and what follows it. *)
Fixpoint span_digits (s : string) : string * string :=
  match s with
  | String c s' =>
      if JsString.is_digit c
      then let '(ds, rest) := span_digits s' in (String c ds, rest)
      else (EmptyString, s)
  | EmptyString => (EmptyString, EmptyString)
  end.

(** The integer part of a number: an optional minus sign, then either a
    single zero or a digit from 1 to 9 followed by any digits. *)
Definition lex_int (s : string) : option (string * string) :=
  let '(sign, s1) :=
    match s with
    | String "-" s' => ("-", s')
    | _ => (EmptyString, s)
    end in
  match s1 with
  | String "0" s' => Some (sign +:+ "0", s')
  | String c _ =>
      if JsString.is_digit c
      then let '(ds, rest) := span_digits s1 in Some (sign +:+ ds, rest)
      else None
  | EmptyString => None
  end.

(** The optional fraction: a point and one digit or more. *)
Definition lex_frac (s : string) : option (string * string) :=
  match s with
  | String "." s' =>
      match span_digits s' with
      | (EmptyString, _) => None
      | (ds, rest) => Some ("." +:+ ds, rest)
      end
  | _ => Some (EmptyString, s)
  end.

(** The optional exponent: e or E, an optional sign, one digit or more. *)
Definition lex_exp (s : string) : option (string * string) :=
  match s with
  | String e s' =>
      if Ascii.eqb e "e" || Ascii.eqb e "E" then
        let '(sign, s2) :=
          match s' with
          | String "+" s'' => ("+", s'')
          | String "-" s'' => ("-", s'')
          | _ => (EmptyString, s')
          end in
        match span_digits s2 with
        | (EmptyString, _) => None
        | (ds, rest) => Some (String e sign +:+ ds, rest)
        end
      else Some (EmptyString, s)
  | EmptyString => Some (EmptyString, s)
  end.

Definition lex_number (s : string) : option (string * string) :=
  match lex_int s with
  | Some (i, s1) =>
      match lex_frac s1 with
      | Some (f, s2) =>
          match lex_exp s2 with
          | Some (e, s3) => Some (i +:+ f +:+ e, s3)
          | None => None
          end
      | None => None
      end
  | None => None
  end.

(** The quotation mark and the reverse solidus. *)
Definition dquote : ascii := "034"%char.
Definition backslash : ascii := "092"%char.

(** Four hexadecimal digits of a unicode escape. *)
Definition hex4 (s : string) : option (Z * string) :=
  match s with
  | String a (String b (String c (String d rest))) =>
      if JsString.is_hex_digit a && JsString.is_hex_digit b
         && JsString.is_hex_digit c && JsString.is_hex_digit d
      then Some (((JsString.hex_value a * 16 + JsString.hex_value b) * 16
                  + JsString.hex_value c) * 16 + JsString.hex_value d, rest)
      else None
  | _ => None
  end.

Definition byte (z : Z) : ascii := ascii_of_N (Z.to_N z).

(** A string is held as its UTF-8 bytes. *)
Definition utf8 (cp : Z) : string :=
  if cp <? 128 then String (byte cp) EmptyString
  else if cp <? 2048 then
    String (byte (192 + cp / 64)) (String (byte (128 + cp mod 64)) EmptyString)
  else if cp <? 65536 then
    String (byte (224 + cp / 4096))
      (String (byte (128 + (cp / 64) mod 64))
         (String (byte (128 + cp mod 64)) EmptyString))
  else
    String (byte (240 + cp / 262144))
      (String (byte (128 + (cp / 4096) mod 64))
         (String (byte (128 + (cp / 64) mod 64))
            (String (byte (128 + cp mod 64)) EmptyString))).

(** The code unit of a unicode escape, joined with a following low surrogate
    when it is a high surrogate. *)
Definition lex_unicode (s : string) : option (string * string) :=
  match hex4 s with
  | Some (hi, rest) =>
      if (55296 <=? hi) && (hi <=? 56319) then
        match rest with
        | String "092" (String "u" rest') =>
            match hex4 rest' with
            | Some (lo, rest'') =>
                if (56320 <=? lo) && (lo <=? 57343)
                then Some (utf8 (65536 + (hi - 55296) * 1024 + (lo - 56320)), rest'')
                else Some (utf8 hi, rest)
            | None => Some (utf8 hi, rest)
            end
        | _ => Some (utf8 hi, rest)
        end
      else Some (utf8 hi, rest)
  | None => None
  end.

(** The characters of a string literal after its opening quote, up to and
    including the closing quote.  Control characters are refused; the
    escapes are those of the JSON grammar. *)
Fixpoint lex_string (fuel : nat) (s : string) : option (string * string) :=
  match fuel with
  | O => None
  | S fuel' =>
      match s with
      | EmptyString => None
      | String c rest =>
          if Ascii.eqb c dquote then Some (EmptyString, rest)
          else if Ascii.eqb c backslash then
            match rest with
            | EmptyString => None
            | String e rest1 =>
                let simple (ch : ascii) :=
                  match lex_string fuel' rest1 with
                  | Some (str, rest2) => Some (String ch str, rest2)
                  | None => None
                  end in
                if Ascii.eqb e dquote then simple dquote
                else if Ascii.eqb e backslash then simple backslash
                else if Ascii.eqb e "/" then simple "/"%char
                else if Ascii.eqb e "b" then simple "008"%char
                else if Ascii.eqb e "f" then simple "012"%char
                else if Ascii.eqb e "n" then simple "010"%char
                else if Ascii.eqb e "r" then simple "013"%char
                else if Ascii.eqb e "t" then simple "009"%char
                else if Ascii.eqb e "u" then
                  match lex_unicode rest1 with
                  | Some (bytes, rest2) =>
                      match lex_string fuel' rest2 with
                      | Some (str, rest3) => Some (bytes +:+ str, rest3)
                      | None => None
                      end
                  | None => None
                  end
                else None
            end
          else if (N_of_ascii c <? 32)%N then None
          else
            match lex_string fuel' rest with
            | Some (str, rest1) => Some (String c str, rest1)
            | None => None
            end
      end
  end.

(** [s] begins with [word]: what follows it. *)
Definition after_word (word s : string) : option string :=
  if String.prefix word s then Some (JsString.drop (String.length word) s) else None.

(** A JSON value at the head of [s] (after white space) and what follows.
    Every level of nesting uses one unit of [fuel]. *)
Fixpoint parse_value (fuel : nat) (s : string) : option (value * string) :=
  match fuel with
  | O => None
  | S fuel' =>
      match skip_ws s with
      | EmptyString => None
      | String c rest as s1 =>
          if Ascii.eqb c "n" then
            match after_word "null" s1 with Some r => Some (Null, r) | None => None end
          else if Ascii.eqb c "t" then
            match after_word "true" s1 with Some r => Some (Bool true, r) | None => None end
          else if Ascii.eqb c "f" then
            match after_word "false" s1 with Some r => Some (Bool false, r) | None => None end
          else if Ascii.eqb c dquote then
            match lex_string (S (String.length rest)) rest with
            | Some (str, r) => Some (Str str, r)
            | None => None
            end
          else if Ascii.eqb c "[" then
            match skip_ws rest with
            | String "]" r => Some (Array [], r)
            | _ =>
                match parse_elements fuel' rest with
                | Some (items, r) => Some (Array items, r)
                | None => None
                end
            end
          else if Ascii.eqb c "{" then
            match skip_ws rest with
            | String "}" r => Some (Object [], r)
            | _ =>
                match parse_members fuel' rest with
                | Some (members, r) => Some (Object members, r)
                | None => None
                end
            end
          else
            match lex_number s1 with
            | Some (text, r) => Some (Number text, r)
            | None => None
            end
      end
  end

with parse_elements (fuel : nat) (s : string) : option (list value * string) :=
  match fuel with
  | O => None
  | S fuel' =>
      match parse_value fuel' s with
      | Some (v, r) =>
          match skip_ws r with
          | String "," r1 =>
              match parse_elements fuel' r1 with
              | Some (vs, r2) => Some (v :: vs, r2)
              | None => None
              end
          | String "]" r1 => Some ([v], r1)
          | _ => None
          end
      | None => None
      end
  end

with parse_members (fuel : nat) (s : string) : option (list (string * value) * string) :=
  match fuel with
  | O => None
  | S fuel' =>
      match skip_ws s with
      | String c rest =>
          if Ascii.eqb c dquote then
            match lex_string (S (String.length rest)) rest with
            | Some (key, r) =>
                match skip_ws r with
                | String ":" r1 =>
                    match parse_value fuel' r1 with
                    | Some (v, r2) =>
                        match skip_ws r2 with
                        | String "," r3 =>
                            match parse_members fuel' r3 with
                            | Some (ms, r4) => Some ((key, v) :: ms, r4)
                            | None => None
                            end
                        | String "}" r3 => Some ([(key, v)], r3)
                        | _ => None
                        end
                    | None => None
                    end
                | _ => None
                end
            | None => None
            end
          else None
      | EmptyString => None
      end
  end.

(** [JSON.parse(text)]: one value, white space around it, nothing else.
    An element of an array costs one unit of fuel and a level of nesting
    two, each for at least one character read, so twice the length is
    enough. *)
Definition parse (text : string) : outcome value :=
  match parse_value (2 * String.length text + 2) text with
  | Some (v, rest) =>
      match skip_ws rest with
      | EmptyString => Returned v
      | _ => Thrown (SyntaxError "Unexpected token in JSON")
      end
  | None => Thrown (SyntaxError "Unexpected token in JSON")
  end.

(** [const { key } = v]: a [TypeError] on [null] and [undefined]; for an
    object the last member of that name (a later duplicate overwrites an
    earlier one); [undefined] otherwise.  The keys the code destructures,
    [content] and [settings], are properties of no prototype. *)
Definition get_property (v : js) (key : string) : outcome js :=
  match v with
  | Undefined => Thrown (TypeError "Cannot destructure undefined")
  | Json Null => Thrown (TypeError "Cannot destructure null")
  | Json (Object members) =>
      match list_find (fun m => fst m = key) (reverse members) with
      | Some (_, (_, x)) => Returned (Json x)
      | None => Returned Undefined
      end
  | Json _ => Returned Undefined
  end.

Section ToString.
(** The text of the double that a number literal denotes.  Floating point is
    left to the host. *)
Variable Number_text : string -> string.

Fixpoint value_text (v : value) : string :=
  match v with
  | Null => "null"
  | Bool true => "true"
  | Bool false => "false"
  | Number text => Number_text text
  | Str s => s
  | Array items =>
      (* [Array.prototype.join]: a comma between elements, nothing for [null] *)
      let fix items_text (l : list value) : string :=
        match l with
        | [] => EmptyString
        | [x] => match x with Null => EmptyString | _ => value_text x end
        | x :: l' =>
            match x with Null => EmptyString | _ => value_text x end +:+ "," +:+ items_text l'
        end in
      items_text items
  | Object _ => "[object Object]"
  end.

(** [ToString], applied by [JSON.parse] to its argument. *)
Definition ToString (v : js) : string :=
  match v with
  | Undefined => "undefined"
  | Json x => value_text x
  end.
End ToString.

End JSON.

(** ** The third generation: second file of [unnamed/part_000] *)

(** A [vscode.Uri]: its scheme and its path. *)
Record Uri := {
  scheme : string;
  uri_path : path.t
}.

(** [options.cursor] of [vscode.TimelineOptions]. *)
Record TimelineOptions := {
  cursor : option string
}.

(** A string is truthy when it is defined and not empty. *)
Definition truthy (o : option string) : bool :=
  match o with
  | Some s => negb (String.eqb s EmptyString)
  | None => false
  end.

(** [ToIntegerOrInfinity] of an index argument: [NaN] counts as 0. *)
Definition to_index (n : number) : Z :=
  match n with
  | Num z => z
  | NaN => 0
  end.

(** [l.slice(a, b)] on an array. *)
Definition array_slice {A} (l : list A) (a b : number) : list A :=
  let len := length l in
  let from := JsString.rel_index len (to_index a) in
  let to := JsString.rel_index len (to_index b) in
  take (to - from) (drop from l).

Module Resolver.

(** [IUserDataBackupEntry] with the [uri] field this generation adds. *)
Record IUserDataBackupEntry := {
  resource : UserDataResource;
  uri : Uri;
  name : string;
  created : number
}.

(** [UserDataTimelineItem]. *)
Record UserDataTimelineItem := {
  label : string;
  timestamp : number;
  source : Uri;
  backup_uri : Uri;
  command_arguments : list Uri;
  contextValue : string
}.

(** [vscode.Timeline]: the items and [paging.cursor]. *)
Record Timeline := {
  items : list UserDataTimelineItem;
  paging_cursor : option string
}.

Section Service.
Context {W : Type} (host : Host W).

(** [function pad(n, l, char = '0')]. *)
Definition pad (n : Z) (l : nat) : string :=
  let char := "0" in
  let str := Number_toString (Num n) in
  let r := [str] in
  let r := r ++ replicate (l - String.length str) char in
  JsString.join_empty (reverse r).

(** [function toLocalISOString(date)]. *)
Definition toLocalISOString (date : Date) : string :=
  Number_toString (Num (getFullYear date)) +:+
  "-" +:+ pad (getMonth date + 1) 2 +:+
  "-" +:+ pad (getDate date) 2 +:+
  "T" +:+ pad (getHours date) 2 +:+
  ":" +:+ pad (getMinutes date) 2 +:+
  ":" +:+ pad (getSeconds date) 2 +:+
  "." +:+ JsString.slice (thousandths_toFixed3 (getMilliseconds date)) 2 5 +:+
  "Z".

(** The fields of an object of the abstract class [UserDataBackupResolver]. *)
Record UserDataBackupResolver := {
  userDataPath : path.t;
  resolver_scheme : string;
  userDataBackupFolder : path.t
}.

(** [constructor(scheme, userDataBackupFolder, context)] of the base class. *)
Definition new_UserDataBackupResolver
    (scheme : string) (userDataBackupFolder : path.t) (context : ExtensionContext)
    : UserDataBackupResolver :=
  {| userDataPath := path.dirname (path.dirname (globalStoragePath context));
     resolver_scheme := scheme;
     userDataBackupFolder := userDataBackupFolder |}.

(** [new UserDataSyncBackupResolver(context)]. *)
Definition new_UserDataSyncBackupResolver (context : ExtensionContext) : UserDataBackupResolver :=
  new_UserDataBackupResolver "userdata-sync-timeline"
    (path.join (path.dirname (path.dirname (globalStoragePath context))) ["sync"]) context.

(** [new UserDataChangesBackupService(context)]. *)
Definition new_UserDataChangesBackupService (context : ExtensionContext) : UserDataBackupResolver :=
  new_UserDataBackupResolver "userdata-timeline"
    (path.join (globalStoragePath context) ["userdata-backup"]) context.

Variable this : UserDataBackupResolver.

(** [UserDataBackupResolver.resolveContent]. *)
Definition resolveContent (resource : UserDataResource) (name : string) : IO W string :=
  try_catch
    (let userDataBackupFilePath :=
       path.join (userDataBackupFolder this) [resource_string resource; name] in
     content ← fs_readFile host userDataBackupFilePath;
     mret content)
    (fun e => mret EmptyString).

Definition getCreationTime (name : string) : number :=
  DateMath.Date_getTime (LocalTZA host)
    (JsString.parseInt (JsString.substring name 0 4))
    (num_sub (JsString.parseInt (JsString.substring name 4 6)) (Num 1))
    (JsString.parseInt (JsString.substring name 6 8))
    (JsString.parseInt (JsString.substring name 9 11))
    (JsString.parseInt (JsString.substring name 11 13))
    (JsString.parseInt (JsString.substring name 13 15)).

(** [UserDataBackupResolver.getAllEntries]. *)
Definition getAllEntries (resource : UserDataResource) : IO W (list IUserDataBackupEntry) :=
  try_catch
    (let userDataBackupFolderPath :=
       path.join (userDataBackupFolder this) [resource_string resource] in
     children ← fs_readdir host userDataBackupFolderPath;
     let all :=
       reverse (merge_sort String.le (filter (fun name => RegExp.test entry_pattern name = true) children)) in
     mret ((fun name =>
              {| name := name;
                 created := getCreationTime name;
                 resource := resource;
                 uri := {| scheme := resolver_scheme this;
                           uri_path := path.join [] [EmptyString; resource_string resource; name] |} |})
             <$> all))
    (fun e => mret []).

(** [UserDataSyncBackupResolver.resolveContent]: the base read, then two
    layers of JSON.  The result is declared a string; it is whatever the
    [settings] member holds. *)
Definition sync_resolveContent (Number_text : string -> string)
    (resource : UserDataResource) (name : string) : IO W JSON.js :=
  resolvedContent ← resolveContent resource name;
  parsed ← lift (JSON.parse resolvedContent);
  content ← lift (JSON.get_property (JSON.Json parsed) "content");
  parsed' ← lift (JSON.parse (JSON.ToString Number_text content));
  settings ← lift (JSON.get_property (JSON.Json parsed') "settings");
  mret settings.

(** [UserDataChangesBackupService.backup]. *)
Definition backup (resource : UserDataResource) : IO W unit :=
  let userDataFilePath :=
    path.join (userDataPath this) [resource_string resource +:+ ".json"] in
  let userDataBackupFolderPath :=
    path.join (userDataBackupFolder this) [resource_string resource] in
  present ← fs_exists host userDataBackupFolderPath;
  (if negb present then fs_mkdir_recursive host userDataBackupFolderPath else mret tt);;
  date ← new_Date host;
  let userDataBackupFilePath :=
    path.join userDataBackupFolderPath
      [replace_separators (toLocalISOString date) +:+ ".json"] in
  content ← fs_readFile host userDataFilePath;
  fs_writeFile host userDataBackupFilePath content;;
  emitter_fire host resource.

(** [UserDataBackupTimelineProvider.filterEntries]. *)
Definition filterEntries (entries : list IUserDataBackupEntry) (options : TimelineOptions)
    : list IUserDataBackupEntry :=
  if truthy (cursor options) then
    let start := JsString.parseInt (default EmptyString (cursor options)) in
    array_slice entries start (num_add start (Num 10))
  else array_slice entries (Num 0) (Num 10).

(** [UserDataBackupTimelineProvider.toTimelineItem]. *)
Definition toTimelineItem (entry : IUserDataBackupEntry) (source : Uri) : UserDataTimelineItem :=
  {| label := JsString.substring (name entry) 0 (Z.of_nat (String.length (name entry)) - 5);
     timestamp := created entry;
     source := source;
     backup_uri := uri entry;
     command_arguments := [uri entry; source];
     contextValue := "userdata/" +:+ resource_string (resource entry) |}.

(** The paging of [provideTimeline], on the list [getAllEntries] returned. *)
Definition page (allEntries : list IUserDataBackupEntry) (source : Uri) (options : TimelineOptions)
    : Timeline :=
  let filteredEntries := filterEntries allEntries options in
  let items := (fun entry => toTimelineItem entry source) <$> filteredEntries in
  let cursor :=
    if truthy (cursor options)
    then num_add (JsString.parseInt (default EmptyString (cursor options))) (Num 10)
    else Num 10 in
  {| items := items;
     paging_cursor :=
       if num_gt (Num (Z.of_nat (length allEntries))) cursor
       then Some (Number_toString cursor)
       else None |}.

(** [UserDataBackupTimelineProvider.provideTimeline], entered after the cast
    of the file name of [uri] to a [UserDataResource]. *)
Definition provideTimeline (resource : UserDataResource) (source : Uri) (options : TimelineOptions)
    : IO W Timeline :=
  allEntries ← getAllEntries resource;
  mret (page allEntries source options).

End Service.

End Resolver.

(** ** The providers *)

(** A cast [x as UserDataResource] checks nothing when the code runs: the
    method called with it gets the string [x], whatever it is.  These are
    the bodies of [resolveContent], the same in the three generations, and of
    its override in [UserDataSyncBackupResolver], over the resource as the
    string it is. *)
Definition resolveContent_text {W} (host : Host W) (userDataBackupFolder : path.t)
    (resource name : string) : IO W string :=
  try_catch
    (let userDataBackupFilePath := path.join userDataBackupFolder [resource; name] in
     content ← fs_readFile host userDataBackupFilePath;
     mret content)
    (fun e => mret EmptyString).

Definition sync_resolveContent_text {W} (host : Host W) (userDataBackupFolder : path.t)
    (Number_text : string -> string) (resource name : string) : IO W JSON.js :=
  resolvedContent ← resolveContent_text host userDataBackupFolder resource name;
  parsed ← lift (JSON.parse resolvedContent);
  content ← lift (JSON.get_property (JSON.Json parsed) "content");
  parsed' ← lift (JSON.parse (JSON.ToString Number_text content));
  settings ← lift (JSON.get_property (JSON.Json parsed') "settings");
  mret settings.

(** [basename.substring(0, basename.length - 5)] of [provideTimeline], for
    [basename = path.basename(uri.path)]: the string that is cast to a
    [UserDataResource]. *)
Definition timeline_resource (uri : Uri) : string :=
  let basename := path.basename (uri_path uri) in
  JsString.substring basename 0 (Z.of_nat (String.length basename) - 5).

(** [vscode.Uri.file(path.join('', resource, name)).with({ scheme })]: the
    uri of a snapshot. *)
Definition snapshot_uri (scheme : string) (resource : UserDataResource) (name : string) : Uri :=
  {| scheme := scheme;
     uri_path := path.join [] [EmptyString; resource_string resource; name] |}.

(** The providers of [src/extension.ts]. *)
Module ExtensionProviders.

(** A [vscode.TimelineItem] as [toTimelineItem] fills it. *)
Record TimelineItem := {
  label : string;
  timestamp : number;
  iconPath : string;
  command_title : string;
  command_id : string;
  command_arguments : list Uri
}.

Section Providers.
Context {W : Type} (host : Host W).
Variable userDataBackupService : Extension.UserDataBackupService.

(** The uri the listener of the constructor fires when the service reports a
    change of [resource]. *)
Definition changed_uri (resource : UserDataResource) : Uri :=
  {| scheme := "vscode-userdata";
     uri_path := path.join (Extension.userDataPath userDataBackupService)
                   [resource_string resource +:+ ".json"] |}.

(** [UserDataFileChangesTimelineProvider.filterEntries]. *)
Definition filterEntries (entries : list IUserDataBackupEntry) (options : TimelineOptions)
    : list IUserDataBackupEntry :=
  entries.

(** [UserDataFileChangesTimelineProvider.toTimelineItem]. *)
Definition toTimelineItem (entry : IUserDataBackupEntry) (uri : Uri) : TimelineItem :=
  {| label := name entry;
     timestamp := created entry;
     iconPath := "file";
     command_title := "Open Comparison";
     command_id := "userdata.timeline.openDiff";
     command_arguments := [snapshot_uri "userdata-timeline" (resource entry) (name entry); uri] |}.

(** [UserDataFileChangesTimelineProvider.provideTimeline], entered after the
    cast of [timeline_resource uri]; the timeline it returns has the items and
    nothing else. *)
Definition provideTimeline (resource : UserDataResource) (uri : Uri) (options : TimelineOptions)
    : IO W (list TimelineItem) :=
  allEntries ← Extension.getAllEntries host userDataBackupService resource;
  let filteredEntries := filterEntries allEntries options in
  let items := (fun entry => toTimelineItem entry uri) <$> filteredEntries in
  mret items.

(** [UserDataFileChangesDocumentProvider.provideTextDocumentContent]. *)
Definition provideTextDocumentContent (uri : Uri) : IO W string :=
  let name := path.basename (uri_path uri) in
  let resource := path.basename (path.dirname (uri_path uri)) in
  resolveContent_text host (Extension.userDataBackupFolder userDataBackupService) resource name.

End Providers.

End ExtensionProviders.

(** The providers of the first file of [unnamed/part_000].  The interface
    [UserDataTimelineItem] is the one the second file declares. *)
Module PagedProviders.

Section Providers.
Context {W : Type} (host : Host W).
Variable userDataBackupService : Paged.UserDataBackupService.

(** The uri the listener of the constructor fires when the service reports a
    change of [resource]. *)
Definition changed_uri (resource : UserDataResource) : Uri :=
  {| scheme := "vscode-userdata";
     uri_path := path.join (Paged.userDataPath userDataBackupService)
                   [resource_string resource +:+ ".json"] |}.

(** [UserDataFileChangesTimelineProvider.filterEntries]. *)
Definition filterEntries (entries : list IUserDataBackupEntry) (options : TimelineOptions)
    : list IUserDataBackupEntry :=
  if truthy (cursor options) then
    let start := JsString.parseInt (default EmptyString (cursor options)) in
    array_slice entries start (num_add start (Num 10))
  else array_slice entries (Num 0) (Num 10).

(** [UserDataFileChangesTimelineProvider.toTimelineItem]. *)
Definition toTimelineItem (entry : IUserDataBackupEntry) (source : Uri)
    : Resolver.UserDataTimelineItem :=
  let backup := snapshot_uri "userdata-timeline" (resource entry) (name entry) in
  {| Resolver.label :=
       JsString.substring (name entry) 0 (Z.of_nat (String.length (name entry)) - 5);
     Resolver.timestamp := created entry;
     Resolver.source := source;
     Resolver.backup_uri := backup;
     Resolver.command_arguments := [backup; source];
     Resolver.contextValue := "userdata/" +:+ resource_string (resource entry) |}.

(** The paging of [provideTimeline], on the list [getAllEntries] returned. *)
Definition page (allEntries : list IUserDataBackupEntry) (uri : Uri) (options : TimelineOptions)
    : Resolver.Timeline :=
  let filteredEntries := filterEntries allEntries options in
  let items := (fun entry => toTimelineItem entry uri) <$> filteredEntries in
  let cursor :=
    if truthy (cursor options)
    then num_add (JsString.parseInt (default EmptyString (cursor options))) (Num 10)
    else Num 10 in
  {| Resolver.items := items;
     Resolver.paging_cursor :=
       if num_gt (Num (Z.of_nat (length allEntries))) cursor
       then Some (Number_toString cursor)
       else None |}.

(** [UserDataFileChangesTimelineProvider.provideTimeline], entered after the
    cast of [timeline_resource uri]. *)
Definition provideTimeline (resource : UserDataResource) (uri : Uri) (options : TimelineOptions)
    : IO W Resolver.Timeline :=
  allEntries ← Paged.getAllEntries host userDataBackupService resource;
  mret (page allEntries uri options).

(** [UserDataFileChangesTimelineProvider.replace]; [with({ scheme: 'file' })]
    keeps the path. *)
Definition replace (item : Resolver.UserDataTimelineItem) : IO W unit :=
  let name := path.basename (uri_path (Resolver.backup_uri item)) in
  let resource := path.basename (path.dirname (uri_path (Resolver.backup_uri item))) in
  content ← resolveContent_text host (Paged.userDataBackupFolder userDataBackupService)
              resource name;
  fs_writeFile host (uri_path (Resolver.source item)) content.

(** [UserDataFileChangesDocumentProvider.provideTextDocumentContent]. *)
Definition provideTextDocumentContent (uri : Uri) : IO W string :=
  let name := path.basename (uri_path uri) in
  let resource := path.basename (path.dirname (uri_path uri)) in
  resolveContent_text host (Paged.userDataBackupFolder userDataBackupService) resource name.

End Providers.

End PagedProviders.

(** The providers of the second file of [unnamed/part_000]. *)
Module ResolverProviders.

Section Providers.
Context {W : Type} (host : Host W).

Section Dispatch.
Context {A : Type}.

(** The method [resolveContent] of the resolver at hand, that of the base
    class or the override of [UserDataSyncBackupResolver], and
    [promisify(fs.writeFile)] at what that method returns. *)
Variable resolveContent : string -> string -> IO W A.
Variable writeFile : path.t -> A -> IO W unit.

(** [UserDataBackupResolver.provideTextDocumentContent]. *)
Definition provideTextDocumentContent (uri : Uri) : IO W A :=
  let name := path.basename (uri_path uri) in
  let resource := path.basename (path.dirname (uri_path uri)) in
  resolveContent resource name.

(** [UserDataBackupTimelineProvider.replace]; [with({ scheme: 'file' })]
    keeps the path. *)
Definition replace (item : Resolver.UserDataTimelineItem) : IO W unit :=
  let name := path.basename (uri_path (Resolver.backup_uri item)) in
  let resource := path.basename (path.dirname (uri_path (Resolver.backup_uri item))) in
  content ← resolveContent resource name;
  writeFile (uri_path (Resolver.source item)) content.

End Dispatch.

(** [promisify(fs.writeFile)(path, data)] at what the sync resolver returns,
    declared a string: a string is written as it is; what Node does with
    another value differs between its versions and is left to
    [write_other]. *)
Definition writeFile_js (write_other : path.t -> JSON.js -> IO W unit)
    (p : path.t) (data : JSON.js) : IO W unit :=
  match data with
  | JSON.Json (JSON.Str s) => fs_writeFile host p s
  | _ => write_other p data
  end.

(** The command [userdata.timeline.replace] that [activate] registers: the
    scheme of the item's backup uri picks the provider, and with it the
    resolver. *)
Definition replace_command (Number_text : string -> string)
    (write_other : path.t -> JSON.js -> IO W unit)
    (context : ExtensionContext) (userDataTimelineEntry : Resolver.UserDataTimelineItem)
    : IO W unit :=
  let userDataBackupService := Resolver.new_UserDataChangesBackupService context in
  let userDataSyncBackupResolver := Resolver.new_UserDataSyncBackupResolver context in
  if String.eqb (scheme (Resolver.backup_uri userDataTimelineEntry))
       (Resolver.resolver_scheme userDataBackupService)
  then replace
         (resolveContent_text host (Resolver.userDataBackupFolder userDataBackupService))
         (fs_writeFile host) userDataTimelineEntry
  else replace
         (sync_resolveContent_text host
            (Resolver.userDataBackupFolder userDataSyncBackupResolver) Number_text)
         (writeFile_js write_other) userDataTimelineEntry.

End Providers.

End ResolverProviders.

(** ** A model of the host *)

(** The file tree: every path that exists is a file with its bytes or a
    directory; the root is a directory. *)
Inductive node :=
| File (content : string)
| Directory.

#[global] Instance node_eq_dec : EqDecision node.
Proof. solve_decision. Defined.

Record World := {
  files : gmap path.t node;          (* the disk *)
  clock : Date;                      (* what [new Date()] reads *)
  fired : list UserDataResource      (* the events fired so far, oldest first *)
}.

Module Model.

Definition lookup_node (fs : gmap path.t node) (p : path.t) : option node :=
  match p with
  | [] => Some Directory
  | _ => fs !! p
  end.

(** [child_name p q]: the name [n] when [q] is [p] followed by [n]. *)
Fixpoint child_name (p q : path.t) : option string :=
  match p, q with
  | [], [n] => Some n
  | a :: p', b :: q' => if decide (a = b) then child_name p' q' else None
  | _, _ => None
  end.

Definition children (fs : gmap path.t node) (p : path.t) : list string :=
  omap (child_name p) (fst <$> map_to_list fs).

(** [mkdir -p]: walk down from [base], creating what is missing; a file in
    the way is an error. *)
Fixpoint mkdir_from (fs : gmap path.t node) (base : path.t) (todo : list string)
    : outcome (gmap path.t node) :=
  match todo with
  | [] => Returned fs
  | seg :: rest =>
      let p := base ++ [seg] in
      match fs !! p with
      | Some (File _) =>
          Thrown (SystemError (match rest with [] => "EEXIST" | _ => "ENOTDIR" end))
      | Some Directory => mkdir_from fs p rest
      | None => mkdir_from (<[p := Directory]> fs) p rest
      end
  end.

Definition set_files (w : World) (fs : gmap path.t node) : World :=
  {| files := fs; clock := clock w; fired := fired w |}.

Definition exists_ (p : path.t) : IO World bool :=
  fun w => (Returned (bool_decide (is_Some (lookup_node (files w) p))), w).

Definition mkdir_recursive (p : path.t) : IO World unit :=
  fun w =>
    match mkdir_from (files w) [] p with
    | Returned fs => (Returned tt, set_files w fs)
    | Thrown e => (Thrown e, w)
    end.

Definition readdir (p : path.t) : IO World (list string) :=
  fun w =>
    match lookup_node (files w) p with
    | Some Directory => (Returned (children (files w) p), w)
    | Some (File _) => (Thrown (SystemError "ENOTDIR"), w)
    | None => (Thrown (SystemError "ENOENT"), w)
    end.

Definition readFile (p : path.t) : IO World string :=
  fun w =>
    match lookup_node (files w) p with
    | Some (File content) => (Returned content, w)
    | Some Directory => (Thrown (SystemError "EISDIR"), w)
    | None => (Thrown (SystemError "ENOENT"), w)
    end.

Definition writeFile (p : path.t) (content : string) : IO World unit :=
  fun w =>
    match lookup_node (files w) p with
    | Some Directory => (Thrown (SystemError "EISDIR"), w)
    | _ =>
        match lookup_node (files w) (path.dirname p) with
        | Some Directory => (Returned tt, set_files w (<[p := File content]> (files w)))
        | Some (File _) => (Thrown (SystemError "ENOTDIR"), w)
        | None => (Thrown (SystemError "ENOENT"), w)
        end
    end.

Definition read_clock : IO World Date :=
  fun w => (Returned (clock w), w).

Definition fire (r : UserDataResource) : IO World unit :=
  fun w => (Returned tt, {| files := files w; clock := clock w; fired := fired w ++ [r] |}).

(** The host over a [World], in a given time zone and process environment. *)
Definition host (tz : Z -> Z) (platform : string) (home : path.t) (profile : option path.t)
    : Host World :=
  {| fs_exists := exists_;
     fs_mkdir_recursive := mkdir_recursive;
     fs_readdir := readdir;
     fs_readFile := readFile;
     fs_writeFile := writeFile;
     new_Date := read_clock;
     emitter_fire := fire;
     LocalTZA := tz;
     process_platform := platform;
     os_homedir := home;
     env_USERPROFILE := profile |}.

(** A Linux host at UTC with home directory [/home/u]. *)
Definition linux_utc : Host World :=
  host (fun _ => 0) "linux" ["home"; "u"] None.

End Model.

(** ** Concrete stores used in examples *)

Module Examples.

(** A service whose backups go under [/storage/userdata-backup] and whose
    live files are in [/home/u/User]. *)
Definition service : Extension.UserDataBackupService :=
  {| Extension.userDataBackupFolder := ["storage"; "userdata-backup"];
     Extension.userDataPath := ["home"; "u"; "User"] |}.

Definition settings_folder : path.t := ["storage"; "userdata-backup"; "settings"].

(** 2023-06-15 14:30:22.007 on the wall clock. *)
Definition noon : Date := Build_Date 2023 5 15 14 30 22 7.

(** A disk with the live settings file and no backup yet. *)
Definition fresh_disk : gmap path.t node :=
  list_to_map
    [ (["home"], Directory);
      (["home"; "u"], Directory);
      (["home"; "u"; "User"], Directory);
      (["home"; "u"; "User"; "settings.json"], File "{ }") ].

(** A settings subfolder with two snapshots, one of each naming
    convention, and a file that is no snapshot. *)
Definition used_disk : gmap path.t node :=
  list_to_map
    [ (["home"], Directory);
      (["home"; "u"], Directory);
      (["home"; "u"; "User"], Directory);
      (["home"; "u"; "User"; "settings.json"], File "{ }");
      (["storage"], Directory);
      (["storage"; "userdata-backup"], Directory);
      (settings_folder, Directory);
      (settings_folder ++ ["20221231T235959"], File "old");
      (settings_folder ++ ["20230101T000000.json"], File "new");
      (settings_folder ++ ["notes.txt"], File "n") ].

(** A settings subfolder in which someone has put two files whose names
    pass the filter: the thirtieth of February and the first of March. *)
Definition odd_disk : gmap path.t node :=
  list_to_map
    [ (["storage"], Directory);
      (["storage"; "userdata-backup"], Directory);
      (settings_folder, Directory);
      (settings_folder ++ ["20230230T000000.json"], File "a");
      (settings_folder ++ ["20230301T000000.json"], File "b") ].

(** The stored value of the sync example: an object whose [content] member
    is the text of an object whose [settings] member is [FOO].  The text has
    quotation marks and reverse solidi, so it is put together from
    characters. *)
Definition q : string := String JSON.dquote EmptyString.
Definition bs : string := String JSON.backslash EmptyString.
Definition stored_sync_value : string :=
  "{" +:+ q +:+ "content" +:+ q +:+ ":" +:+ q +:+
  "{" +:+ bs +:+ q +:+ "settings" +:+ bs +:+ q +:+ ":" +:+ bs +:+ q +:+ "FOO" +:+ bs +:+ q +:+ "}" +:+
  q +:+ "}".

(** A sync resolver over [/home/u/User/sync], and a disk with three sync
    snapshots: the example, one that is no JSON text, and one whose
    [content] is no JSON text. *)
Definition sync_resolver : Resolver.UserDataBackupResolver :=
  {| Resolver.userDataPath := ["home"; "u"; "User"];
     Resolver.resolver_scheme := "userdata-sync-timeline";
     Resolver.userDataBackupFolder := ["home"; "u"; "User"; "sync"] |}.

Definition sync_disk : gmap path.t node :=
  list_to_map
    [ (["home"], Directory);
      (["home"; "u"], Directory);
      (["home"; "u"; "User"], Directory);
      (["home"; "u"; "User"; "sync"], Directory);
      (["home"; "u"; "User"; "sync"; "settings"], Directory);
      (["home"; "u"; "User"; "sync"; "settings"; "20230615T143022.json"], File stored_sync_value);
      (["home"; "u"; "User"; "sync"; "settings"; "20230616T000000.json"], File "{ broken");
      (["home"; "u"; "User"; "sync"; "settings"; "20230617T000000.json"],
       File ("{" +:+ q +:+ "content" +:+ q +:+ ":" +:+ q +:+ "{ broken" +:+ q +:+ "}")) ].

(** An installation of the stable editor: the global storage of the
    extension is under [Code], and so is the live settings file. *)
Definition stable_context : ExtensionContext :=
  {| globalStoragePath := ["home"; "u"; ".config"; "Code"; "User"; "globalStorage"; "ext"] |}.

Definition stable_disk : gmap path.t node :=
  list_to_map
    [ (["home"], Directory);
      (["home"; "u"], Directory);
      (["home"; "u"; ".config"], Directory);
      (["home"; "u"; ".config"; "Code"], Directory);
      (["home"; "u"; ".config"; "Code"; "User"], Directory);
      (["home"; "u"; ".config"; "Code"; "User"; "settings.json"], File "{ }") ].

(** A time zone five hours behind UTC whose clocks are set forward by an
    hour at 02:00 of 2023-03-12: the offset at a local time, which for the
    local times that the clocks skip is the offset before the change. *)
Definition spring_forward (t : Z) : Z :=
  if t <? 1678590000000 then -18000000 else -14400000.

(** A settings subfolder with a snapshot from before the hour the clocks
    skip, one whose name is in that hour, and one from its end. *)
Definition gap_disk : gmap path.t node :=
  list_to_map
    [ (["storage"], Directory);
      (["storage"; "userdata-backup"], Directory);
      (settings_folder, Directory);
      (settings_folder ++ ["20230312T013000.json"], File "a");
      (settings_folder ++ ["20230312T023000.json"], File "b");
      (settings_folder ++ ["20230312T030000.json"], File "c") ].

Definition world (fs : gmap path.t node) (now : Date) : World :=
  {| files := fs; clock := now; fired := [] |}.

End Examples.

(** ** Declarative vocabulary of the properties *)

(** One decimal digit as a character. *)
Definition digit_char (d : Z) : ascii := ascii_of_N (48 + Z.to_N d).

(** [fixed w n]: the [w] decimal digits of [n], most significant first, with
    leading zeros. *)
Fixpoint fixed (w : nat) (n : Z) : string :=
  match w with
  | O => EmptyString
  | S w' => String (digit_char (n / 10 ^ Z.of_nat w')) (fixed w' (n mod 10 ^ Z.of_nat w'))
  end.

(** A string of exactly [w] digits. *)
Fixpoint digits (w : nat) (s : string) : Prop :=
  match w, s with
  | O, EmptyString => True
  | S w', String c s' => JsString.is_digit c = true ∧ digits w' s'
  | _, _ => False
  end.

(** Eight digits, a [T], six digits. *)
Definition is_stamp (s : string) : Prop :=
  ∃ day time, s = day +:+ "T" +:+ time ∧ digits 8 day ∧ digits 6 time.

(** The names [getAllEntries] keeps: a stamp, or a stamp followed by
    [.json]. *)
Definition accepted (name : string) : Prop :=
  is_stamp name ∨ ∃ st, is_stamp st ∧ name = st +:+ ".json".

(** Calendar fields as a name spells them: the month counts from 1. *)
Record Fields := {
  f_year : Z;
  f_month : Z;
  f_day : Z;
  f_hour : Z;
  f_minute : Z;
  f_second : Z
}.

(** The fifteen characters [YYYYMMDDTHHMMSS]. *)
Definition stamp (f : Fields) : string :=
  fixed 4 (f_year f) +:+ fixed 2 (f_month f) +:+ fixed 2 (f_day f) +:+ "T" +:+
  fixed 2 (f_hour f) +:+ fixed 2 (f_minute f) +:+ fixed 2 (f_second f).

(** Each field fits its width. *)
Definition in_width (f : Fields) : Prop :=
  0 <= f_year f < 10000 ∧ 0 <= f_month f < 100 ∧ 0 <= f_day f < 100 ∧
  0 <= f_hour f < 100 ∧ 0 <= f_minute f < 100 ∧ 0 <= f_second f < 100.

(** The fields name a day of the calendar and a time of the day. *)
Definition calendar (f : Fields) : Prop :=
  1 <= f_month f <= 12 ∧
  1 <= f_day f <= DateMath.DaysInMonth (f_year f) (f_month f - 1) ∧
  0 <= f_hour f <= 23 ∧ 0 <= f_minute f <= 59 ∧ 0 <= f_second f <= 59.

(** The fields of a clock reading. *)
Definition fields_of (d : Date) : Fields :=
  {| f_year := getFullYear d;
     f_month := getMonth d + 1;
     f_day := getDate d;
     f_hour := getHours d;
     f_minute := getMinutes d;
     f_second := getSeconds d |}.

(** What every [Date] read from the clock satisfies, and a year of four
    digits. *)
Definition clock_reading (d : Date) : Prop :=
  1000 <= getFullYear d <= 9999 ∧ calendar (fields_of d) ∧ 0 <= getMilliseconds d <= 999.

(** The local time value of a clock reading, in milliseconds: the wall
    clock. *)
Definition wall_clock (d : Date) : Z :=
  DateMath.MakeDate
    (DateMath.MakeDay (getFullYear d) (getMonth d) (getDate d))
    (DateMath.MakeTime (getHours d) (getMinutes d) (getSeconds d) (getMilliseconds d)).

(** The local time value the fields denote, in seconds. *)
Definition local_seconds (f : Fields) : Z :=
  DateMath.MakeDay (f_year f) (f_month f - 1) (f_day f) * 86400
  + f_hour f * 3600 + f_minute f * 60 + f_second f.

(** Lexicographic comparison of the fields. *)
Definition fields_compare (f1 f2 : Fields) : comparison :=
  match f_year f1 ?= f_year f2 with
  | Eq =>
      match f_month f1 ?= f_month f2 with
      | Eq =>
          match f_day f1 ?= f_day f2 with
          | Eq =>
              match f_hour f1 ?= f_hour f2 with
              | Eq =>
                  match f_minute f1 ?= f_minute f2 with
                  | Eq => f_second f1 ?= f_second f2
                  | c => c
                  end
              | c => c
              end
          | c => c
          end
      | c => c
      end
  | c => c
  end.

(** The two patterns of the accepted names, each anchored at both ends:
    [/^\d{8}T\d{6}$/] and [/^\d{8}T\d{6}\.json$/]. *)
Definition stamp_pattern : RegExp.regex :=
  RegExp.Seq (RegExp.Rep 8 RegExp.Digit)
    (RegExp.Seq (RegExp.Chr "T") (RegExp.Rep 6 RegExp.Digit)).

Definition stamp_json_pattern : RegExp.regex :=
  RegExp.Seq stamp_pattern (RegExp.Lit ".json").

(** An accepted name whose fields are a calendar date and a time of day, in
    a year the [Date] constructor takes literally. *)
Definition calendar_name (name : string) : Prop :=
  ∃ f sfx, name = stamp f +:+ sfx ∧ (sfx = EmptyString ∨ sfx = ".json")
           ∧ in_width f ∧ calendar f ∧ 100 <= f_year f.

(** [a <= b] on numbers that are not [NaN]. *)
Definition num_le (a b : number) : Prop :=
  match a, b with
  | Num x, Num y => x <= y
  | _, _ => False
  end.

(** A time zone whose offset stays within a day. *)
Definition bounded_zone (tz : Z → Z) : Prop :=
  ∀ t, Z.abs (tz t) <= DateMath.msPerDay.

(** The local time [t] is overtaken: some local time that is not before it
    is an earlier instant.  These are the local times in an hour that
    clocks set forward skip. *)
Definition overtaken (tz : Z → Z) (t : Z) : Prop :=
  ∃ t', t <= t' ∧ t' - tz t' < t - tz t.

(** An entry of the third generation without its [uri]. *)
Definition forget_uri (e : Resolver.IUserDataBackupEntry) : IUserDataBackupEntry :=
  {| resource := Resolver.resource e;
     name := Resolver.name e;
     created := Resolver.created e |}.

(** The result of an effect with a function applied to what it returned. *)
Definition map_result {W A B} (f : A → B) (r : outcome A * W) : outcome B * W :=
  match r with
  | (Returned a, w) => (Returned (f a), w)
  | (Thrown e, w) => (Thrown e, w)
  end.

(** The characters of a string. *)
Fixpoint chars (s : string) : list ascii :=
  match s with
  | EmptyString => []
  | String c s' => c :: chars s'
  end.

(** A string of characters below 128. *)
Definition ascii_text (s : string) : Prop :=
  Forall (fun c => (N_of_ascii c < 128)%N) (chars s).

(** The entry [getAllEntries] builds for a name. *)
Definition entry_of {W} (host : Host W) (r : UserDataResource) (n : string)
    : IUserDataBackupEntry :=
  {| name := n; created := Extension.getCreationTime host n; resource := r |}.

(** The names [getAllEntries] returns for a directory listing. *)
Definition listed (children : list string) : list string :=
  reverse (merge_sort String.le (filter (fun n => RegExp.test entry_pattern n = true) children)).

(** No separator in a string. *)
Definition slash_free (s : string) : Prop :=
  Forall (fun c => c ≠ "/"%char) (chars s).



(** The clock reading that shows the fields [f], on the second. *)
Definition reading_of (f : Fields) : Date :=
  {| getFullYear := f_year f;
     getMonth := f_month f - 1;
     getDate := f_day f;
     getHours := f_hour f;
     getMinutes := f_minute f;
     getSeconds := f_second f;
     getMilliseconds := 0 |}.

(** ** Regular expressions: the matcher decides the language *)

(** Let [simpl] unfold a concatenation whose left part is known. *)
#[local] Arguments String.append !_ _ / : simpl nomatch.

Section RegExpTheory.
Import RegExp.

Lemma append_nil_r (s : string) : s +:+ EmptyString = s.
Proof. induction s as [|c s IH]; simpl; [done|]. by rewrite IH. Qed.

Lemma append_assoc (a b c : string) : (a +:+ b) +:+ c = a +:+ (b +:+ c).
Proof. induction a as [|x a IH]; simpl; [done|]. by rewrite IH. Qed.

Lemma append_eq_nil (a b : string) :
  a +:+ b = EmptyString → a = EmptyString ∧ b = EmptyString.
Proof. destruct a; simpl; [done|discriminate]. Qed.

Lemma append_eq_cons (a b : string) c s :
  a +:+ b = String c s →
  (a = EmptyString ∧ b = String c s) ∨ (∃ a', a = String c a' ∧ s = a' +:+ b).
Proof.
  destruct a as [|x a]; simpl; intros H; [by left|].
  injection H as -> <-. right. by exists a.
Qed.

Lemma length_append (a b : string) :
  String.length (a +:+ b) = (String.length a + String.length b)%nat.
Proof. induction a as [|x a IH]; simpl; [done|]. by rewrite IH. Qed.

Lemma nullable_matches r : nullable r = true ↔ matches r EmptyString.
Proof.
  split.
  - induction r; simpl; intros H; try discriminate.
    + constructor.
    + apply andb_true_iff in H as [H1 H2].
      change EmptyString with (EmptyString +:+ EmptyString). constructor; auto.
    + apply orb_true_iff in H as [H|H]; [apply M_AltL|apply M_AltR]; auto.
    + constructor.
  - remember EmptyString as s eqn:Hs. induction 1; simpl; try done.
    + apply append_eq_nil in Hs as [-> ->]. rewrite IHmatches1, IHmatches2; done.
    + rewrite IHmatches; done.
    + rewrite IHmatches, orb_true_r; done.
Qed.

Lemma star_cons_inv r c s :
  matches (Star r) (String c s) →
  ∃ s1 s2, s = s1 +:+ s2 ∧ matches r (String c s1) ∧ matches (Star r) s2.
Proof.
  remember (Star r) as r' eqn:Hr. remember (String c s) as t eqn:Ht.
  intros H. revert c s Ht. induction H; intros c0 s0 Ht; try discriminate.
  injection Hr as ->.
  apply append_eq_cons in Ht as [[-> ->]|(a' & -> & ->)].
  - apply IHmatches2; done.
  - exists a', s2. done.
Qed.

Lemma matches_Chr c s : matches (Chr c) s ↔ s = String c EmptyString.
Proof. split; [by inversion 1|intros ->; constructor]. Qed.

Lemma matches_Eps s : matches Eps s ↔ s = EmptyString.
Proof. split; [by inversion 1|intros ->; constructor]. Qed.

Lemma matches_Seq r1 r2 s :
  matches (Seq r1 r2) s ↔ ∃ s1 s2, s = s1 +:+ s2 ∧ matches r1 s1 ∧ matches r2 s2.
Proof.
  split.
  - inversion 1; subst. eauto.
  - intros (s1 & s2 & -> & H1 & H2). by constructor.
Qed.

Lemma matches_Alt r1 r2 s : matches (Alt r1 r2) s ↔ matches r1 s ∨ matches r2 s.
Proof.
  split.
  - inversion 1; subst; auto.
  - intros [H|H]; [by apply M_AltL|by apply M_AltR].
Qed.

Lemma deriv_matches r c s : matches (deriv c r) s ↔ matches r (String c s).
Proof.
  revert s. induction r; intros s; simpl.
  - split; inversion 1.
  - split; inversion 1.
  - destruct (Ascii.eqb_spec c c0) as [->|Hne].
    + split; inversion 1; subst; constructor.
    + split; inversion 1; subst; done.
  - destruct (JsString.is_digit c) eqn:Hd.
    + split; inversion 1; subst; by constructor.
    + split; inversion 1; subst; congruence.
  - destruct (nullable r1) eqn:Hn.
    + rewrite matches_Alt, !matches_Seq. split.
      * intros [(s1 & s2 & -> & H1 & H2)|H].
        -- exists (String c s1), s2. split; [done|]. split; [by apply IHr1|done].
        -- exists EmptyString, (String c s). split; [done|].
           split; [by apply nullable_matches|by apply IHr2].
      * intros (a & b & Heq & Ha & Hb).
        symmetry in Heq. apply append_eq_cons in Heq as [[-> ->]|(a' & -> & ->)].
        -- right. by apply IHr2.
        -- left. exists a', b. split; [done|]. split; [by apply IHr1|done].
    + rewrite !matches_Seq. split.
      * intros (s1 & s2 & -> & H1 & H2).
        exists (String c s1), s2. split; [done|]. split; [by apply IHr1|done].
      * intros (a & b & Heq & Ha & Hb).
        symmetry in Heq. apply append_eq_cons in Heq as [[-> ->]|(a' & -> & ->)].
        -- apply nullable_matches in Ha. congruence.
        -- exists a', b. split; [done|]. split; [by apply IHr1|done].
  - rewrite !matches_Alt, IHr1, IHr2. done.
  - rewrite matches_Seq. split.
    + intros (s1 & s2 & -> & H1 & H2).
      change (String c (s1 +:+ s2)) with (String c s1 +:+ s2).
      constructor; [by apply IHr|done].
    + intros H. apply star_cons_inv in H as (s1 & s2 & -> & H1 & H2).
      exists s1, s2. split; [done|]. split; [by apply IHr|done].
Qed.

(** The derivative matcher accepts exactly the language of the pattern. *)
Lemma test_matches r s : test r s = true ↔ matches r s.
Proof.
  revert r. induction s as [|c s IH]; intros r; simpl.
  - apply nullable_matches.
  - rewrite IH. apply deriv_matches.
Qed.

Lemma matches_Lit w s : matches (Lit w) s ↔ s = w.
Proof.
  revert s. induction w as [|c w IH]; intros s; simpl.
  - apply matches_Eps.
  - rewrite matches_Seq. split.
    + intros (s1 & s2 & -> & H1%matches_Chr & H2%IH). by subst.
    + intros ->. exists (String c EmptyString), w. split; [done|].
      split; [by apply matches_Chr|by apply IH].
Qed.

Lemma matches_Rep_Digit w s : matches (Rep w Digit) s ↔ digits w s.
Proof.
  revert s. induction w as [|w IH]; intros s; simpl.
  - rewrite matches_Eps. by destruct s.
  - rewrite matches_Seq. split.
    + intros (s1 & s2 & -> & H1 & H2%IH). inversion H1; subst. done.
    + destruct s as [|c s]; [done|]. intros [Hc Hs].
      exists (String c EmptyString), s. split; [done|].
      split; [by constructor|by apply IH].
Qed.

End RegExpTheory.

(** ** Digits and fixed-width numbers *)

Lemma entry_pattern_accepted name :
  RegExp.test entry_pattern name = true ↔ accepted name.
Proof.
  rewrite test_matches. unfold entry_pattern, RegExp.Opt, accepted, is_stamp.
  rewrite matches_Seq. split.
  - intros (day & s2 & -> & Hday%matches_Rep_Digit & H2).
    apply matches_Seq in H2 as (t & s3 & -> & ->%matches_Chr & H3).
    apply matches_Seq in H3 as (time & s4 & -> & Htime%matches_Rep_Digit & H4).
    apply matches_Alt in H4 as [->%matches_Lit| ->%matches_Eps].
    + right. exists (day +:+ "T" +:+ time). split; [by exists day, time|].
      by rewrite !append_assoc.
    + left. exists day, time. by rewrite append_nil_r.
  - intros [(day & time & -> & Hday & Htime)|(st & (day & time & -> & Hday & Htime) & ->)].
    + exists day, ("T" +:+ time). split; [done|]. split; [by apply matches_Rep_Digit|].
      apply matches_Seq. exists "T", time. split; [done|]. split; [by apply matches_Chr|].
      apply matches_Seq. exists time, EmptyString. split; [by rewrite append_nil_r|].
      split; [by apply matches_Rep_Digit|]. apply matches_Alt. right. by apply matches_Eps.
    + exists day, ("T" +:+ time +:+ ".json"). split; [by rewrite !append_assoc|].
      split; [by apply matches_Rep_Digit|].
      apply matches_Seq. exists "T", (time +:+ ".json"). split; [done|].
      split; [by apply matches_Chr|].
      apply matches_Seq. exists time, ".json". split; [done|].
      split; [by apply matches_Rep_Digit|]. apply matches_Alt. left. by apply matches_Lit.
Qed.

Lemma N_of_digit_char d : 0 <= d < 10 → N_of_ascii (digit_char d) = (48 + Z.to_N d)%N.
Proof. intros H. unfold digit_char. apply N_ascii_embedding. lia. Qed.

Lemma is_digit_digit_char d : 0 <= d < 10 → JsString.is_digit (digit_char d) = true.
Proof.
  intros H. unfold JsString.is_digit. rewrite N_of_digit_char by done.
  apply andb_true_iff. split; apply N.leb_le; lia.
Qed.

Lemma digit_value_digit_char d : 0 <= d < 10 → JsString.digit_value (digit_char d) = d.
Proof. intros H. unfold JsString.digit_value. rewrite N_of_digit_char by done. lia. Qed.

Lemma is_digit_inv c :
  JsString.is_digit c = true →
  0 <= JsString.digit_value c < 10 ∧ c = digit_char (JsString.digit_value c).
Proof.
  unfold JsString.is_digit, JsString.digit_value, digit_char.
  intros [H1%N.leb_le H2%N.leb_le]%andb_true_iff. split; [lia|].
  replace (48 + Z.to_N (Z.of_N (N_of_ascii c) - 48))%N with (N_of_ascii c) by lia.
  by rewrite ascii_N_embedding.
Qed.

Lemma pow10_pos (w : nat) : 0 < 10 ^ Z.of_nat w.
Proof. apply Z.pow_pos_nonneg; lia. Qed.

Lemma pow10_succ (w : nat) : 10 ^ Z.of_nat (S w) = 10 * 10 ^ Z.of_nat w.
Proof. rewrite Nat2Z.inj_succ, Z.pow_succ_r by lia. done. Qed.

Lemma fixed_head_range (w : nat) n :
  0 <= n < 10 ^ Z.of_nat (S w) →
  0 <= n / 10 ^ Z.of_nat w < 10 ∧ 0 <= n mod 10 ^ Z.of_nat w < 10 ^ Z.of_nat w.
Proof.
  intros H. rewrite pow10_succ in H. pose proof (pow10_pos w) as Hp.
  split; [|by apply Z.mod_pos_bound].
  split; [apply Z.div_pos; lia|]. apply Z.div_lt_upper_bound; lia.
Qed.

Lemma length_fixed w n : String.length (fixed w n) = w.
Proof. revert n. induction w as [|w IH]; intros n; simpl; [done|]. by rewrite IH. Qed.

Lemma digits_fixed w n : 0 <= n < 10 ^ Z.of_nat w → digits w (fixed w n).
Proof.
  revert n. induction w as [|w IH]; intros n H; simpl; [done|].
  apply fixed_head_range in H as [H1 H2].
  split; [by apply is_digit_digit_char|by apply IH].
Qed.

(** Every string of [w] digits is the fixed-width form of a number. *)
Lemma digits_inv w s : digits w s → ∃ n, 0 <= n < 10 ^ Z.of_nat w ∧ s = fixed w n.
Proof.
  revert s. induction w as [|w IH]; intros s; destruct s as [|c s]; simpl; try done.
  - intros _. exists 0. split; [lia|done].
  - intros [Hc Hs]. apply IH in Hs as (m & Hm & ->).
    apply is_digit_inv in Hc as [Hv Hc].
    pose proof (pow10_pos w) as Hp.
    exists (JsString.digit_value c * 10 ^ Z.of_nat w + m).
    rewrite pow10_succ. split.
    { assert (JsString.digit_value c * 10 ^ Z.of_nat w <= 9 * 10 ^ Z.of_nat w)
        by (apply Z.mul_le_mono_nonneg_r; lia).
      assert (0 <= JsString.digit_value c * 10 ^ Z.of_nat w) by (apply Z.mul_nonneg_nonneg; lia).
      lia. }
    rewrite Z.div_add_l, Z.div_small, Z.add_0_r by lia.
    rewrite Z.add_comm, Z.mod_add, Z.mod_small by lia.
    by rewrite <- Hc.
Qed.

Lemma decimal_prefix_digits w n a :
  0 <= n < 10 ^ Z.of_nat w →
  JsString.decimal_prefix (fixed w n) (Some a) = Some (a * 10 ^ Z.of_nat w + n).
Proof.
  revert n a. induction w as [|w IH]; intros n a H.
  - simpl in *. f_equal. lia.
  - pose proof (fixed_head_range w n H) as [H1 H2].
    cbn [fixed JsString.decimal_prefix]. rewrite is_digit_digit_char by done.
    rewrite digit_value_digit_char by done. cbn [default].
    rewrite IH by done. f_equal. rewrite pow10_succ.
    pose proof (pow10_pos w) as Hp.
    pose proof (Z.div_mod n (10 ^ Z.of_nat w) ltac:(lia)) as Hdm.
    unfold id. clear IH H H1 H2.
    generalize dependent (n `div` 10 ^ Z.of_nat w).
    generalize dependent (n `mod` 10 ^ Z.of_nat w).
    generalize dependent (10 ^ Z.of_nat w). intros. lia.
Qed.

(** Case analysis on a digit. *)
Lemma digit_cases d :
  0 <= d < 10 →
  d = 0 ∨ d = 1 ∨ d = 2 ∨ d = 3 ∨ d = 4 ∨ d = 5 ∨ d = 6 ∨ d = 7 ∨ d = 8 ∨ d = 9.
Proof. lia. Qed.

Ltac each_digit H :=
  apply digit_cases in H;
  repeat (destruct H as [H|H]); subst.

(** On a string that starts with a digit and goes on with another digit or
    ends, [parseInt] reads decimal digits: there is no sign, and no [0x]. *)
Lemma parseInt_decimal c s :
  JsString.is_digit c = true →
  match s with String c2 _ => JsString.is_digit c2 = true | EmptyString => True end →
  JsString.parseInt (String c s) = JsString.of_digits 1 (JsString.decimal_prefix (String c s) None).
Proof.
  intros Hc Hs. apply is_digit_inv in Hc as [Hv Hc].
  generalize dependent (JsString.digit_value c). intros v Hv ->.
  each_digit Hv; try reflexivity.
  destruct s as [|c2 s]; [reflexivity|].
  apply is_digit_inv in Hs as [Hv Hs].
  generalize dependent (JsString.digit_value c2). intros v Hv ->.
  each_digit Hv; reflexivity.
Qed.

(** [parseInt] reads a string of digits as the number it spells. *)
Lemma parseInt_fixed w n :
  0 <= n < 10 ^ Z.of_nat (S w) → JsString.parseInt (fixed (S w) n) = Num n.
Proof.
  intros H. pose proof (fixed_head_range w n H) as [H1 H2].
  cbn [fixed]. rewrite parseInt_decimal.
  - cbn [JsString.decimal_prefix]. rewrite is_digit_digit_char by done.
    rewrite digit_value_digit_char by done. cbn [default].
    rewrite decimal_prefix_digits by done. cbn [JsString.of_digits]. f_equal.
    pose proof (pow10_pos w) as Hp.
    pose proof (Z.div_mod n (10 ^ Z.of_nat w) ltac:(lia)) as Hdm.
    clear H H1 H2.
    generalize dependent (n `div` 10 ^ Z.of_nat w).
    generalize dependent (n `mod` 10 ^ Z.of_nat w).
    generalize dependent (10 ^ Z.of_nat w). intros. lia.
  - by apply is_digit_digit_char.
  - destruct w as [|w]; [done|]. cbn [fixed].
    apply is_digit_digit_char. by apply fixed_head_range.
Qed.

(** Fixed-width numbers compare as strings the way they compare as
    numbers. *)
Lemma compare_fixed w a b s1 s2 :
  0 <= a < 10 ^ Z.of_nat w → 0 <= b < 10 ^ Z.of_nat w →
  String.compare (fixed w a +:+ s1) (fixed w b +:+ s2)
  = match a ?= b with Eq => String.compare s1 s2 | c => c end.
Proof.
  revert a b. induction w as [|w IH]; intros a b Ha Hb.
  - simpl in *. assert (a = 0) as -> by lia. assert (b = 0) as -> by lia. done.
  - pose proof (fixed_head_range w a Ha) as [Ha1 Ha2].
    pose proof (fixed_head_range w b Hb) as [Hb1 Hb2].
    cbn [fixed]. simpl. unfold Ascii.compare.
    rewrite !N_of_digit_char by done.
    pose proof (pow10_pos w) as Hp.
    pose proof (Z.div_mod a (10 ^ Z.of_nat w) ltac:(lia)) as Hda.
    pose proof (Z.div_mod b (10 ^ Z.of_nat w) ltac:(lia)) as Hdb.
    rewrite IH by done. clear IH Ha Hb.
    generalize dependent (a `div` 10 ^ Z.of_nat w).
    generalize dependent (a `mod` 10 ^ Z.of_nat w).
    generalize dependent (b `div` 10 ^ Z.of_nat w).
    generalize dependent (b `mod` 10 ^ Z.of_nat w).
    generalize dependent (10 ^ Z.of_nat w).
    intros p Hp rb Hrb qb Hqb Hb ra Hra qa Hqa Ha.
    destruct (N.compare_spec (48 + Z.to_N qa) (48 + Z.to_N qb)) as [Hq|Hq|Hq].
    + assert (qa = qb) as -> by lia.
      destruct (Z.compare_spec ra rb), (Z.compare_spec a b); try done; lia.
    + assert (a < b) as ->%Z.compare_lt_iff by nia. done.
    + assert ((a ?= b) = Gt) as -> by (apply Z.compare_gt_iff; nia). done.
Qed.

(** ** Formatting the clock *)

Lemma forall_range (P : Z → bool) lo n :
  forallb P (seqZ lo n) = true → ∀ z, lo <= z < lo + n → P z = true.
Proof.
  intros H z Hz. rewrite forallb_forall in H. apply H.
  apply list_elem_of_In, elem_of_seqZ. done.
Qed.

Lemma pretty_four_digits y : 1000 <= y <= 9999 → pretty y = fixed 4 y.
Proof.
  intros H.
  apply String.eqb_eq.
  apply (forall_range (fun z => String.eqb (pretty z) (fixed 4 z)) 1000 9000); [|lia].
  vm_compute. reflexivity.
Qed.

Lemma pad_two_digits n : 0 <= n <= 99 → Extension.pad n 2 = fixed 2 n.
Proof.
  intros H.
  apply String.eqb_eq.
  apply (forall_range (fun z => String.eqb (Extension.pad z 2) (fixed 2 z)) 0 100); [|lia].
  vm_compute. reflexivity.
Qed.

Lemma millis_three_digits ms :
  0 <= ms <= 999 → JsString.slice (thousandths_toFixed3 ms) 2 5 = fixed 3 ms.
Proof.
  intros H.
  apply String.eqb_eq.
  apply (forall_range
           (fun z => String.eqb (JsString.slice (thousandths_toFixed3 z) 2 5) (fixed 3 z)) 0 1000);
    [|lia].
  vm_compute. reflexivity.
Qed.

Lemma test_false_iff r s : RegExp.test r s = false ↔ ¬ RegExp.matches r s.
Proof.
  rewrite <- test_matches. destruct (RegExp.test r s); split; done.
Qed.

(** The third alternative needs a point first. *)
Lemma fraction_needs_point c s :
  c ≠ "."%char → RegExp.test fraction_pattern (String c s) = false.
Proof.
  intros Hc. apply test_false_iff. unfold fraction_pattern.
  intros (s1 & s2 & Heq & ->%matches_Chr & _)%matches_Seq.
  simpl in Heq. congruence.
Qed.

Lemma digit_char_plain d :
  0 <= d < 10 →
  Ascii.eqb (digit_char d) "-" = false ∧ Ascii.eqb (digit_char d) ":" = false
  ∧ digit_char d ≠ "."%char ∧ digit_char d ≠ "/"%char.
Proof. intros H. each_digit H; done. Qed.

Lemma replace_separators_plain c s :
  Ascii.eqb c "-" = false → Ascii.eqb c ":" = false → c ≠ "."%char →
  replace_separators (String c s) = String c (replace_separators s).
Proof.
  intros H1 H2 H3. cbn [replace_separators].
  by rewrite H1, H2, fraction_needs_point.
Qed.

Lemma replace_separators_dash s :
  replace_separators ("-" +:+ s) = replace_separators s.
Proof. reflexivity. Qed.

Lemma replace_separators_colon s :
  replace_separators (":" +:+ s) = replace_separators s.
Proof. reflexivity. Qed.

Lemma replace_separators_fixed w n rest :
  0 <= n < 10 ^ Z.of_nat w →
  replace_separators (fixed w n +:+ rest) = fixed w n +:+ replace_separators rest.
Proof.
  revert n. induction w as [|w IH]; intros n H; [done|].
  pose proof (fixed_head_range w n H) as [H1 H2].
  cbn [fixed]. change (String ?c ?x +:+ ?y) with (String c (x +:+ y)).
  destruct (digit_char_plain _ H1) as (Hd & Hc & Hp & _).
  rewrite replace_separators_plain by done. by rewrite IH.
Qed.

Lemma digits_star w s : digits w s → RegExp.matches (RegExp.Star RegExp.Digit) s.
Proof.
  revert s. induction w as [|w IH]; intros [|c s]; simpl; try done.
  - intros _. constructor.
  - intros [Hc Hs].
    change (String c s) with (String c EmptyString +:+ s).
    constructor; [by constructor|by apply IH].
Qed.

Lemma fraction_matches w n :
  0 <= n < 10 ^ Z.of_nat (S w) →
  RegExp.test fraction_pattern ("." +:+ fixed (S w) n +:+ "Z") = true.
Proof.
  intros H. apply test_matches. unfold fraction_pattern.
  apply matches_Seq. exists ".", (fixed (S w) n +:+ "Z"). split; [done|].
  split; [by apply matches_Chr|].
  apply matches_Seq. exists (fixed (S w) n), "Z". split; [done|].
  split; [|by apply matches_Chr].
  pose proof (digits_fixed (S w) n H) as Hd. cbn [fixed] in *.
  destruct Hd as [Hc Hd].
  apply matches_Seq. eexists (String _ EmptyString), _. split; [done|].
  split; [by constructor|by eapply digits_star].
Qed.

(** A reading of the clock with a four-digit year is named by its
    fifteen-character stamp. *)
Lemma snapshot_stamp d :
  clock_reading d →
  replace_separators (Extension.toLocalISOString d) = stamp (fields_of d).
Proof.
  intros (Hy & (Hmo & Hd & Hh & Hmi & Hs) & Hms).
  cbn [fields_of f_year f_month f_day f_hour f_minute f_second] in *.
  assert (getDate d <= 31).
  { unfold DateMath.DaysInMonth, DateMath.InLeapYear, DateMath.DaysInYear in Hd.
    repeat case_match; repeat case_bool_decide; lia. }
  unfold Extension.toLocalISOString, stamp, Number_toString.
  cbn [fields_of f_year f_month f_day f_hour f_minute f_second].
  rewrite pretty_four_digits by done.
  rewrite !pad_two_digits by lia.
  rewrite millis_three_digits by done.
  rewrite replace_separators_fixed by (simpl; lia).
  rewrite replace_separators_dash, replace_separators_fixed by (simpl; lia).
  rewrite replace_separators_dash, replace_separators_fixed by (simpl; lia).
  change ("T" +:+ ?x) with (String "T" x).
  rewrite replace_separators_plain by done.
  rewrite replace_separators_fixed by (simpl; lia).
  rewrite replace_separators_colon, replace_separators_fixed by (simpl; lia).
  rewrite replace_separators_colon, replace_separators_fixed by (simpl; lia).
  assert (replace_separators ("." +:+ fixed 3 (getMilliseconds d) +:+ "Z") = EmptyString)
    as ->.
  { change ("." +:+ ?x) with (String "." x). cbn [replace_separators].
    change (String "." ?x) with ("." +:+ x).
    rewrite (fraction_matches 2) by (simpl; lia). reflexivity. }
  by rewrite append_nil_r.
Qed.

(** ** Reading a name back *)

Lemma substring_take_drop s a b :
  0 <= a <= b → b <= Z.of_nat (String.length s) →
  JsString.substring s a b
  = JsString.take (Z.to_nat b - Z.to_nat a) (JsString.drop (Z.to_nat a) s).
Proof.
  intros Hab Hb. unfold JsString.substring, JsString.clamp.
  replace (Z.to_nat (Z.min (Z.max a 0) (Z.of_nat (String.length s)))) with (Z.to_nat a) by lia.
  replace (Z.to_nat (Z.min (Z.max b 0) (Z.of_nat (String.length s)))) with (Z.to_nat b) by lia.
  rewrite Nat.min_l, Nat.max_r by lia. done.
Qed.

Lemma drop_append a b : JsString.drop (String.length a) (a +:+ b) = b.
Proof. induction a as [|c a IH]; simpl; done. Qed.

Lemma take_append a b : JsString.take (String.length a) (a +:+ b) = a.
Proof. induction a as [|c a IH]; simpl; [by destruct b|by rewrite IH]. Qed.

Lemma drop_drop n m s : JsString.drop (n + m) s = JsString.drop m (JsString.drop n s).
Proof.
  revert s. induction n as [|n IH]; intros s; simpl; [done|].
  destruct s as [|c s]; [by destruct m|]. apply IH.
Qed.

Lemma drop_fixed w n rest : JsString.drop w (fixed w n +:+ rest) = rest.
Proof. rewrite <- (length_fixed w n) at 1. apply drop_append. Qed.

Lemma take_fixed w n rest : JsString.take w (fixed w n +:+ rest) = fixed w n.
Proof. rewrite <- (length_fixed w n) at 1. apply take_append. Qed.

Lemma length_stamp f : String.length (stamp f) = 15%nat.
Proof. unfold stamp. rewrite !length_append, !length_fixed. done. Qed.

(** The six fields of a stamped name, as [getCreationTime] cuts them out. *)
Lemma stamp_fields f sfx :
  let s := stamp f +:+ sfx in
  JsString.substring s 0 4 = fixed 4 (f_year f)
  ∧ JsString.substring s 4 6 = fixed 2 (f_month f)
  ∧ JsString.substring s 6 8 = fixed 2 (f_day f)
  ∧ JsString.substring s 9 11 = fixed 2 (f_hour f)
  ∧ JsString.substring s 11 13 = fixed 2 (f_minute f)
  ∧ JsString.substring s 13 15 = fixed 2 (f_second f).
Proof.
  intros s.
  assert (Hlen : Z.of_nat (String.length s) >= 15).
  { unfold s. rewrite length_append, length_stamp. lia. }
  rewrite !substring_take_drop by lia.
  unfold s, stamp. rewrite !append_assoc.
  change (Z.to_nat 4 - Z.to_nat 0)%nat with 4%nat.
  change (Z.to_nat 6 - Z.to_nat 4)%nat with 2%nat.
  change (Z.to_nat 8 - Z.to_nat 6)%nat with 2%nat.
  change (Z.to_nat 11 - Z.to_nat 9)%nat with 2%nat.
  change (Z.to_nat 13 - Z.to_nat 11)%nat with 2%nat.
  change (Z.to_nat 15 - Z.to_nat 13)%nat with 2%nat.
  change (Z.to_nat 0) with 0%nat.
  change (Z.to_nat 4) with 4%nat.
  change (Z.to_nat 6) with (4 + 2)%nat.
  change (Z.to_nat 9) with (4 + (2 + (2 + 1)))%nat.
  change (Z.to_nat 11) with (4 + (2 + (2 + (1 + 2))))%nat.
  change (Z.to_nat 13) with (4 + (2 + (2 + (1 + (2 + 2)))))%nat.
  rewrite !drop_drop, !drop_fixed.
  change (JsString.drop 1 ("T" +:+ ?x)) with x.
  rewrite !drop_fixed.
  change (JsString.drop 0 ?x) with x.
  rewrite !take_fixed. done.
Qed.

Lemma in_width_pow f :
  in_width f →
  0 <= f_year f < 10 ^ Z.of_nat 4 ∧ 0 <= f_month f < 10 ^ Z.of_nat 2
  ∧ 0 <= f_day f < 10 ^ Z.of_nat 2 ∧ 0 <= f_hour f < 10 ^ Z.of_nat 2
  ∧ 0 <= f_minute f < 10 ^ Z.of_nat 2 ∧ 0 <= f_second f < 10 ^ Z.of_nat 2.
Proof. unfold in_width. simpl. lia. Qed.

(** The creation time of a stamped name is the [Date] built from the numbers
    its digits spell. *)
Lemma getCreationTime_stamp {W} (host : Host W) f sfx :
  in_width f →
  Extension.getCreationTime host (stamp f +:+ sfx)
  = DateMath.Date_getTime (LocalTZA host)
      (Num (f_year f)) (Num (f_month f - 1)) (Num (f_day f))
      (Num (f_hour f)) (Num (f_minute f)) (Num (f_second f)).
Proof.
  intros (Hy & Hmo & Hd & Hh & Hmi & Hs)%in_width_pow.
  unfold Extension.getCreationTime.
  destruct (stamp_fields f sfx) as (-> & -> & -> & -> & -> & ->).
  rewrite !parseInt_fixed by done. done.
Qed.

(** Every accepted name is a stamp followed by nothing or by [.json]. *)
Lemma accepted_stamp name :
  accepted name ↔
  ∃ f sfx, in_width f ∧ (sfx = EmptyString ∨ sfx = ".json") ∧ name = stamp f +:+ sfx.
Proof.
  assert (Hst : ∀ s, is_stamp s ↔ ∃ f, in_width f ∧ s = stamp f).
  { intros s. split.
    - intros (day & time & -> & Hday & Htime).
      destruct day as [|y1 [|y2 [|y3 [|y4 [|m1 [|m2 [|d1 [|d2 [|]]]]]]]]]; try (simpl in Hday; tauto).
      destruct time as [|h1 [|h2 [|i1 [|i2 [|s1 [|s2 [|]]]]]]]; try (simpl in Htime; tauto).
      destruct (digits_inv 4 (String y1 (String y2 (String y3 (String y4 EmptyString)))))
        as (y & Hy & Ey); [simpl in *; tauto|].
      destruct (digits_inv 2 (String m1 (String m2 EmptyString))) as (mo & Hmo & Emo);
        [simpl in *; tauto|].
      destruct (digits_inv 2 (String d1 (String d2 EmptyString))) as (dd & Hdd & Edd);
        [simpl in *; tauto|].
      destruct (digits_inv 2 (String h1 (String h2 EmptyString))) as (hh & Hhh & Ehh);
        [simpl in *; tauto|].
      destruct (digits_inv 2 (String i1 (String i2 EmptyString))) as (mi & Hmi & Emi);
        [simpl in *; tauto|].
      destruct (digits_inv 2 (String s1 (String s2 EmptyString))) as (ss & Hss & Ess);
        [simpl in *; tauto|].
      exists {| f_year := y; f_month := mo; f_day := dd; f_hour := hh; f_minute := mi;
                f_second := ss |}.
      split; [unfold in_width; simpl in *; lia|].
      unfold stamp. cbn [f_year f_month f_day f_hour f_minute f_second].
      rewrite <- Ey, <- Emo, <- Edd, <- Ehh, <- Emi, <- Ess. done.
    - intros (f & Hf%in_width_pow & ->). destruct Hf as (Hy & Hmo & Hd & Hh & Hmi & Hs).
      exists (fixed 4 (f_year f) +:+ fixed 2 (f_month f) +:+ fixed 2 (f_day f)),
        (fixed 2 (f_hour f) +:+ fixed 2 (f_minute f) +:+ fixed 2 (f_second f)).
      split; [unfold stamp; by rewrite !append_assoc|].
      pose proof (digits_fixed 4 _ Hy). pose proof (digits_fixed 2 _ Hmo).
      pose proof (digits_fixed 2 _ Hd). pose proof (digits_fixed 2 _ Hh).
      pose proof (digits_fixed 2 _ Hmi). pose proof (digits_fixed 2 _ Hs).
      cbn [fixed] in *. simpl in *. tauto. }
  unfold accepted. split.
  - intros [(f & Hf & ->)%Hst|(st & (f & Hf & ->)%Hst & ->)].
    + exists f, EmptyString. rewrite append_nil_r. auto.
    + exists f, ".json". auto.
  - intros (f & sfx & Hf & [->| ->] & ->).
    + left. apply Hst. exists f. by rewrite append_nil_r.
    + right. exists (stamp f). split; [|done]. apply Hst. by exists f.
Qed.

(** ** The calendar *)

Lemma DayFromYear_succ y :
  DateMath.DayFromYear (y + 1) = DateMath.DayFromYear y + DateMath.DaysInYear y.
Proof.
  unfold DateMath.DayFromYear, DateMath.DaysInYear.
  repeat case_bool_decide; Z.to_euclidean_division_equations; lia.
Qed.

Lemma DaysInYear_range y : 365 <= DateMath.DaysInYear y <= 366.
Proof. unfold DateMath.DaysInYear. repeat case_bool_decide; lia. Qed.

(** A later year starts after the earlier year has ended. *)
Lemma DayFromYear_lt y1 y2 :
  y1 < y2 → DateMath.DayFromYear y1 + DateMath.DaysInYear y1 <= DateMath.DayFromYear y2.
Proof.
  intros H. replace y2 with (y1 + 1 + Z.of_nat (Z.to_nat (y2 - y1 - 1))) by lia.
  induction (Z.to_nat (y2 - y1 - 1)) as [|k IH].
  - rewrite Z.add_0_r, DayFromYear_succ. lia.
  - rewrite Nat2Z.inj_succ.
    replace (y1 + 1 + Z.succ (Z.of_nat k)) with (y1 + 1 + Z.of_nat k + 1) by lia.
    rewrite DayFromYear_succ. pose proof (DaysInYear_range (y1 + 1 + Z.of_nat k)). lia.
Qed.

(** The day a calendar date falls on, counted within its year. *)
Lemma day_within_year y m d :
  0 <= m <= 11 → 1 <= d <= DateMath.DaysInMonth y m →
  0 <= DateMath.DayWithinYear m (DateMath.InLeapYear y) + d - 1 < DateMath.DaysInYear y.
Proof.
  intros Hm Hd. pose proof (DaysInYear_range y) as Hy.
  unfold DateMath.DaysInMonth, DateMath.InLeapYear in *.
  assert (m = 0 ∨ m = 1 ∨ m = 2 ∨ m = 3 ∨ m = 4 ∨ m = 5 ∨ m = 6 ∨ m = 7 ∨ m = 8
          ∨ m = 9 ∨ m = 10 ∨ m = 11) as Hc by lia.
  repeat (destruct Hc as [->|Hc]; [simpl in *; lia|]). subst. simpl in *. lia.
Qed.

(** Within a year, a later month starts after the earlier month has ended. *)
Lemma month_lt y m1 d1 m2 :
  0 <= m1 < m2 → m2 <= 11 → 1 <= d1 <= DateMath.DaysInMonth y m1 →
  DateMath.DayWithinYear m1 (DateMath.InLeapYear y) + d1 - 1
  < DateMath.DayWithinYear m2 (DateMath.InLeapYear y).
Proof.
  intros Hm Hm2 Hd. pose proof (DaysInYear_range y) as Hy.
  unfold DateMath.DaysInMonth, DateMath.InLeapYear in *.
  assert (m1 = 0 ∨ m1 = 1 ∨ m1 = 2 ∨ m1 = 3 ∨ m1 = 4 ∨ m1 = 5 ∨ m1 = 6 ∨ m1 = 7 ∨ m1 = 8
          ∨ m1 = 9 ∨ m1 = 10) as Hc1 by lia.
  assert (m2 = 1 ∨ m2 = 2 ∨ m2 = 3 ∨ m2 = 4 ∨ m2 = 5 ∨ m2 = 6 ∨ m2 = 7 ∨ m2 = 8
          ∨ m2 = 9 ∨ m2 = 10 ∨ m2 = 11) as Hc2 by lia.
  repeat (destruct Hc1 as [|Hc1]); subst;
    repeat (destruct Hc2 as [|Hc2]); subst; simpl in *; lia.
Qed.

Lemma MakeDay_calendar y m d :
  0 <= m <= 11 →
  DateMath.MakeDay y m d
  = DateMath.DayFromYear y + DateMath.DayWithinYear m (DateMath.InLeapYear y) + d - 1.
Proof.
  intros Hm. unfold DateMath.MakeDay.
  rewrite Z.div_small, Z.mod_small, Z.add_0_r by lia. done.
Qed.

(** On calendar dates the fields compare the way the times they denote
    do. *)
Lemma fields_compare_chronological f1 f2 :
  calendar f1 → calendar f2 →
  fields_compare f1 f2 = (local_seconds f1 ?= local_seconds f2).
Proof.
  intros (Hm1 & Hd1 & Hh1 & Hi1 & Hs1) (Hm2 & Hd2 & Hh2 & Hi2 & Hs2).
  unfold fields_compare, local_seconds.
  rewrite !MakeDay_calendar by lia.
  pose proof (day_within_year (f_year f1) (f_month f1 - 1) (f_day f1) ltac:(lia) Hd1) as Hw1.
  pose proof (day_within_year (f_year f2) (f_month f2 - 1) (f_day f2) ltac:(lia) Hd2) as Hw2.
  symmetry.
  destruct (Z.compare_spec (f_year f1) (f_year f2)) as [Hy|Hy|Hy].
  - rewrite <- Hy in *.
    destruct (Z.compare_spec (f_month f1) (f_month f2)) as [Hmo|Hmo|Hmo].
    + rewrite <- Hmo in *.
      destruct (Z.compare_spec (f_day f1) (f_day f2)) as [Hd|Hd|Hd].
      * rewrite <- Hd in *.
        destruct (Z.compare_spec (f_hour f1) (f_hour f2)) as [Hh|Hh|Hh].
        -- rewrite <- Hh in *.
           destruct (Z.compare_spec (f_minute f1) (f_minute f2)) as [Hi|Hi|Hi].
           ++ rewrite <- Hi in *.
              destruct (Z.compare_spec (f_second f1) (f_second f2)) as [Hs|Hs|Hs].
              ** rewrite <- Hs. apply Z.compare_refl.
              ** apply Z.compare_lt_iff. lia.
              ** apply Z.compare_gt_iff. lia.
           ++ apply Z.compare_lt_iff. lia.
           ++ apply Z.compare_gt_iff. lia.
        -- apply Z.compare_lt_iff. lia.
        -- apply Z.compare_gt_iff. lia.
      * apply Z.compare_lt_iff. lia.
      * apply Z.compare_gt_iff. lia.
    + pose proof (month_lt (f_year f1) (f_month f1 - 1) (f_day f1) (f_month f2 - 1)
                    ltac:(lia) ltac:(lia) Hd1).
      apply Z.compare_lt_iff. lia.
    + pose proof (month_lt (f_year f1) (f_month f2 - 1) (f_day f2) (f_month f1 - 1)
                    ltac:(lia) ltac:(lia) Hd2).
      apply Z.compare_gt_iff. lia.
  - pose proof (DayFromYear_lt _ _ Hy). apply Z.compare_lt_iff. lia.
  - pose proof (DayFromYear_lt _ _ Hy). apply Z.compare_gt_iff. lia.
Qed.

(** Stamped names compare as strings the way their fields compare. *)
Lemma compare_stamp f1 f2 x1 x2 :
  in_width f1 → in_width f2 →
  String.compare (stamp f1 +:+ x1) (stamp f2 +:+ x2)
  = match fields_compare f1 f2 with Eq => String.compare x1 x2 | c => c end.
Proof.
  intros (Hy1 & Hmo1 & Hd1 & Hh1 & Hmi1 & Hs1)%in_width_pow
         (Hy2 & Hmo2 & Hd2 & Hh2 & Hmi2 & Hs2)%in_width_pow.
  unfold stamp, fields_compare. rewrite !append_assoc.
  rewrite !compare_fixed by done.
  change (String.compare ("T" +:+ ?a) ("T" +:+ ?b)) with (String.compare a b).
  rewrite !compare_fixed by done.
  repeat (match goal with |- context [?a ?= ?b] => destruct (a ?= b) end; try done).
Qed.

(** ** Listing *)

Section Listing.
Context {W : Type} (host : Host W) (this : Extension.UserDataBackupService).

(** [getAllEntries] is the listing of the subfolder, filtered, sorted and
    reversed; a listing that fails gives no entries. *)
Lemma getAllEntries_run r w :
  Extension.getAllEntries host this r w
  = match fs_readdir host (path.join (Extension.userDataBackupFolder this) [resource_string r]) w with
    | (Returned children, w') => (Returned (entry_of host r <$> listed children), w')
    | (Thrown e, w') => (Returned [], w')
    end.
Proof.
  unfold Extension.getAllEntries, try_catch, mbind, IO_bind, bind, mret, IO_ret, ret.
  by destruct (fs_readdir host _ w) as [[children|e] w'].
Qed.

Lemma names_entry_of r (l : list string) : name <$> (entry_of host r <$> l) = l.
Proof. induction l as [|x l IH]; [done|]. rewrite !fmap_cons, IH. done. Qed.

Lemma elem_of_listed n (children : list string) :
  n ∈ listed children ↔ n ∈ children ∧ accepted n.
Proof.
  unfold listed. rewrite elem_of_reverse, merge_sort_Permutation, list_elem_of_filter.
  rewrite entry_pattern_accepted. tauto.
Qed.

Lemma listed_sorted children :
  StronglySorted (fun a b => String.le b a) (listed children).
Proof.
  unfold listed. apply (Sorted_StronglySorted (flip String.le)).
  apply Sorted_reverse, Sorted_merge_sort. apply _.
Qed.

(** The listing does not depend on the order in which the directory is
    read. *)
Lemma listed_Permutation (c1 c2 : list string) : c1 ≡ₚ c2 → listed c1 = listed c2.
Proof.
  intros H. unfold listed. f_equal.
  apply (Sorted_unique String.le).
  - apply Sorted_merge_sort. apply _.
  - apply Sorted_merge_sort. apply _.
  - rewrite !merge_sort_Permutation. by rewrite H.
Qed.

End Listing.

Lemma accepted_two_patterns n :
  accepted n ↔ RegExp.test stamp_pattern n = true ∨ RegExp.test stamp_json_pattern n = true.
Proof.
  assert (Hst : ∀ s, RegExp.test stamp_pattern s = true ↔ is_stamp s).
  { intros s. rewrite test_matches. unfold stamp_pattern, is_stamp.
    rewrite matches_Seq. split.
    - intros (day & s2 & -> & Hday%matches_Rep_Digit & H2).
      apply matches_Seq in H2 as (t & time & -> & ->%matches_Chr & Htime%matches_Rep_Digit).
      by exists day, time.
    - intros (day & time & -> & Hday & Htime).
      exists day, ("T" +:+ time). split; [done|]. split; [by apply matches_Rep_Digit|].
      apply matches_Seq. exists "T", time. split; [done|].
      split; [by apply matches_Chr|by apply matches_Rep_Digit]. }
  unfold accepted. rewrite Hst. apply or_iff_compat_l.
  unfold stamp_json_pattern. rewrite test_matches, matches_Seq. split.
  - intros (st & Hs & ->). exists st, ".json". split; [done|].
    split; [by apply test_matches, Hst|by apply matches_Lit].
  - intros (st & x & -> & Hs%test_matches%Hst & ->%matches_Lit). by exists st.
Qed.

Example entry_pattern_examples :
  RegExp.test entry_pattern "20230615T143022" = true
  ∧ RegExp.test entry_pattern "20230615T143022.json" = true
  ∧ RegExp.test entry_pattern "20230615T143022.jso" = false
  ∧ RegExp.test entry_pattern "2023061T143022.json" = false
  ∧ RegExp.test entry_pattern "x20230615T143022" = false
  ∧ RegExp.test entry_pattern "20230615T143022.json.bak" = false
  ∧ RegExp.test entry_pattern "20230615t143022" = false.
Proof. repeat split; vm_compute; reflexivity. Qed.

(** C7.  A directory entry is among the names [getAllEntries] returns
    exactly when it matches [/^\d{8}T\d{6}$/] or [/^\d{8}T\d{6}\.json$/]:
    both forms are kept and every other name is dropped. *)
Theorem getAllEntries_keeps_matching_names
    {W} (host : Host W) (this : Extension.UserDataBackupService) r w :
  ∃ es w', Extension.getAllEntries host this r w = (Returned es, w') ∧
    match fs_readdir host (path.join (Extension.userDataBackupFolder this) [resource_string r]) w with
    | (Returned children, _) =>
        ∀ n, n ∈ name <$> es ↔
             n ∈ children ∧ (RegExp.test stamp_pattern n = true
                             ∨ RegExp.test stamp_json_pattern n = true)
    | (Thrown _, _) => es = []
    end.
Proof.
  rewrite getAllEntries_run.
  destruct (fs_readdir host _ w) as [[children|e] w']; eexists _, _; (split; [done|]); [|done].
  intros n. rewrite names_entry_of, elem_of_listed, accepted_two_patterns. done.
Qed.

(** ** Failing softly *)

Lemma resolveContent_run {W} (host : Host W) (this : Extension.UserDataBackupService) r n w :
  Extension.resolveContent host this r n w
  = match fs_readFile host (path.join (Extension.userDataBackupFolder this) [resource_string r; n]) w with
    | (Returned content, w') => (Returned content, w')
    | (Thrown e, w') => (Returned EmptyString, w')
    end.
Proof.
  unfold Extension.resolveContent, try_catch, mbind, IO_bind, bind, mret, IO_ret, ret.
  by destruct (fs_readFile host _ w) as [[content|e] w'].
Qed.

(** C4.  In the primary store neither [getAllEntries] nor [resolveContent]
    ever throws.  Whatever the error with which listing the subfolder fails,
    [getAllEntries] returns the empty sequence; whatever the error with which
    the read fails, [resolveContent] returns the empty string.  In the model
    of the disk this covers a subfolder that does not exist and a snapshot
    name that does not exist. *)
Theorem primary_store_fails_soft
    {W} (host : Host W) (this : Extension.UserDataBackupService) r n w
    tz platform home profile (mw : World) :
  (∃ es w', Extension.getAllEntries host this r w = (Returned es, w') ∧
     ∀ e w1,
       fs_readdir host (path.join (Extension.userDataBackupFolder this) [resource_string r]) w
       = (Thrown e, w1) →
       es = [] ∧ w' = w1)
  ∧ (∃ s w', Extension.resolveContent host this r n w = (Returned s, w') ∧
       ∀ e w1,
         fs_readFile host
           (path.join (Extension.userDataBackupFolder this) [resource_string r; n]) w
         = (Thrown e, w1) →
         s = EmptyString ∧ w' = w1)
  ∧ (Model.lookup_node (files mw)
       (path.join (Extension.userDataBackupFolder this) [resource_string r]) = None →
     Extension.getAllEntries (Model.host tz platform home profile) this r mw = (Returned [], mw))
  ∧ (Model.lookup_node (files mw)
       (path.join (Extension.userDataBackupFolder this) [resource_string r; n]) = None →
     Extension.resolveContent (Model.host tz platform home profile) this r n mw
     = (Returned EmptyString, mw)).
Proof.
  repeat split.
  - rewrite getAllEntries_run.
    destruct (fs_readdir host _ w) as [[children|e] w'] eqn:E; eexists _, _; (split; [done|]).
    + intros e w1 [=].
    + by intros e' w1 [= _ ->].
  - rewrite resolveContent_run.
    destruct (fs_readFile host _ w) as [[content|e] w'] eqn:E; eexists _, _; (split; [done|]).
    + intros e w1 [=].
    + by intros e' w1 [= _ ->].
  - intros H. rewrite getAllEntries_run. cbn [fs_readdir Model.host]. unfold Model.readdir.
    by rewrite H.
  - intros H. rewrite resolveContent_run. cbn [fs_readFile Model.host]. unfold Model.readFile.
    by rewrite H.
Qed.

(** The two refusals of the model do occur: a store that has never been
    written to has neither the subfolder nor the snapshot. *)
Example primary_store_fails_soft_on_empty_disk :
  let this := {| Extension.userDataBackupFolder := ["storage"; "userdata-backup"];
                 Extension.userDataPath := ["home"; "u"; "User"] |} in
  let w := {| files := ∅; clock := Build_Date 2023 5 15 14 30 22 0; fired := [] |} in
  fst (Model.readdir ["storage"; "userdata-backup"; "settings"] w) = Thrown (SystemError "ENOENT")
  ∧ Extension.getAllEntries Model.linux_utc this Settings w = (Returned [], w)
  ∧ Extension.resolveContent Model.linux_utc this Settings "20230615T143022.json" w
    = (Returned EmptyString, w).
Proof. repeat split. Qed.

(** ** Listing twice *)

Lemma model_readdir_pure p w :
  ∃ o, Model.readdir p w = (o, w).
Proof. unfold Model.readdir. repeat case_match; eauto. Qed.

(** C9.  Two calls of [getAllEntries] in a row, with nothing written in
    between, return the same sequence in the same order; the call leaves the
    disk as it found it.  More generally the result depends on the set of
    names in the subfolder only, not on the order in which the host lists
    them. *)
Theorem getAllEntries_twice_same
    tz platform home profile (this : Extension.UserDataBackupService) r (w : World) :
  let h := Model.host tz platform home profile in
  (∃ es, Extension.getAllEntries h this r w = (Returned es, w)
         ∧ (es1 ← Extension.getAllEntries h this r;
            es2 ← Extension.getAllEntries h this r;
            mret (es1, es2)) w = (Returned (es, es), w))
  ∧ (∀ V (host : Host V) v1 v2 c1 c2 v1' v2',
       fs_readdir host (path.join (Extension.userDataBackupFolder this) [resource_string r]) v1
       = (Returned c1, v1') →
       fs_readdir host (path.join (Extension.userDataBackupFolder this) [resource_string r]) v2
       = (Returned c2, v2') →
       c1 ≡ₚ c2 →
       fst (Extension.getAllEntries host this r v1) = fst (Extension.getAllEntries host this r v2)).
Proof.
  intros h. split.
  - assert (∃ es, Extension.getAllEntries h this r w = (Returned es, w)) as [es Hes].
    { rewrite getAllEntries_run. cbn [fs_readdir h Model.host].
      destruct (model_readdir_pure
                  (path.join (Extension.userDataBackupFolder this) [resource_string r]) w)
        as [[c|e] ->]; eauto. }
    exists es. split; [done|].
    unfold mbind, IO_bind, bind. rewrite Hes, Hes. done.
  - intros V host v1 v2 c1 c2 v1' v2' H1 H2 Hp.
    rewrite !getAllEntries_run, H1, H2. cbn [fst].
    by rewrite (listed_Permutation c1 c2).
Qed.

(** ** Creation times *)

Lemma wall_clock_reading_of f : wall_clock (reading_of f) = local_seconds f * 1000.
Proof.
  unfold wall_clock, reading_of, local_seconds, DateMath.MakeDate, DateMath.MakeTime,
    DateMath.msPerDay, DateMath.msPerHour, DateMath.msPerMinute, DateMath.msPerSecond.
  cbn [getFullYear getMonth getDate getHours getMinutes getSeconds getMilliseconds]. lia.
Qed.

(** From the year 100 on the [Date] constructor takes the year as it is. *)
Lemma Date_getTime_fields tz f :
  100 <= f_year f →
  DateMath.Date_getTime tz
    (Num (f_year f)) (Num (f_month f - 1)) (Num (f_day f))
    (Num (f_hour f)) (Num (f_minute f)) (Num (f_second f))
  = DateMath.TimeClip (DateMath.UTC tz (wall_clock (reading_of f))).
Proof.
  intros Hy. unfold DateMath.Date_getTime.
  rewrite bool_decide_eq_false_2 by lia. done.
Qed.

Lemma entries_of_listing {W} (host : Host W) (this : Extension.UserDataBackupService) r w :
  ∃ es w', Extension.getAllEntries host this r w = (Returned es, w') ∧
    ∀ e, e ∈ es → accepted (name e) ∧ created e = Extension.getCreationTime host (name e).
Proof.
  rewrite getAllEntries_run.
  destruct (fs_readdir host _ w) as [[children|err] w']; eexists _, _; (split; [done|]).
  - intros e (n & -> & Hn%elem_of_listed)%list_elem_of_fmap. simpl. tauto.
  - intros e He. by apply elem_of_nil in He.
Qed.

(** C8.  For every accepted name, [getCreationTime] is computed from the
    digits of the name alone: characters 0 to 3 are the year, 4 and 5 the
    month, 6 and 7 the day, 9 and 10 the hour, 11 and 12 the minute, 13 and
    14 the second, handed to the [Date] constructor as local calendar
    values.  [getAllEntries] returns an entry for every accepted name of the
    subfolder, and the [created] field of every entry it returns is
    [getCreationTime] of its name; nothing is read from the disk for it.
    The name [20230615T143022] is the local time 2023-06-15 14:30:22. *)
Theorem created_is_parsed_from_name
    {W} (host : Host W) (this : Extension.UserDataBackupService) r w :
  (∀ n, accepted n →
     ∃ f sfx,
       in_width f ∧ (sfx = EmptyString ∨ sfx = ".json") ∧ n = stamp f +:+ sfx
       ∧ Extension.getCreationTime host n
         = DateMath.Date_getTime (LocalTZA host)
             (Num (f_year f)) (Num (f_month f - 1)) (Num (f_day f))
             (Num (f_hour f)) (Num (f_minute f)) (Num (f_second f))
       ∧ (100 <= f_year f →
          Extension.getCreationTime host n
          = DateMath.TimeClip (DateMath.UTC (LocalTZA host) (wall_clock (reading_of f)))))
  ∧ (∃ es w', Extension.getAllEntries host this r w = (Returned es, w') ∧
       (∀ e, e ∈ es →
          accepted (name e) ∧ resource e = r
          ∧ created e = Extension.getCreationTime host (name e))
       ∧ (∀ children w1 n,
            fs_readdir host
              (path.join (Extension.userDataBackupFolder this) [resource_string r]) w
            = (Returned children, w1) →
            n ∈ children → accepted n →
            {| resource := r; name := n; created := Extension.getCreationTime host n |} ∈ es)
       ∧ ∀ e, e ∈ es →
           ∃ f sfx,
             in_width f ∧ (sfx = EmptyString ∨ sfx = ".json") ∧ name e = stamp f +:+ sfx
             ∧ created e
               = DateMath.Date_getTime (LocalTZA host)
                   (Num (f_year f)) (Num (f_month f - 1)) (Num (f_day f))
                   (Num (f_hour f)) (Num (f_minute f)) (Num (f_second f))
             ∧ (100 <= f_year f →
                created e
                = DateMath.TimeClip (DateMath.UTC (LocalTZA host) (wall_clock (reading_of f)))))
  ∧ (let f := {| f_year := 2023; f_month := 6; f_day := 15;
                 f_hour := 14; f_minute := 30; f_second := 22 |} in
     stamp f = "20230615T143022"
     ∧ Extension.getCreationTime host "20230615T143022"
       = DateMath.TimeClip (DateMath.UTC (LocalTZA host) (wall_clock (reading_of f)))
     ∧ Extension.getCreationTime Model.linux_utc "20230615T143022" = Num 1686839422000).
Proof.
  assert (Hname : ∀ n, accepted n →
     ∃ f sfx,
       in_width f ∧ (sfx = EmptyString ∨ sfx = ".json") ∧ n = stamp f +:+ sfx
       ∧ Extension.getCreationTime host n
         = DateMath.Date_getTime (LocalTZA host)
             (Num (f_year f)) (Num (f_month f - 1)) (Num (f_day f))
             (Num (f_hour f)) (Num (f_minute f)) (Num (f_second f))
       ∧ (100 <= f_year f →
          Extension.getCreationTime host n
          = DateMath.TimeClip (DateMath.UTC (LocalTZA host) (wall_clock (reading_of f))))).
  { intros n (f & sfx & Hf & Hsfx & ->)%accepted_stamp.
    exists f, sfx. rewrite getCreationTime_stamp by done.
    split; [done|]. split; [done|]. split; [done|]. split; [done|].
    intros Hy. by apply Date_getTime_fields. }
  split; [exact Hname|]. split.
  - rewrite getAllEntries_run.
    destruct (fs_readdir host _ w) as [[children|err] w'] eqn:Hdir; eexists _, _;
      (split; [done|]).
    + split; [|split].
      * intros e (n & -> & Hn%elem_of_listed)%list_elem_of_fmap. simpl. tauto.
      * intros ch w1 n [= <- <-] Hin Hacc.
        apply list_elem_of_fmap. exists n. split; [done|]. by apply elem_of_listed.
      * intros e (n & -> & [_ Hn]%elem_of_listed)%list_elem_of_fmap. by apply Hname.
    + split; [|split].
      * intros e He. by apply elem_of_nil in He.
      * intros ch w1 n [=].
      * intros e He. by apply elem_of_nil in He.
  - intros f. split; [reflexivity|]. split; [|reflexivity].
    change "20230615T143022" with (stamp f +:+ EmptyString).
    rewrite getCreationTime_stamp by (unfold in_width; simpl; lia).
    by apply Date_getTime_fields.
Qed.

(** ** Order of the names and order of the creation times *)

Lemma DayFromYear_range y :
  0 <= y <= 9999 → -720000 <= DateMath.DayFromYear y <= 2940000.
Proof.
  intros H. unfold DateMath.DayFromYear. Z.to_euclidean_division_equations. lia.
Qed.

Lemma local_seconds_range f :
  in_width f → calendar f → Z.abs (local_seconds f * 1000) <= 300000000000000.
Proof.
  intros (Hy & _) (Hm & Hd & Hh & Hi & Hs).
  unfold local_seconds. rewrite MakeDay_calendar by lia.
  pose proof (day_within_year (f_year f) (f_month f - 1) (f_day f) ltac:(lia) Hd) as Hw.
  pose proof (DaysInYear_range (f_year f)).
  pose proof (DayFromYear_range (f_year f) ltac:(lia)). lia.
Qed.

(** Between calendar names, a name that is not after another in
    lexicographic order has a creation time that is not after the other's,
    unless its local time is overtaken. *)
Lemma calendar_names_in_order {W} (host : Host W) f1 x1 n2 :
  bounded_zone (LocalTZA host) →
  (x1 = EmptyString ∨ x1 = ".json") → in_width f1 → calendar f1 → 100 <= f_year f1 →
  calendar_name n2 →
  ¬ overtaken (LocalTZA host) (local_seconds f1 * 1000) →
  String.le (stamp f1 +:+ x1) n2 →
  num_le (Extension.getCreationTime host (stamp f1 +:+ x1)) (Extension.getCreationTime host n2).
Proof.
  intros Hbound Hx1 Hw1 Hc1 Hy1 (f2 & x2 & -> & Hx2 & Hw2 & Hc2 & Hy2) Hskip Hle.
  rewrite !getCreationTime_stamp, !Date_getTime_fields by done.
  rewrite !wall_clock_reading_of.
  assert (Hsec : local_seconds f1 <= local_seconds f2).
  { unfold String.le, String.leb in Hle. rewrite compare_stamp in Hle by done.
    rewrite fields_compare_chronological in Hle by done.
    destruct (Z.compare_spec (local_seconds f1) (local_seconds f2)); [lia|lia|done]. }
  pose proof (local_seconds_range f1 Hw1 Hc1) as R1.
  pose proof (local_seconds_range f2 Hw2 Hc2) as R2.
  pose proof (Hbound (local_seconds f1 * 1000)) as B1.
  pose proof (Hbound (local_seconds f2 * 1000)) as B2.
  assert (M : local_seconds f1 * 1000 - LocalTZA host (local_seconds f1 * 1000)
              <= local_seconds f2 * 1000 - LocalTZA host (local_seconds f2 * 1000)).
  { destruct (Z.le_gt_cases
                (local_seconds f1 * 1000 - LocalTZA host (local_seconds f1 * 1000))
                (local_seconds f2 * 1000 - LocalTZA host (local_seconds f2 * 1000)))
      as [?|Hgt]; [done|].
    destruct Hskip. exists (local_seconds f2 * 1000). lia. }
  unfold DateMath.TimeClip, DateMath.UTC, DateMath.msPerDay in *.
  rewrite !bool_decide_eq_false_2 by lia. simpl. lia.
Qed.

(** C2, as the code has it.  [getAllEntries] returns the accepted names in
    decreasing lexicographic order, whatever the names and the time zone.
    Of two returned names whose digits are a calendar date and a time of
    day, in a year from 100 on, the lexicographically larger has the larger
    or equal creation time when the offset of the time zone stays within a
    day and the local time of the smaller name is not overtaken, which it is
    only in an hour that clocks set forward skip. *)
Theorem listing_sorted_and_chronological
    {W} (host : Host W) (this : Extension.UserDataBackupService) r w :
  ∃ es w', Extension.getAllEntries host this r w = (Returned es, w') ∧
    match fs_readdir host (path.join (Extension.userDataBackupFolder this) [resource_string r]) w with
    | (Returned children, _) =>
        name <$> es
        = reverse (merge_sort String.le
                     (filter (fun n => RegExp.test entry_pattern n = true) children))
        ∧ name <$> es ≡ₚ filter (fun n => RegExp.test entry_pattern n = true) children
    | (Thrown _, _) => es = []
    end
    ∧ StronglySorted (fun e1 e2 => String.le (name e2) (name e1)) es
    ∧ (bounded_zone (LocalTZA host) →
       ∀ e1 e2 f1 sfx1, e1 ∈ es → e2 ∈ es →
         name e1 = stamp f1 +:+ sfx1 → (sfx1 = EmptyString ∨ sfx1 = ".json") →
         in_width f1 → calendar f1 → 100 <= f_year f1 →
         calendar_name (name e2) →
         ¬ overtaken (LocalTZA host) (local_seconds f1 * 1000) →
         String.le (name e1) (name e2) → num_le (created e1) (created e2)).
Proof.
  destruct (entries_of_listing host this r w) as (es & w' & Hrun & Hes).
  exists es, w'. split; [done|].
  rewrite getAllEntries_run in Hrun.
  split; [|split].
  - destruct (fs_readdir host _ w) as [[children|err] w1]; injection Hrun as <- <-; [|done].
    rewrite names_entry_of. split; [done|].
    unfold listed. by rewrite reverse_Permutation, merge_sort_Permutation.
  - destruct (fs_readdir host _ w) as [[children|err] w1]; injection Hrun as <- <-.
    + apply (StronglySorted_fmap _ (fun a b => String.le b a)); [done|].
      apply listed_sorted.
    + constructor.
  - intros Hbound e1 e2 f1 sfx1 [_ ->]%Hes [_ ->]%Hes -> Hsfx Hw Hc Hy Hc2 Hskip Hle.
    by apply calendar_names_in_order.
Qed.

(** The zone of the example: its offset stays within a day, and the local
    times it overtakes are those after 02:00 and before 03:00 of the day of
    the change. *)
Example spring_forward_jump :
  wall_clock (Build_Date 2023 2 12 3 0 0 0) = 1678590000000.
Proof. vm_compute. reflexivity. Qed.

Lemma spring_forward_bounded : bounded_zone Examples.spring_forward.
Proof.
  intros t. unfold Examples.spring_forward, DateMath.msPerDay. destruct (t <? 1678590000000); lia.
Qed.

Lemma spring_forward_overtaken t :
  overtaken Examples.spring_forward t ↔ 1678590000000 - 3600000 < t < 1678590000000.
Proof.
  unfold overtaken, Examples.spring_forward. split.
  - intros (t' & Hle & Hlt). revert Hlt.
    destruct (Z.ltb_spec t 1678590000000), (Z.ltb_spec t' 1678590000000); lia.
  - intros Ht. exists 1678590000000.
    destruct (Z.ltb_spec t 1678590000000); [|lia].
    destruct (Z.ltb_spec 1678590000000 1678590000000); lia.
Qed.

(** The theorem in that zone, on the snapshots of 01:30 and of 03:00 of the
    day of the change. *)
Lemma listing_sorted_and_chronological_witness :
  let h := Model.host Examples.spring_forward "linux" ["home"; "u"] None in
  ∃ es w',
    Extension.getAllEntries h Examples.service Settings
      (Examples.world Examples.gap_disk Examples.noon) = (Returned es, w')
    ∧ StronglySorted (fun e1 e2 => String.le (name e2) (name e1)) es
    ∧ ∀ e1 e2, e1 ∈ es → e2 ∈ es →
        name e1 = "20230312T013000.json" → name e2 = "20230312T030000.json" →
        num_le (created e1) (created e2).
Proof.
  intros h.
  destruct (listing_sorted_and_chronological h Examples.service Settings
              (Examples.world Examples.gap_disk Examples.noon))
    as (es & w' & Hrun & _ & Hsorted & Hchron).
  exists es, w'. split; [exact Hrun|]. split; [exact Hsorted|].
  intros e1 e2 H1 H2 Hn1 Hn2.
  apply (Hchron spring_forward_bounded e1 e2 (Build_Fields 2023 3 12 1 30 0) ".json" H1 H2).
  - rewrite Hn1. vm_compute. reflexivity.
  - by right.
  - unfold in_width. vm_compute. repeat split; discriminate.
  - unfold calendar. vm_compute. repeat split; discriminate.
  - vm_compute. discriminate.
  - rewrite Hn2. exists (Build_Fields 2023 3 12 3 0 0), ".json".
    split; [vm_compute; reflexivity|]. split; [by right|].
    unfold in_width, calendar. vm_compute. repeat split; discriminate.
  - intros Hs%spring_forward_overtaken.
    assert (E : local_seconds (Build_Fields 2023 3 12 1 30 0) * 1000 = 1678584600000)
      by (vm_compute; reflexivity).
    rewrite E in Hs. lia.
  - rewrite Hn1, Hn2. vm_compute. exact I.
Defined.

(** A name in the hour the clocks skip is read with the offset of before
    the change: 02:30 is the instant 07:30 UTC, after 03:00, which is
    07:00 UTC.  The listing has it below the name of 03:00. *)
Example gap_hour_names_are_out_of_order :
  let h := Model.host Examples.spring_forward "linux" ["home"; "u"] None in
  fst (Extension.getAllEntries h Examples.service Settings
         (Examples.world Examples.gap_disk Examples.noon))
  = Returned
      [ {| resource := Settings; name := "20230312T030000.json"; created := Num 1678604400000 |};
        {| resource := Settings; name := "20230312T023000.json"; created := Num 1678606200000 |};
        {| resource := Settings; name := "20230312T013000.json"; created := Num 1678602600000 |} ]
  ∧ overtaken Examples.spring_forward (local_seconds (Build_Fields 2023 3 12 2 30 0) * 1000).
Proof.
  split; [vm_compute; reflexivity|].
  apply spring_forward_overtaken.
  assert (E : local_seconds (Build_Fields 2023 3 12 2 30 0) * 1000 = 1678588200000)
    by (vm_compute; reflexivity).
  rewrite E. lia.
Qed.

(** The two snapshots of the example are calendar names, returned newest
    first. *)
Example used_disk_listing :
  fst (Extension.getAllEntries Model.linux_utc Examples.service Settings
         (Examples.world Examples.used_disk Examples.noon))
  = Returned
      [ {| resource := Settings; name := "20230101T000000.json"; created := Num 1672531200000 |};
        {| resource := Settings; name := "20221231T235959"; created := Num 1672531199000 |} ]
  ∧ calendar_name "20230101T000000.json" ∧ calendar_name "20221231T235959".
Proof.
  split; [vm_compute; reflexivity|]. split.
  - exists (Build_Fields 2023 1 1 0 0 0), ".json".
    split; [reflexivity|]. split; [by right|].
    unfold in_width, calendar. vm_compute. repeat split; discriminate.
  - exists (Build_Fields 2022 12 31 23 59 59), EmptyString.
    split; [reflexivity|]. split; [by left|].
    unfold in_width, calendar. vm_compute. repeat split; discriminate.
Qed.

(** C2 as stated fails: a subfolder may hold names that pass the filter and
    are no calendar date.  The thirtieth of February is read by the [Date]
    constructor as the second of March, so the name that sorts first, the
    first of March, has the earlier creation time. *)
Lemma lexicographic_order_is_not_chronological :
  fst (Extension.getAllEntries Model.linux_utc Examples.service Settings
         (Examples.world Examples.odd_disk Examples.noon))
  = Returned
      [ {| resource := Settings; name := "20230301T000000.json"; created := Num 1677628800000 |};
        {| resource := Settings; name := "20230230T000000.json"; created := Num 1677715200000 |} ]
  ∧ String.ltb "20230230T000000.json" "20230301T000000.json" = true
  ∧ 1677715200000 > 1677628800000.
Proof. split; [vm_compute; reflexivity|]. split; [reflexivity|lia]. Qed.

(** ** The sync resolver *)

Lemma resolver_resolveContent_run
    {W} (host : Host W) (this : Resolver.UserDataBackupResolver) r n w :
  Resolver.resolveContent host this r n w
  = match fs_readFile host (path.join (Resolver.userDataBackupFolder this) [resource_string r; n]) w with
    | (Returned content, w') => (Returned content, w')
    | (Thrown e, w') => (Returned EmptyString, w')
    end.
Proof.
  unfold Resolver.resolveContent, try_catch, mbind, IO_bind, bind, mret, IO_ret, ret.
  by destruct (fs_readFile host _ w) as [[content|e] w'].
Qed.

(** The sync read, step by step. *)
Lemma sync_resolveContent_run
    {W} (host : Host W) (this : Resolver.UserDataBackupResolver) text r n w :
  Resolver.sync_resolveContent host this text r n w
  = match Resolver.resolveContent host this r n w with
    | (Returned s, w') =>
        match JSON.parse s with
        | Returned v =>
            match JSON.get_property (JSON.Json v) "content" with
            | Returned c =>
                match JSON.parse (JSON.ToString text c) with
                | Returned v' =>
                    match JSON.get_property (JSON.Json v') "settings" with
                    | Returned x => (Returned x, w')
                    | Thrown e => (Thrown e, w')
                    end
                | Thrown e => (Thrown e, w')
                end
            | Thrown e => (Thrown e, w')
            end
        | Thrown e => (Thrown e, w')
        end
    | (Thrown e, w') => (Thrown e, w')
    end.
Proof.
  unfold Resolver.sync_resolveContent, mbind, IO_bind, bind, lift, mret, IO_ret, ret.
  destruct (Resolver.resolveContent host this r n w) as [[s|e] w']; [|done].
  destruct (JSON.parse s) as [v|e]; [|done].
  destruct (JSON.get_property (JSON.Json v) "content") as [c|e]; [|done].
  destruct (JSON.parse (JSON.ToString text c)) as [v'|e]; [|done].
  by destruct (JSON.get_property (JSON.Json v') "settings") as [x|e].
Qed.

Lemma parse_empty : JSON.parse EmptyString = Thrown (SyntaxError "Unexpected token in JSON").
Proof. reflexivity. Qed.

(** C3, as the code has it.  On the stored value of the example the sync
    resolver returns [FOO].  A parse failure at the first or at the second
    layer is thrown to the caller.  A failed read is soft in the base read
    only: the base returns the empty string, the empty string is no JSON
    text, and the sync resolver throws the [SyntaxError] of its first
    [JSON.parse]. *)
Theorem sync_resolveContent_unwraps_or_throws
    {W} (host : Host W) (this : Resolver.UserDataBackupResolver) text r n w :
  ∃ s w', Resolver.resolveContent host this r n w = (Returned s, w')
    ∧ (s = Examples.stored_sync_value →
       Resolver.sync_resolveContent host this text r n w
       = (Returned (JSON.Json (JSON.Str "FOO")), w'))
    ∧ (∀ e, JSON.parse s = Thrown e →
            Resolver.sync_resolveContent host this text r n w = (Thrown e, w'))
    ∧ (∀ v c e,
         JSON.parse s = Returned v →
         JSON.get_property (JSON.Json v) "content" = Returned c →
         JSON.parse (JSON.ToString text c) = Thrown e →
         Resolver.sync_resolveContent host this text r n w = (Thrown e, w'))
    ∧ (∀ e w1,
         fs_readFile host
           (path.join (Resolver.userDataBackupFolder this) [resource_string r; n]) w
         = (Thrown e, w1) →
         s = EmptyString ∧ w' = w1
         ∧ Resolver.sync_resolveContent host this text r n w
           = (Thrown (SyntaxError "Unexpected token in JSON"), w1)).
Proof.
  rewrite sync_resolveContent_run, resolver_resolveContent_run.
  destruct (fs_readFile host _ w) as [[content|err] w'] eqn:E.
  - exists content, w'. split; [done|]. split; [|split; [|split]].
    + intros ->. reflexivity.
    + intros e ->. done.
    + intros v c e -> -> ->. done.
    + intros e w1 [=].
  - exists EmptyString, w'. split; [done|]. split; [|split; [|split]].
    + intros H. discriminate H.
    + intros e. rewrite parse_empty. by intros [= <-].
    + intros v c e. rewrite parse_empty. intros [=].
    + intros e w1 [= _ <-]. done.
Qed.

(** The example and the two layers at which a parse can fail, on a disk. *)
Example sync_resolveContent_examples :
  let h := Model.linux_utc in
  let w := Examples.world Examples.sync_disk Examples.noon in
  Resolver.sync_resolveContent h Examples.sync_resolver id Settings "20230615T143022.json" w
  = (Returned (JSON.Json (JSON.Str "FOO")), w)
  ∧ Resolver.sync_resolveContent h Examples.sync_resolver id Settings "20230616T000000.json" w
    = (Thrown (SyntaxError "Unexpected token in JSON"), w)
  ∧ (∃ v, JSON.parse
            ("{" +:+ Examples.q +:+ "content" +:+ Examples.q +:+ ":" +:+ Examples.q
             +:+ "{ broken" +:+ Examples.q +:+ "}") = Returned v)
  ∧ Resolver.sync_resolveContent h Examples.sync_resolver id Settings "20230617T000000.json" w
    = (Thrown (SyntaxError "Unexpected token in JSON"), w).
Proof.
  intros h w. split; [vm_compute; reflexivity|]. split; [vm_compute; reflexivity|].
  split; [eexists; vm_compute; reflexivity|]. vm_compute; reflexivity.
Qed.

(** C3 as stated fails on a read miss: the base read returns the empty
    string without throwing, and the sync resolver throws all the same. *)
Lemma sync_read_miss_throws :
  let w := Examples.world Examples.sync_disk Examples.noon in
  Resolver.resolveContent Model.linux_utc Examples.sync_resolver Settings "19990101T000000.json" w
  = (Returned EmptyString, w)
  ∧ Resolver.sync_resolveContent Model.linux_utc Examples.sync_resolver id
      Settings "19990101T000000.json" w
    = (Thrown (SyntaxError "Unexpected token in JSON"), w).
Proof. split; vm_compute; reflexivity. Qed.

(** ** The three generations side by side *)

Lemma forget_uri_entries {W} (host : Host W) (this : Resolver.UserDataBackupResolver) r
    (l : list string) :
  forget_uri <$>
    ((fun n =>
        {| Resolver.name := n;
           Resolver.created := Resolver.getCreationTime host n;
           Resolver.resource := r;
           Resolver.uri :=
             {| scheme := Resolver.resolver_scheme this;
                uri_path := path.join [] [EmptyString; resource_string r; n] |} |}) <$> l)
  = entry_of host r <$> l.
Proof. induction l as [|x l IH]; [done|]. rewrite !fmap_cons, IH. done. Qed.

(** C10, as the code has it.  Three services over the same backup folder and
    the same user data path behave alike on every host and in every state of
    the world: the same listing (the third generation adds a [uri] to each
    entry and nothing else), the same content, and the same backup with all
    its effects.  The constructors of the second and third generation derive
    the two paths from the extension context in the same way; the
    constructor of [extension.ts] derives the same backup folder. *)
Theorem generations_agree
    {W} (host : Host W) (folder userData : path.t) (scheme : string) r n w
    (context : ExtensionContext) :
  let A := {| Extension.userDataBackupFolder := folder; Extension.userDataPath := userData |} in
  let B := {| Paged.userDataPath := userData; Paged.userDataBackupFolder := folder |} in
  let C := {| Resolver.userDataPath := userData;
              Resolver.resolver_scheme := scheme;
              Resolver.userDataBackupFolder := folder |} in
  Paged.getAllEntries host B r w = Extension.getAllEntries host A r w
  ∧ map_result (fmap forget_uri) (Resolver.getAllEntries host C r w)
    = Extension.getAllEntries host A r w
  ∧ Paged.resolveContent host B r n w = Extension.resolveContent host A r n w
  ∧ Resolver.resolveContent host C r n w = Extension.resolveContent host A r n w
  ∧ Paged.backup host B r w = Extension.backup host A r w
  ∧ Resolver.backup host C r w = Extension.backup host A r w
  ∧ Paged.userDataBackupFolder (Paged.new_UserDataBackupService context)
    = Resolver.userDataBackupFolder (Resolver.new_UserDataChangesBackupService context)
  ∧ Paged.userDataPath (Paged.new_UserDataBackupService context)
    = Resolver.userDataPath (Resolver.new_UserDataChangesBackupService context)
  ∧ match Extension.new_UserDataBackupService host context with
    | Returned A' =>
        Extension.userDataBackupFolder A'
        = Paged.userDataBackupFolder (Paged.new_UserDataBackupService context)
    | Thrown _ => True
    end.
Proof.
  intros A B C.
  split; [reflexivity|]. split.
  { rewrite getAllEntries_run.
    unfold Resolver.getAllEntries, try_catch, mbind, IO_bind, bind, mret, IO_ret, ret.
    cbn [Resolver.userDataBackupFolder C Extension.userDataBackupFolder A].
    destruct (fs_readdir host _ w) as [[children|e] w']; [|done].
    unfold map_result. by rewrite forget_uri_entries. }
  split; [reflexivity|]. split; [reflexivity|]. split; [reflexivity|].
  split; [reflexivity|]. split; [reflexivity|]. split; [reflexivity|].
  unfold Extension.new_UserDataBackupService.
  by destruct (Extension.getUserDataPath host).
Qed.

(** C10 as stated fails: with the same backup root, clock and disk, the
    service of [extension.ts] looks for the live file under
    [Code - Insiders] and the later generations two levels above the global
    storage path.  On an installation of the stable editor the first backup
    throws and the other succeeds. *)
Lemma generations_differ_on_user_data_path :
  let w := Examples.world Examples.stable_disk Examples.noon in
  let C := Resolver.new_UserDataChangesBackupService Examples.stable_context in
  ∃ A, Extension.new_UserDataBackupService Model.linux_utc Examples.stable_context = Returned A
    ∧ Extension.userDataBackupFolder A = Resolver.userDataBackupFolder C
    ∧ Extension.userDataPath A = ["home"; "u"; ".config"; "Code - Insiders"; "User"]
    ∧ Resolver.userDataPath C = ["home"; "u"; ".config"; "Code"; "User"]
    ∧ fst (Extension.backup Model.linux_utc A Settings w) = Thrown (SystemError "ENOENT")
    ∧ fst (Resolver.backup Model.linux_utc C Settings w) = Returned tt.
Proof.
  eexists. split; [reflexivity|]. repeat split; vm_compute; reflexivity.
Qed.

(** ** Paging *)

Lemma fixed_snoc w x :
  0 <= x < 10 ^ Z.of_nat (S w) →
  fixed (S w) x = fixed w (x / 10) +:+ String (digit_char (x mod 10)) EmptyString.
Proof.
  revert x. induction w as [|w IH]; intros x Hx.
  - simpl in Hx. cbn [fixed]. change (10 ^ Z.of_nat 0) with 1.
    rewrite Z.div_1_r, Z.mod_small by lia. done.
  - pose proof (fixed_head_range (S w) x Hx) as [H1 H2].
    pose proof (pow10_pos w) as Hp.
    assert (Hq : x / 10 ^ Z.of_nat (S w) = (x / 10) / 10 ^ Z.of_nat w).
    { rewrite pow10_succ, Z.div_div by lia. done. }
    assert (Hr : x mod 10 ^ Z.of_nat (S w) = x mod 10 + 10 * ((x / 10) mod 10 ^ Z.of_nat w)).
    { rewrite pow10_succ. apply Z.rem_mul_r; lia. }
    pose proof (Z.mod_pos_bound x 10 ltac:(lia)) as Hx10.
    pose proof (Z.mod_pos_bound (x / 10) (10 ^ Z.of_nat w) Hp) as Hxw.
    change (fixed (S (S w)) x)
      with (String (digit_char (x / 10 ^ Z.of_nat (S w))) (fixed (S w) (x mod 10 ^ Z.of_nat (S w)))).
    rewrite IH by done.
    change (fixed (S w) (x / 10))
      with (String (digit_char ((x / 10) / 10 ^ Z.of_nat w)) (fixed w ((x / 10) mod 10 ^ Z.of_nat w))).
    rewrite Hq, Hr.
    replace ((x mod 10 + 10 * ((x / 10) mod 10 ^ Z.of_nat w)) / 10)
      with ((x / 10) mod 10 ^ Z.of_nat w).
    2:{ rewrite (Z.mul_comm 10), Z.div_add by (clear; lia).
        rewrite (Z.div_small (x mod 10) 10) by exact Hx10. done. }
    replace ((x mod 10 + 10 * ((x / 10) mod 10 ^ Z.of_nat w)) mod 10) with (x mod 10).
    2:{ rewrite (Z.mul_comm 10), Z.mod_add by (clear; lia).
        rewrite (Z.mod_small (x mod 10) 10) by exact Hx10. done. }
    done.
Qed.

Lemma pretty_N_char_digit x : (x < 10)%N → pretty_N_char x = digit_char (Z.of_N x).
Proof.
  intros H.
  assert (x = 0 ∨ x = 1 ∨ x = 2 ∨ x = 3 ∨ x = 4 ∨ x = 5 ∨ x = 6 ∨ x = 7 ∨ x = 8 ∨ x = 9)%N
    as Hc by lia.
  repeat (destruct Hc as [->|Hc]; [done|]). by subst.
Qed.

(** The digits [pretty] prints are the fixed-width form without leading
    zeros. *)
Lemma pretty_N_go_fixed (x : N) :
  ∃ w, 0 <= Z.of_N x < 10 ^ Z.of_nat w ∧ (x ≠ 0%N → w ≠ O)
       ∧ ∀ s, pretty_N_go x s = fixed w (Z.of_N x) +:+ s.
Proof.
  induction (N.lt_wf_0 x) as [x _ IH].
  destruct (decide (x = 0%N)) as [->|Hx].
  - exists O. split; [simpl; lia|]. split; [done|]. intros s. by rewrite pretty_N_go_0.
  - destruct (IH (x `div` 10)%N) as (w & Hw & _ & Hgo).
    { apply N.div_lt; lia. }
    exists (S w). rewrite pow10_succ. rewrite N2Z.inj_div in Hw. change (Z.of_N 10) with 10 in Hw.
    assert (Hlt : 0 <= Z.of_N x < 10 * 10 ^ Z.of_nat w).
    { pose proof (pow10_pos w). Z.to_euclidean_division_equations. lia. }
    split; [done|]. split; [done|]. intros s.
    rewrite pretty_N_go_step by lia. rewrite Hgo.
    rewrite fixed_snoc by (by rewrite pow10_succ).
    rewrite append_assoc. rewrite N2Z.inj_div. simpl.
    rewrite pretty_N_char_digit by (apply N.mod_lt; lia).
    rewrite N2Z.inj_mod. done.
Qed.

Lemma pretty_nonneg n :
  0 <= n → ∃ w, 0 <= n < 10 ^ Z.of_nat (S w) ∧ pretty n = fixed (S w) n.
Proof.
  intros Hn. destruct n as [|p|p]; [|clear Hn|lia].
  - exists O. split; [simpl; lia|done].
  - destruct (pretty_N_go_fixed (Npos p)) as (w & Hw & Hnz & Hgo).
    destruct w as [|w]; [by destruct Hnz|].
    exists w. split; [done|].
    change (pretty (Z.pos p)) with (pretty_N_go (N.pos p) EmptyString).
    rewrite Hgo, append_nil_r. done.
Qed.

(** The text of a cursor reads back as the offset it was made from. *)
Lemma parseInt_pretty n : 0 <= n → JsString.parseInt (pretty n) = Num n.
Proof.
  intros Hn. destruct (pretty_nonneg n Hn) as (w & Hw & ->). by apply parseInt_fixed.
Qed.

Lemma array_slice_window {A} (l : list A) n :
  0 <= n → array_slice l (Num n) (Num (n + 10)) = take 10 (drop (Z.to_nat n) l).
Proof.
  intros Hn. unfold array_slice, JsString.rel_index, to_index.
  rewrite !(proj2 (Z.ltb_ge _ _)) by lia.
  destruct (decide (Z.of_nat (length l) <= n)) as [Hlen|Hlen].
  - rewrite !drop_ge by lia. by rewrite !take_nil.
  - replace (Z.to_nat (Z.min n (Z.of_nat (length l)))) with (Z.to_nat n) by lia.
    destruct (decide (n + 10 <= Z.of_nat (length l))) as [Hfull|Hshort].
    + f_equal. lia.
    + rewrite !take_ge; [done|rewrite length_drop; lia|rewrite length_drop; lia].
Qed.

(** C6.  [provideTimeline] pages the list [getAllEntries] returned.  The page
    is the ten entries from the offset on, where the offset is
    the number the cursor spells, or 0 without a cursor; the next cursor is
    the offset plus ten in decimal, and it is there exactly when the list has
    more than offset plus ten entries.  With 25 entries and no cursor the
    page has 10 items and the next cursor is 10; with the cursor 20 the page
    has the last 5 items and there is no next cursor. *)
Theorem page_is_ten_from_offset
    {W} (host : Host W) (this : Resolver.UserDataBackupResolver) r options w
    (entries : list Resolver.IUserDataBackupEntry) (source : Uri) :
  Resolver.provideTimeline host this r source options w
  = map_result (fun all => Resolver.page all source options)
      (Resolver.getAllEntries host this r w)
  ∧ Resolver.page entries source {| cursor := None |}
  = {| Resolver.items := (fun e => Resolver.toTimelineItem e source) <$> take 10 entries;
       Resolver.paging_cursor :=
         if bool_decide (Z.of_nat (length entries) > 10) then Some "10" else None |}
  ∧ (∀ k offset,
       0 <= offset < 10 ^ Z.of_nat (S k) →
       Resolver.page entries source {| cursor := Some (fixed (S k) offset) |}
       = {| Resolver.items :=
              (fun e => Resolver.toTimelineItem e source)
                <$> take 10 (drop (Z.to_nat offset) entries);
            Resolver.paging_cursor :=
              if bool_decide (Z.of_nat (length entries) > offset + 10)
              then Some (pretty (offset + 10)) else None |}
       ∧ JsString.parseInt (pretty (offset + 10)) = Num (offset + 10))
  ∧ (length entries = 25%nat →
     (length (Resolver.items (Resolver.page entries source {| cursor := None |})) = 10%nat
      ∧ Resolver.paging_cursor (Resolver.page entries source {| cursor := None |}) = Some "10")
     ∧ (Resolver.items (Resolver.page entries source {| cursor := Some "20" |})
        = (fun e => Resolver.toTimelineItem e source) <$> drop 20 entries
        ∧ length (Resolver.items (Resolver.page entries source {| cursor := Some "20" |}))
          = 5%nat
        ∧ Resolver.paging_cursor (Resolver.page entries source {| cursor := Some "20" |})
          = None)).
Proof.
  assert (Hnone :
    Resolver.page entries source {| cursor := None |}
    = {| Resolver.items := (fun e => Resolver.toTimelineItem e source) <$> take 10 entries;
         Resolver.paging_cursor :=
           if bool_decide (Z.of_nat (length entries) > 10) then Some "10" else None |}).
  { unfold Resolver.page, Resolver.filterEntries. cbn [truthy cursor].
    rewrite (array_slice_window entries 0 ltac:(lia)
             : array_slice entries (Num 0) (Num 10) = _).
    cbn [num_gt Number_toString].
    rewrite drop_0. done. }
  assert (Hsome : ∀ k offset,
    0 <= offset < 10 ^ Z.of_nat (S k) →
    Resolver.page entries source {| cursor := Some (fixed (S k) offset) |}
    = {| Resolver.items :=
           (fun e => Resolver.toTimelineItem e source)
             <$> take 10 (drop (Z.to_nat offset) entries);
         Resolver.paging_cursor :=
           if bool_decide (Z.of_nat (length entries) > offset + 10)
           then Some (pretty (offset + 10)) else None |}).
  { intros k offset Hoff. unfold Resolver.page, Resolver.filterEntries.
    cbn [cursor default].
    assert (truthy (Some (fixed (S k) offset)) = true) as -> by done.
    unfold id. rewrite parseInt_fixed by done. cbn [num_add num_gt Number_toString].
    rewrite array_slice_window by lia. done. }
  split.
  { unfold Resolver.provideTimeline, mbind, IO_bind, bind, mret, IO_ret, ret, map_result.
    by destruct (Resolver.getAllEntries host this r w) as [[all|e] w']. }
  split; [done|]. split.
  - intros k offset Hoff. split; [by apply Hsome|]. apply parseInt_pretty. lia.
  - intros Hlen. rewrite Hnone. cbn [Resolver.items Resolver.paging_cursor].
    change "20" with (fixed 2 20). rewrite (Hsome 1%nat 20) by (simpl; lia).
    cbn [Resolver.items Resolver.paging_cursor].
    rewrite !length_fmap, !length_take, !length_drop, Hlen.
    rewrite take_ge by (rewrite length_drop; lia).
    split; [done|]. done.
Qed.

(** ** Paths *)

Lemma chars_append a b : chars (a +:+ b) = chars a ++ chars b.
Proof. induction a as [|c a IH]; simpl; [done|]. by rewrite IH. Qed.

Lemma slash_free_append a b : slash_free (a +:+ b) ↔ slash_free a ∧ slash_free b.
Proof. unfold slash_free. rewrite chars_append. apply Forall_app. Qed.

Lemma split_slash_free s : slash_free s → path.split s = [s].
Proof.
  unfold slash_free. induction s as [|c s IH]; simpl; [done|].
  intros [Hc Hs]%Forall_cons. rewrite IH by done.
  destruct (Ascii.eqb_spec c "/"); done.
Qed.

(** Joining one plain segment appends it. *)
Lemma join_segment base s :
  slash_free s → (String.length s > 2)%nat → path.join base [s] = base ++ [s].
Proof.
  intros Hs Hlen. unfold path.join. simpl. rewrite split_slash_free by done.
  simpl. unfold path.push.
  repeat (case_decide; [subst; simpl in Hlen; lia|]). done.
Qed.

Lemma join_resource base r : path.join base [resource_string r] = base ++ [resource_string r].
Proof. apply join_segment; destruct r; [by repeat constructor|by repeat constructor|simpl; lia..]. Qed.

Lemma join_resource_json base r :
  path.join base [resource_string r +:+ ".json"] = base ++ [resource_string r +:+ ".json"].
Proof. apply join_segment; destruct r; [by repeat constructor|by repeat constructor|simpl; lia..]. Qed.

Lemma digits_slash_free w s : digits w s → slash_free s.
Proof.
  revert s. induction w as [|w IH]; intros [|c s]; simpl; try done.
  - intros _. constructor.
  - intros [Hc Hs]. constructor; [|by apply IH].
    intros ->. discriminate Hc.
Qed.

Lemma slash_free_fixed w n : 0 <= n < 10 ^ Z.of_nat w → slash_free (fixed w n).
Proof. intros H. eapply digits_slash_free, digits_fixed, H. Qed.

Lemma slash_free_pretty (z : Z) : slash_free (pretty z).
Proof.
  destruct z as [|p|p].
  - by repeat constructor.
  - destruct (pretty_N_go_fixed (Npos p)) as (w & Hw & _ & Hgo).
    change (pretty (Z.pos p)) with (pretty_N_go (N.pos p) EmptyString).
    rewrite Hgo, append_nil_r. by apply slash_free_fixed.
  - destruct (pretty_N_go_fixed (Npos p)) as (w & Hw & _ & Hgo).
    change (pretty (Z.neg p)) with ("-" +:+ pretty_N_go (N.pos p) EmptyString).
    rewrite Hgo, append_nil_r. apply slash_free_append. split; [by repeat constructor|].
    by apply slash_free_fixed.
Qed.

Lemma slash_free_join_empty l : Forall slash_free l → slash_free (JsString.join_empty l).
Proof.
  induction 1 as [|s l Hs Hl IH]; simpl; [constructor|].
  apply slash_free_append. done.
Qed.

Lemma slash_free_drop n s : slash_free s → slash_free (JsString.drop n s).
Proof.
  revert s. induction n as [|n IH]; intros [|c s] H; simpl; try done.
  apply IH. by inversion H.
Qed.

Lemma slash_free_take n s : slash_free s → slash_free (JsString.take n s).
Proof.
  revert s. induction n as [|n IH]; intros [|c s] H; simpl; try done; try constructor.
  - by inversion H.
  - apply IH. by inversion H.
Qed.

Lemma slash_free_pad n l : slash_free (Extension.pad n l).
Proof.
  unfold Extension.pad. apply slash_free_join_empty.
  apply Forall_reverse, Forall_app. split.
  - repeat constructor. apply slash_free_pretty.
  - apply Forall_replicate. by repeat constructor.
Qed.

Lemma slash_free_replace_separators s : slash_free s → slash_free (replace_separators s).
Proof.
  induction s as [|c s IH]; [done|]. intros [Hc Hs]%Forall_cons.
  cbn [replace_separators].
  destruct (Ascii.eqb c "-"); [by apply IH|].
  destruct (Ascii.eqb c ":"); [by apply IH|].
  destruct (RegExp.test fraction_pattern (String c s)); [constructor|].
  constructor; [done|by apply IH].
Qed.

(** Whatever the clock shows, the name of the snapshot is one path
    segment. *)
Lemma snapshot_name_segment folder d :
  path.join folder [replace_separators (Extension.toLocalISOString d) +:+ ".json"]
  = folder ++ [replace_separators (Extension.toLocalISOString d) +:+ ".json"].
Proof.
  apply join_segment.
  - apply slash_free_append. split; [|by repeat constructor].
    apply slash_free_replace_separators. unfold Extension.toLocalISOString.
    repeat (apply slash_free_append; split);
      try apply slash_free_pretty; try apply slash_free_pad; try (by repeat constructor).
    apply slash_free_take, slash_free_drop. unfold thousandths_toFixed3.
    repeat (apply slash_free_append; split);
      try apply slash_free_pretty; try (by repeat constructor).
    apply slash_free_join_empty, Forall_replicate. by repeat constructor.
  - rewrite length_append. simpl. lia.
Qed.

(** ** The disk of the model *)

Lemma child_name_Some p q n : Model.child_name p q = Some n ↔ q = p ++ [n].
Proof.
  revert q. induction p as [|a p IH]; intros q; simpl.
  - destruct q as [|b [|c q]]; split; intros H; simplify_eq; done.
  - destruct q as [|b q]; [split; intros H; simplify_eq|].
    case_decide as Hab.
    + subst. rewrite IH. split; intros H; simplify_eq; done.
    + split; intros H; simplify_eq.
Qed.

Lemma elem_of_children fs p n :
  n ∈ Model.children fs p ↔ is_Some (fs !! (p ++ [n])).
Proof.
  unfold Model.children. rewrite list_elem_of_omap. split.
  - intros (q & Hq & ->%child_name_Some).
    apply list_elem_of_fmap in Hq as ([q' x] & -> & Hx%elem_of_map_to_list). by exists x.
  - intros [x Hx]. exists (p ++ [n]). split; [|by apply child_name_Some].
    apply list_elem_of_fmap. exists (p ++ [n], x). split; [done|].
    by apply elem_of_map_to_list.
Qed.

Lemma NoDup_children fs p : NoDup (Model.children fs p).
Proof.
  unfold Model.children.
  pose proof (NoDup_fst_map_to_list fs) as Hnd.
  induction Hnd as [|q l Hq Hl IH]; simpl; [constructor|].
  destruct (Model.child_name p q) as [n|] eqn:E; [|done].
  constructor; [|done].
  intros (q' & Hq' & E')%list_elem_of_omap.
  apply child_name_Some in E as ->. apply child_name_Some in E' as ->. done.
Qed.

(** What [mkdir -p] leaves behind: the directory asked for, every path that
    was there as it was, and new directories only on the way down. *)
Lemma mkdir_from_spec fs base todo fs' :
  Model.mkdir_from fs base todo = Returned fs' →
  (todo ≠ [] → fs' !! (base ++ todo) = Some Directory)
  ∧ ∀ q, fs' !! q = fs !! q
         ∨ (fs !! q = None ∧ fs' !! q = Some Directory
            ∧ ∃ rest, base ++ todo = q ++ rest ∧ (length base < length q)%nat).
Proof.
  revert fs base. induction todo as [|seg rest IH]; intros fs base H; simpl in H.
  - injection H as <-. split; [done|]. intros q. by left.
  - destruct (fs !! (base ++ [seg])) as [[content|]|] eqn:E; [done| |].
    + apply IH in H as [Hdir Hframe].
      rewrite <- !(assoc_L (++)) in *. simpl in *. split.
      * intros _. destruct rest as [|s rest]; [|by apply Hdir].
        destruct (Hframe (base ++ [seg])) as [->|(? & _)]; [done|congruence].
      * intros q. destruct (Hframe q) as [?|(Hn & Hd & tl & Heq & Hlen)]; [by left|].
        right. split; [done|]. split; [done|]. exists tl. split; [done|].
        rewrite length_app in Hlen. simpl in Hlen. lia.
    + apply IH in H as [Hdir Hframe].
      rewrite <- !(assoc_L (++)) in *. simpl in *.
      assert (Hp : fs' !! (base ++ [seg]) = Some Directory).
      { destruct (Hframe (base ++ [seg])) as [->|(Hn & _)].
        - by rewrite lookup_insert_eq.
        - by rewrite lookup_insert_eq in Hn. }
      split.
      * intros _. destruct rest as [|s rest]; [done|by apply Hdir].
      * intros q. destruct (decide (q = base ++ [seg])) as [->|Hq].
        -- right. split; [done|]. split; [done|]. exists rest.
           rewrite <- (assoc_L (++)). split; [done|]. rewrite length_app. simpl. lia.
        -- destruct (Hframe q) as [Hsame|(Hn & Hd & tl & Heq & Hlen)].
           ++ left. by rewrite Hsame, lookup_insert_ne.
           ++ right. rewrite lookup_insert_ne in Hn by done.
              split; [done|]. split; [done|]. exists tl. split; [done|].
              rewrite length_app in Hlen. simpl in Hlen. lia.
Qed.

(** ** Backup *)

Lemma lookup_node_snoc fs p x : Model.lookup_node fs (p ++ [x]) = fs !! (p ++ [x]).
Proof. unfold Model.lookup_node. by destruct p. Qed.

Lemma dirname_snoc p x : path.dirname (p ++ [x]) = p.
Proof. unfold path.dirname. apply removelast_last. Qed.

Section BackupOnModel.
Context (tz : Z → Z) (platform : string) (home : path.t) (profile : option path.t).
Context (this : Extension.UserDataBackupService) (r : UserDataResource).

Let h : Host World := Model.host tz platform home profile.
Let folder : path.t := Extension.userDataBackupFolder this ++ [resource_string r].
Let live : path.t := Extension.userDataPath this ++ [resource_string r +:+ ".json"].

(** The steps of a backup that succeeds. *)
Lemma backup_success w w' :
  Extension.backup h this r w = (Returned tt, w') →
  let snapshot :=
    folder ++ [replace_separators (Extension.toLocalISOString (clock w)) +:+ ".json"] in
  ∃ fs1 content,
    (if bool_decide (is_Some (Model.lookup_node (files w) folder))
     then fs1 = files w
     else Model.mkdir_from (files w) [] folder = Returned fs1)
    ∧ fs1 !! live = Some (File content)
    ∧ fs1 !! folder = Some Directory
    ∧ w' = {| files := <[snapshot := File content]> fs1;
              clock := clock w;
              fired := fired w ++ [r] |}.
Proof.
  unfold Extension.backup.
  rewrite join_resource, join_resource_json. fold folder live.
  unfold mbind, IO_bind, bind, mret, IO_ret, ret.
  cbn [fs_exists fs_mkdir_recursive fs_readFile fs_writeFile new_Date emitter_fire h Model.host].
  unfold Model.exists_ at 1.
  intros H.
  set (snapshot :=
         folder ++ [replace_separators (Extension.toLocalISOString (clock w)) +:+ ".json"]).
  assert (Hw1 : ∃ fs1,
             (if negb (bool_decide (is_Some (Model.lookup_node (files w) folder)))
              then Model.mkdir_recursive folder else fun w0 => (Returned tt, w0)) w
             = (Returned tt, Model.set_files w fs1)
             ∧ if bool_decide (is_Some (Model.lookup_node (files w) folder))
               then fs1 = files w
               else Model.mkdir_from (files w) [] folder = Returned fs1).
  { destruct (bool_decide (is_Some (Model.lookup_node (files w) folder))); simpl in *.
    - exists (files w). split; [by destruct w|done].
    - unfold Model.mkdir_recursive in *.
      destruct (Model.mkdir_from (files w) [] folder) as [fs1|e]; [|done].
      by exists fs1. }
  destruct Hw1 as (fs1 & Hw1 & Hfs1). rewrite Hw1 in H. clear Hw1.
  unfold Model.read_clock in H. cbn [clock Model.set_files] in H.
  rewrite snapshot_name_segment in H. fold snapshot in H.
  unfold Model.readFile in H. cbn [files Model.set_files] in H.
  assert (E0 : Model.lookup_node fs1 live = fs1 !! live) by apply lookup_node_snoc.
  rewrite E0 in H.
  destruct (fs1 !! live) as [[content|]|] eqn:Elive; [|discriminate H..].
  unfold Model.writeFile in H. cbn [files Model.set_files] in H.
  assert (E1 : Model.lookup_node fs1 snapshot = fs1 !! snapshot) by apply lookup_node_snoc.
  assert (E2 : path.dirname snapshot = folder) by apply dirname_snoc.
  assert (E3 : Model.lookup_node fs1 folder = fs1 !! folder) by apply lookup_node_snoc.
  rewrite E1, E2, E3 in H.
  destruct (fs1 !! snapshot) as [[c|]|] eqn:Esnap;
    destruct (fs1 !! folder) as [[c'|]|] eqn:Efolder; try discriminate H.
  - injection H as <-. exists fs1, content. done.
  - injection H as <-. exists fs1, content. done.
Qed.

(** What a backup that succeeds leaves behind. *)
Lemma backup_frame w w' :
  Extension.backup h this r w = (Returned tt, w') →
  let snapshot :=
    folder ++ [replace_separators (Extension.toLocalISOString (clock w)) +:+ ".json"] in
  ∃ content,
    files w !! live = Some (File content)
    ∧ files w' !! folder = Some Directory
    ∧ files w' !! snapshot = Some (File content)
    ∧ (∀ q, q ≠ snapshot →
         files w' !! q = files w !! q
         ∨ (files w !! q = None ∧ files w' !! q = Some Directory ∧ q `prefix_of` folder
            ∧ Model.lookup_node (files w) folder = None))
    ∧ fired w' = fired w ++ [r]
    ∧ clock w' = clock w.
Proof.
  intros H snapshot.
  destruct (backup_success w w' H) as (fs1 & content & Hfs1 & Hlive & Hfolder & ->).
  fold snapshot. cbn [files fired clock].
  assert (Hne : folder ≠ snapshot).
  { intros E. apply (f_equal length) in E. unfold snapshot in E.
    rewrite length_app in E. simpl in E. lia. }
  assert (Hframe : ∀ q,
             fs1 !! q = files w !! q
             ∨ (files w !! q = None ∧ fs1 !! q = Some Directory ∧ q `prefix_of` folder
                ∧ Model.lookup_node (files w) folder = None)).
  { intros q. case_bool_decide as Hex.
    - left. by rewrite Hfs1.
    - apply mkdir_from_spec in Hfs1 as [_ Hfr].
      destruct (Hfr q) as [?|(Hn & Hd & tl & Heq & _)]; [by left|].
      right. split; [done|]. split; [done|]. split; [by exists tl|].
      destruct (Model.lookup_node (files w) folder) eqn:E; [|done].
      by destruct Hex. }
  exists content. split.
  { destruct (Hframe live) as [<-|(_ & Hd & _)]; [done|congruence]. }
  split; [by rewrite lookup_insert_ne|].
  split; [by rewrite lookup_insert_eq|].
  split; [|done].
  intros q Hq. rewrite lookup_insert_ne by done. apply Hframe.
Qed.

(** After a backup the subfolder holds what it held and the new snapshot. *)
Lemma backup_children w w' :
  Extension.backup h this r w = (Returned tt, w') →
  ∀ n, n ∈ Model.children (files w') folder
       ↔ n = replace_separators (Extension.toLocalISOString (clock w)) +:+ ".json"
         ∨ n ∈ Model.children (files w) folder.
Proof.
  intros H n.
  destruct (backup_frame w w' H) as (content & Hlive & Hfolder & Hsnap & Hframe & _).
  rewrite !elem_of_children.
  destruct (decide (n = replace_separators (Extension.toLocalISOString (clock w)) +:+ ".json"))
    as [->|Hn].
  { split; [by left|]. intros _. by rewrite Hsnap. }
  assert (Hq : folder ++ [n]
               ≠ folder ++ [replace_separators (Extension.toLocalISOString (clock w)) +:+ ".json"]).
  { intros E. apply app_inv_head in E. by injection E. }
  destruct (Hframe _ Hq) as [->|(Hnone & Hdir & [tl Hpre] & _)].
  - split; [by right|]. by intros [?|?].
  - apply (f_equal length) in Hpre. rewrite !length_app in Hpre. simpl in Hpre. lia.
Qed.

End BackupOnModel.


Lemma clock_reading_in_width d : clock_reading d → in_width (fields_of d).
Proof.
  intros (Hy & (Hmo & Hd & Hh & Hmi & Hs) & Hms).
  cbn [fields_of f_year f_month f_day f_hour f_minute f_second] in *.
  assert (getDate d <= 31).
  { unfold DateMath.DaysInMonth, DateMath.InLeapYear, DateMath.DaysInYear in Hd.
    repeat case_match; repeat case_bool_decide; lia. }
  unfold in_width. cbn [fields_of f_year f_month f_day f_hour f_minute f_second]. lia.
Qed.







(** ** The newest entry *)

Lemma wall_clock_fields d :
  wall_clock d = local_seconds (fields_of d) * 1000 + getMilliseconds d.
Proof.
  unfold wall_clock, local_seconds, fields_of, DateMath.MakeDate, DateMath.MakeTime,
    DateMath.msPerDay, DateMath.msPerHour, DateMath.msPerMinute, DateMath.msPerSecond.
  cbn [f_year f_month f_day f_hour f_minute f_second].
  replace (getMonth d + 1 - 1) with (getMonth d) by lia. lia.
Qed.

(** A snapshot named when the wall clock showed no more than it shows now
    does not sort after the snapshot named now. *)
Lemma earlier_stamp_le t now sfx :
  clock_reading t → clock_reading now → wall_clock t <= wall_clock now →
  sfx = EmptyString ∨ sfx = ".json" →
  String.le (stamp (fields_of t) +:+ sfx) (stamp (fields_of now) +:+ ".json").
Proof.
  intros Ht Hnow Hle Hsfx.
  pose proof (clock_reading_in_width t Ht) as Wt.
  pose proof (clock_reading_in_width now Hnow) as Wn.
  destruct Ht as (_ & Ct & Mt). destruct Hnow as (_ & Cn & Mn).
  rewrite !wall_clock_fields in Hle.
  unfold String.le, String.leb. rewrite compare_stamp by done.
  rewrite fields_compare_chronological by done.
  destruct (Z.compare_spec (local_seconds (fields_of t)) (local_seconds (fields_of now)));
    [|done|lia].
  by destruct Hsfx as [-> | ->].
Qed.

Lemma sorted_head (l : list string) x :
  StronglySorted (fun a b => String.le b a) l → x ∈ l → (∀ y, y ∈ l → String.le y x) →
  ∃ rest, l = x :: rest.
Proof.
  intros Hs Hx Hmax. destruct l as [|hd rest]; [by apply elem_of_nil in Hx|].
  exists rest. f_equal.
  apply StronglySorted_cons in Hs as [Hall _].
  apply (anti_symm String.le).
  - apply Hmax. left.
  - apply elem_of_cons in Hx as [->|Hx]; [done|].
    rewrite Forall_forall in Hall. by apply Hall.
Qed.

(** C1, as the code has it.  When the clock shows a year of four digits, and
    every snapshot already in the subfolder was named from a reading of the
    clock, with a year of four digits, that is not after the present
    reading, then [getAllEntries] after a backup that succeeds returns a
    sequence that is not empty and starts with the snapshot the backup has
    just written. *)
Theorem newest_entry_is_the_new_snapshot
    tz platform home profile (this : Extension.UserDataBackupService) r (w w' : World) :
  let h := Model.host tz platform home profile in
  let folder := Extension.userDataBackupFolder this ++ [resource_string r] in
  clock_reading (clock w) →
  (∀ n, n ∈ Model.children (files w) folder → accepted n →
        ∃ t sfx, clock_reading t ∧ (sfx = EmptyString ∨ sfx = ".json")
                 ∧ n = stamp (fields_of t) +:+ sfx
                 ∧ wall_clock t <= wall_clock (clock w)) →
  Extension.backup h this r w = (Returned tt, w') →
  ∃ e es content,
    Extension.getAllEntries h this r w' = (Returned (e :: es), w')
    ∧ name e = stamp (fields_of (clock w)) +:+ ".json"
    ∧ resource e = r
    ∧ files w' !! (folder ++ [name e]) = Some (File content)
    ∧ Model.lookup_node (files w)
        (Extension.userDataPath this ++ [resource_string r +:+ ".json"])
      = Some (File content).
Proof.
  intros h folder Hclock Hearlier H.
  destruct (backup_frame tz platform home profile this r w w' H)
    as (content & Hlive & Hfolder & Hsnap & _).
  assert (Hname : replace_separators (Extension.toLocalISOString (clock w)) +:+ ".json"
                  = stamp (fields_of (clock w)) +:+ ".json") by (by rewrite snapshot_stamp).
  rewrite Hname in Hsnap.
  rewrite <- lookup_node_snoc in Hlive. rewrite <- lookup_node_snoc in Hfolder.
  fold folder in Hfolder, Hsnap.
  set (new := stamp (fields_of (clock w)) +:+ ".json") in *.
  pose proof (backup_children tz platform home profile this r w w' H) as Hch.
  rewrite Hname in Hch. fold folder new in Hch.
  assert (Hacc : accepted new).
  { apply accepted_stamp. exists (fields_of (clock w)), ".json".
    split; [by apply clock_reading_in_width|]. split; [by right|done]. }
  destruct (sorted_head (listed (Model.children (files w') folder)) new) as [rest Hrest].
  - apply listed_sorted.
  - apply elem_of_listed. split; [|done]. apply Hch. by left.
  - intros y [Hy Hyacc]%elem_of_listed. apply Hch in Hy as [->|Hy]; [done|].
    destruct (Hearlier y Hy Hyacc) as (t & sfx & Ht & Hsfx & -> & Hle).
    by apply earlier_stamp_le.
  - exists (entry_of h r new), (entry_of h r <$> rest), content.
    split.
    { rewrite getAllEntries_run. rewrite join_resource. fold folder.
      cbn [fs_readdir h Model.host]. unfold Model.readdir. rewrite Hfolder.
      by rewrite Hrest. }
    done.
Qed.

(** The theorem at a disk that holds two earlier snapshots, one of each
    naming convention. *)
Lemma newest_entry_is_the_new_snapshot_witness :
  let w := Examples.world Examples.used_disk Examples.noon in
  let w' := snd (Extension.backup Model.linux_utc Examples.service Settings w) in
  clock_reading (clock w)
  ∧ Extension.backup Model.linux_utc Examples.service Settings w = (Returned tt, w')
  ∧ ∃ e es, Extension.getAllEntries Model.linux_utc Examples.service Settings w'
            = (Returned (e :: es), w')
            ∧ name e = "20230615T143022.json".
Proof.
  intros w w'.
  assert (Hclock : clock_reading (clock w)).
  { vm_compute. repeat split; discriminate. }
  assert (H : Extension.backup Model.linux_utc Examples.service Settings w = (Returned tt, w'))
    by (vm_compute; reflexivity).
  split; [exact Hclock|]. split; [exact H|].
  destruct (newest_entry_is_the_new_snapshot
              (fun _ => 0) "linux" ["home"; "u"] None Examples.service Settings w w' Hclock)
    as (e & es & content & Hrun & Hname & _);
    [|exact H|exists e, es; split; [exact Hrun|exact Hname]].
  intros n Hn Hacc.
  assert (Hnotes : RegExp.test entry_pattern "notes.txt" = false) by (vm_compute; reflexivity).
  let l := eval vm_compute in (Model.children (files w) Examples.settings_folder) in
  assert (Hl : Model.children (files w)
                 (Extension.userDataBackupFolder Examples.service ++ [resource_string Settings])
               = l) by (vm_compute; reflexivity).
  rewrite Hl in Hn. clear Hl.
  repeat (apply elem_of_cons in Hn as [->|Hn]); [..|by apply elem_of_nil in Hn];
    lazymatch goal with
    | Hacc : accepted "20230101T000000.json" |- _ =>
        exists (Build_Date 2023 0 1 0 0 0 0), ".json";
        (split; [vm_compute; repeat split; discriminate|]); (split; [by right|]);
        (split; [vm_compute; reflexivity|]); vm_compute; discriminate
    | Hacc : accepted "20221231T235959" |- _ =>
        exists (Build_Date 2022 11 31 23 59 59 0), EmptyString;
        (split; [vm_compute; repeat split; discriminate|]); (split; [by left|]);
        (split; [vm_compute; reflexivity|]); vm_compute; discriminate
    | Hacc : accepted "notes.txt" |- _ =>
        apply entry_pattern_accepted in Hacc; congruence
    end.
Defined.

(** C1 as stated fails when the year has five digits: the name the backup
    writes has nine digits before the [T], the filter of [getAllEntries]
    wants eight, and the listing after the backup is empty.  No snapshot was
    there before, so the clock has not gone backwards. *)
Lemma backup_in_year_10000_is_not_listed :
  let w := Examples.world Examples.fresh_disk (Build_Date 10000 0 1 0 0 0 0) in
  let w' := snd (Extension.backup Model.linux_utc Examples.service Settings w) in
  Model.children (files w) Examples.settings_folder = []
  ∧ Extension.backup Model.linux_utc Examples.service Settings w = (Returned tt, w')
  ∧ Model.children (files w') Examples.settings_folder = ["100000101T000000.json"]
  ∧ Extension.getAllEntries Model.linux_utc Examples.service Settings w' = (Returned [], w').
Proof. repeat split; vm_compute; reflexivity. Qed.

(** * Further properties of the code *)

(** ** Padding *)

Lemma join_empty_app l1 l2 :
  JsString.join_empty (l1 ++ l2) = JsString.join_empty l1 +:+ JsString.join_empty l2.
Proof.
  induction l1 as [|s l1 IH]; [done|].
  cbn [app JsString.join_empty foldr] in *. unfold JsString.join_empty in *.
  cbn [foldr]. by rewrite IH, append_assoc.
Qed.

Lemma join_empty_zeros k : JsString.join_empty (replicate k "0") = fixed k 0.
Proof.
  induction k as [|k IH]; [done|].
  cbn [replicate fixed]. unfold JsString.join_empty in *. cbn [foldr]. rewrite IH.
  pose proof (pow10_pos k). rewrite Z.div_0_l, Z.mod_0_l by lia. done.
Qed.

Lemma fixed_zeros k w n :
  0 <= n < 10 ^ Z.of_nat w → fixed (k + w) n = fixed k 0 +:+ fixed w n.
Proof.
  intros Hn. induction k as [|k IH]; [done|].
  change (S k + w)%nat with (S (k + w)). cbn [fixed].
  pose proof (pow10_pos k). pose proof (pow10_pos w) as Hw.
  assert (Hle : 10 ^ Z.of_nat w <= 10 ^ Z.of_nat (k + w)).
  { apply Z.pow_le_mono_r; lia. }
  rewrite (Z.div_small n), (Z.mod_small n) by lia.
  rewrite Z.div_0_l, Z.mod_0_l by lia.
  rewrite IH. done.
Qed.

(** The loop of [pad] and the reversal put the zeros in front of the text
    of the number. *)
Lemma pad_zeros n l :
  Extension.pad n l = fixed (l - String.length (pretty n)) 0 +:+ pretty n.
Proof.
  unfold Extension.pad, Number_toString.
  rewrite reverse_app, reverse_replicate, join_empty_app, join_empty_zeros.
  unfold JsString.join_empty. simpl. by rewrite append_nil_r.
Qed.

(** X1.  For an integer [n] between -2^53 and 2^53, where the text of a
    number is its decimal numeral, [pad(n, l)] is the text of [n] with as
    many zeros in front as its length is short of [l], and no zero when it
    is not short: a number is never cut.  For [n] that is not negative this
    is the decimal numeral of [n] on [max l (digits of n)] digits, and
    [parseInt] reads [n] back from it.  For a negative [n] the zeros come
    before the sign.  The three copies of the function are the same. *)
Theorem pad_puts_zeros_in_front n l :
  - 2 ^ 53 < n < 2 ^ 53 →
  Extension.pad n l = fixed (l - String.length (pretty n)) 0 +:+ pretty n
  ∧ ((l <= String.length (pretty n))%nat → Extension.pad n l = pretty n)
  ∧ (0 <= n →
     Extension.pad n l = fixed (Nat.max l (String.length (pretty n))) n
     ∧ JsString.parseInt (Extension.pad n l) = Num n)
  ∧ Extension.pad 7 2 = "07" ∧ Extension.pad 123 2 = "123" ∧ Extension.pad (-5) 3 = "0-5"
  ∧ Paged.pad n l = Extension.pad n l ∧ Resolver.pad n l = Extension.pad n l.
Proof.
  intros _.
  split; [apply pad_zeros|]. split.
  { intros Hl. rewrite pad_zeros. by replace (l - String.length (pretty n))%nat with 0%nat by lia. }
  split; [|by repeat split].
  intros Hn. rewrite pad_zeros.
  destruct (pretty_nonneg n Hn) as (w & Hw & Hp). rewrite Hp, length_fixed.
  rewrite <- fixed_zeros by done.
  replace (Nat.max l (S w)) with (l - S w + S w)%nat by lia.
  split; [done|].
  replace (l - S w + S w)%nat with (S (l - S w + w)) by lia.
  apply parseInt_fixed. split; [lia|].
  eapply Z.lt_le_trans; [apply Hw|]. apply Z.pow_le_mono_r; lia.
Qed.

(** The theorem at [pad(7, 2)]. *)
Lemma pad_puts_zeros_in_front_witness :
  Extension.pad 7 2 = fixed 2 7 ∧ JsString.parseInt (Extension.pad 7 2) = Num 7.
Proof.
  destruct (pad_puts_zeros_in_front 7 2) as (_ & _ & H & _); [lia|].
  destruct (H ltac:(lia)) as [H1 H2]. split; [exact H1|exact H2].
Defined.

(** ** The text of the clock *)

Lemma calendar_day_le f : calendar f → f_day f <= 31.
Proof.
  intros (Hmo & Hd & _).
  unfold DateMath.DaysInMonth, DateMath.InLeapYear, DateMath.DaysInYear in Hd.
  repeat case_match; repeat case_bool_decide; lia.
Qed.

(** X2.  For a date of the calendar, [toLocalISOString] prints the year as
    it is, without padding, then month, day, hour, minute and second on two
    digits each and the milliseconds on three, between the separators of
    the ISO format and with a [Z] at the end, though the fields are those of
    local time.  With a year of four digits the text has 24 characters. *)
Theorem toLocalISOString_format d :
  calendar (fields_of d) → 0 <= getMilliseconds d <= 999 →
  Extension.toLocalISOString d
  = pretty (getFullYear d) +:+ "-" +:+ fixed 2 (getMonth d + 1) +:+ "-" +:+ fixed 2 (getDate d)
    +:+ "T" +:+ fixed 2 (getHours d) +:+ ":" +:+ fixed 2 (getMinutes d)
    +:+ ":" +:+ fixed 2 (getSeconds d) +:+ "." +:+ fixed 3 (getMilliseconds d) +:+ "Z"
  ∧ (1000 <= getFullYear d <= 9999 →
     pretty (getFullYear d) = fixed 4 (getFullYear d)
     ∧ String.length (Extension.toLocalISOString d) = 24%nat)
  ∧ Paged.toLocalISOString d = Extension.toLocalISOString d
  ∧ Resolver.toLocalISOString d = Extension.toLocalISOString d.
Proof.
  intros Hc Hms. pose proof (calendar_day_le _ Hc) as Hday.
  destruct Hc as (Hmo & Hd & Hh & Hmi & Hs).
  cbn [fields_of f_year f_month f_day f_hour f_minute f_second] in *.
  assert (E : Extension.toLocalISOString d
  = pretty (getFullYear d) +:+ "-" +:+ fixed 2 (getMonth d + 1) +:+ "-" +:+ fixed 2 (getDate d)
    +:+ "T" +:+ fixed 2 (getHours d) +:+ ":" +:+ fixed 2 (getMinutes d)
    +:+ ":" +:+ fixed 2 (getSeconds d) +:+ "." +:+ fixed 3 (getMilliseconds d) +:+ "Z").
  { unfold Extension.toLocalISOString, Number_toString.
    rewrite !pad_two_digits by lia. rewrite millis_three_digits by done. done. }
  split; [exact E|]. split; [|by split].
  intros Hy. split; [by apply pretty_four_digits|].
  rewrite E, pretty_four_digits by done.
  rewrite !length_append, !length_fixed. done.
Qed.

(** The theorem at 2023-06-15 14:30:22.007. *)
Lemma toLocalISOString_format_witness :
  Extension.toLocalISOString Examples.noon = "2023-06-15T14:30:22.007Z".
Proof.
  destruct (toLocalISOString_format Examples.noon) as [E _].
  - vm_compute. repeat split; discriminate.
  - vm_compute. split; discriminate.
  - rewrite E. vm_compute. reflexivity.
Defined.

(** X3.  The name a backup gives its snapshot reads back as the local time
    of the clock without its milliseconds: for a reading of the clock with
    a year of four digits, [getCreationTime] of the name is the time of the
    [Date] built from the year, month, day, hours, minutes and seconds of
    the reading, which is the instant the time zone gives to the wall clock
    of the reading less its milliseconds. *)
Theorem snapshot_name_reads_back {W} (host : Host W) d :
  clock_reading d →
  Extension.getCreationTime host (replace_separators (Extension.toLocalISOString d) +:+ ".json")
  = DateMath.Date_getTime (LocalTZA host)
      (Num (getFullYear d)) (Num (getMonth d)) (Num (getDate d))
      (Num (getHours d)) (Num (getMinutes d)) (Num (getSeconds d))
  ∧ Extension.getCreationTime host
      (replace_separators (Extension.toLocalISOString d) +:+ ".json")
    = DateMath.TimeClip (DateMath.UTC (LocalTZA host) (wall_clock d - getMilliseconds d)).
Proof.
  intros Hd. pose proof (clock_reading_in_width d Hd) as Hw.
  rewrite snapshot_stamp by done. rewrite getCreationTime_stamp by done.
  destruct Hd as (Hy & Hc & Hms).
  cbn [fields_of f_year f_month f_day f_hour f_minute f_second].
  replace (getMonth d + 1 - 1) with (getMonth d) by lia.
  split; [done|].
  unfold DateMath.Date_getTime. rewrite bool_decide_eq_false_2 by lia.
  unfold wall_clock, DateMath.MakeDate, DateMath.MakeTime. do 2 f_equal. lia.
Qed.

(** The theorem at 2023-06-15 14:30:22.007, at UTC. *)
Lemma snapshot_name_reads_back_witness :
  Extension.getCreationTime Model.linux_utc
    (replace_separators (Extension.toLocalISOString Examples.noon) +:+ ".json")
  = Num 1686839422000.
Proof.
  destruct (snapshot_name_reads_back Model.linux_utc Examples.noon) as [E _].
  - vm_compute. repeat split; discriminate.
  - rewrite E. vm_compute. reflexivity.
Defined.

(** ** The user data path *)

(** X4.  [getUserDataPath] throws [Platform not supported] exactly on a
    platform that is none of [win32], [darwin] and [linux]; on [win32]
    without [USERPROFILE] the [path.join] throws a [TypeError]; every path
    it returns ends in [Code - Insiders/User]; and when it throws, the
    constructor of the service throws the same. *)
Theorem getUserDataPath_by_platform {W} (host : Host W) (context : ExtensionContext) :
  (Extension.getUserDataPath host = Thrown (Error "Platform not supported")
   ↔ process_platform host ≠ "win32" ∧ process_platform host ≠ "darwin"
     ∧ process_platform host ≠ "linux")
  ∧ (process_platform host = "win32" → env_USERPROFILE host = None →
     ∃ msg, Extension.getUserDataPath host = Thrown (TypeError msg))
  ∧ (∀ p, Extension.getUserDataPath host = Returned p →
          ∃ q, p = q ++ ["Code - Insiders"; "User"])
  ∧ (∀ e, Extension.getUserDataPath host = Thrown e →
          Extension.new_UserDataBackupService host context = Thrown e).
Proof.
  unfold Extension.new_UserDataBackupService, Extension.getUserDataPath.
  split; [|split; [|split]].
  - destruct (decide (process_platform host = "win32")) as [E1|E1].
    { destruct (env_USERPROFILE host); (split; [done|tauto]). }
    destruct (decide (process_platform host = "darwin")) as [E2|E2]; [split; [done|tauto]|].
    destruct (decide (process_platform host = "linux")) as [E3|E3]; [split; [done|tauto]|].
    done.
  - intros -> ->. rewrite decide_True by done. by eexists.
  - intros p.
    destruct (decide (process_platform host = "win32")) as [E1|E1].
    { destruct (env_USERPROFILE host) as [pr|]; intros [= <-].
      exists (pr ++ ["AppData"; "Roaming"]). unfold path.join. simpl. unfold path.push. simpl.
      by rewrite <- !(assoc_L (++)). }
    destruct (decide (process_platform host = "darwin")) as [E2|E2].
    { intros [= <-]. exists (os_homedir host ++ ["Library"; "Application Support"]).
      unfold path.join. simpl. unfold path.push. simpl. by rewrite <- !(assoc_L (++)). }
    destruct (decide (process_platform host = "linux")) as [E3|E3]; [|done].
    intros [= <-]. exists (os_homedir host ++ [".config"]).
    unfold path.join. simpl. unfold path.push. simpl. by rewrite <- !(assoc_L (++)).
  - intros e ->. done.
Qed.

(** ** Where a backup writes *)

Lemma replace_separators_chars s :
  Forall (fun c => c ≠ "-"%char ∧ c ≠ ":"%char) (chars (replace_separators s)).
Proof.
  induction s as [|c s IH]; [constructor|]. cbn [replace_separators].
  destruct (Ascii.eqb_spec c "-"); [done|].
  destruct (Ascii.eqb_spec c ":"); [done|].
  destruct (RegExp.test fraction_pattern (String c s)); [constructor|].
  constructor; done.
Qed.

Lemma slash_free_toLocalISOString d : slash_free (Extension.toLocalISOString d).
Proof.
  unfold Extension.toLocalISOString.
  repeat (apply slash_free_append; split);
    try apply slash_free_pretty; try apply slash_free_pad; try (by repeat constructor).
  apply slash_free_take, slash_free_drop. unfold thousandths_toFixed3.
  repeat (apply slash_free_append; split);
    try apply slash_free_pretty; try (by repeat constructor).
  apply slash_free_join_empty, Forall_replicate. by repeat constructor.
Qed.

(** X5.  Whatever the clock shows, a backup that succeeds has written its
    snapshot directly in the subfolder of the resource: the file is there
    under the path of the subfolder with the name as one more segment, the
    name is among the entries of the subfolder, and it holds no separator
    of paths, no dash and no colon. *)
Theorem snapshot_is_written_in_the_subfolder
    tz platform home profile (this : Extension.UserDataBackupService) r (w w' : World) :
  Extension.backup (Model.host tz platform home profile) this r w = (Returned tt, w') →
  let folder := Extension.userDataBackupFolder this ++ [resource_string r] in
  let name := replace_separators (Extension.toLocalISOString (clock w)) +:+ ".json" in
  (∃ content, files w' !! (folder ++ [name]) = Some (File content))
  ∧ name ∈ Model.children (files w') folder
  ∧ path.dirname (folder ++ [name]) = folder
  ∧ Forall (fun c => c ≠ "/"%char ∧ c ≠ "-"%char ∧ c ≠ ":"%char) (chars name).
Proof.
  intros H folder name.
  destruct (backup_frame tz platform home profile this r w w' H)
    as (content & _ & _ & Hsnap & _).
  split; [by exists content|].
  split.
  { unfold folder. rewrite (backup_children tz platform home profile this r w w' H). by left. }
  split; [apply dirname_snoc|].
  unfold name. rewrite chars_append. apply Forall_app. split; [|by repeat constructor].
  pose proof (slash_free_replace_separators _ (slash_free_toLocalISOString (clock w))) as H1.
  pose proof (replace_separators_chars (Extension.toLocalISOString (clock w))) as H2.
  unfold slash_free in H1. rewrite Forall_forall in *. intros c Hc.
  specialize (H1 c Hc). specialize (H2 c Hc). tauto.
Qed.

(** The theorem at a first backup on the first of January of the year 999,
    whose name has three digits for the year. *)
Lemma snapshot_is_written_in_the_subfolder_witness :
  let w := Examples.world Examples.fresh_disk (Build_Date 999 0 1 0 0 0 0) in
  let w' := snd (Extension.backup Model.linux_utc Examples.service Settings w) in
  "9990101T000000.json" ∈ Model.children (files w') Examples.settings_folder.
Proof.
  intros w w'.
  assert (H : Extension.backup Model.linux_utc Examples.service Settings w = (Returned tt, w'))
    by (vm_compute; reflexivity).
  destruct (snapshot_is_written_in_the_subfolder
              (fun _ => 0) "linux" ["home"; "u"] None Examples.service Settings w w' H)
    as (_ & Hin & _).
  exact Hin.
Defined.

(** ** A backup, step by step *)

Lemma set_files_same w : Model.set_files w (files w) = w.
Proof. by destruct w. Qed.


Section BackupSteps.
Context (tz : Z → Z) (platform : string) (home : path.t) (profile : option path.t).
Context (this : Extension.UserDataBackupService) (r : UserDataResource).

Let h : Host World := Model.host tz platform home profile.
Let folder : path.t := Extension.userDataBackupFolder this ++ [resource_string r].
Let live : path.t := Extension.userDataPath this ++ [resource_string r +:+ ".json"].

(** Every run of [backup] on the model: the subfolder is seen to, the live
    file is read, the snapshot is written, the event is fired; the first
    step that fails ends the run. *)
Lemma backup_steps w :
  let snapshot :=
    folder ++ [replace_separators (Extension.toLocalISOString (clock w)) +:+ ".json"] in
  Extension.backup h this r w
  = match (if bool_decide (is_Some (Model.lookup_node (files w) folder))
           then Returned (files w) else Model.mkdir_from (files w) [] folder) with
    | Thrown e => (Thrown e, w)
    | Returned fs1 =>
        match fs1 !! live with
        | Some (File content) =>
            match fs1 !! snapshot, fs1 !! folder with
            | Some Directory, _ => (Thrown (SystemError "EISDIR"), Model.set_files w fs1)
            | _, Some Directory =>
                (Returned tt,
                 {| files := <[snapshot := File content]> fs1;
                    clock := clock w; fired := fired w ++ [r] |})
            | _, Some (File _) => (Thrown (SystemError "ENOTDIR"), Model.set_files w fs1)
            | _, None => (Thrown (SystemError "ENOENT"), Model.set_files w fs1)
            end
        | Some Directory => (Thrown (SystemError "EISDIR"), Model.set_files w fs1)
        | None => (Thrown (SystemError "ENOENT"), Model.set_files w fs1)
        end
    end.
Proof.
  intros snapshot. unfold Extension.backup.
  rewrite join_resource, join_resource_json. fold folder live.
  unfold mbind, IO_bind, bind, mret, IO_ret, ret.
  cbn [fs_exists fs_mkdir_recursive fs_readFile fs_writeFile new_Date emitter_fire h Model.host].
  unfold Model.exists_ at 1.
  assert (Hw1 : (if negb (bool_decide (is_Some (Model.lookup_node (files w) folder)))
                 then Model.mkdir_recursive folder else fun w0 => (Returned tt, w0)) w
                = match (if bool_decide (is_Some (Model.lookup_node (files w) folder))
                         then Returned (files w) else Model.mkdir_from (files w) [] folder) with
                  | Returned fs1 => (Returned tt, Model.set_files w fs1)
                  | Thrown e => (Thrown e, w)
                  end).
  { destruct (bool_decide (is_Some (Model.lookup_node (files w) folder))); simpl.
    - by rewrite set_files_same.
    - unfold Model.mkdir_recursive. by destruct (Model.mkdir_from (files w) [] folder). }
  rewrite Hw1. clear Hw1.
  destruct (if bool_decide (is_Some (Model.lookup_node (files w) folder))
            then Returned (files w) else Model.mkdir_from (files w) [] folder) as [fs1|e];
    [|done].
  unfold Model.read_clock. cbn [clock Model.set_files].
  rewrite snapshot_name_segment. fold snapshot.
  unfold Model.readFile. cbn [files Model.set_files].
  assert (E0 : Model.lookup_node fs1 live = fs1 !! live) by apply lookup_node_snoc.
  rewrite E0.
  destruct (fs1 !! live) as [[content|]|] eqn:Elive; [|done..].
  unfold Model.writeFile. cbn [files Model.set_files].
  assert (E1 : Model.lookup_node fs1 snapshot = fs1 !! snapshot) by apply lookup_node_snoc.
  assert (E2 : path.dirname snapshot = folder) by apply dirname_snoc.
  assert (E3 : Model.lookup_node fs1 folder = fs1 !! folder) by apply lookup_node_snoc.
  rewrite E1, E2, E3.
  destruct (fs1 !! snapshot) as [[c|]|] eqn:Esnap;
    destruct (fs1 !! folder) as [[c'|]|] eqn:Efolder; done.
Qed.

End BackupSteps.



(** On an empty disk the backup fails with [ENOENT] and leaves the
    subfolder it has made. *)
Example backup_on_an_empty_disk :
  let w := Examples.world ∅ Examples.noon in
  let w' := snd (Extension.backup Model.linux_utc Examples.service Settings w) in
  fst (Extension.backup Model.linux_utc Examples.service Settings w)
  = Thrown (SystemError "ENOENT")
  ∧ files w' !! Examples.settings_folder = Some Directory
  ∧ Model.children (files w') Examples.settings_folder = []
  ∧ fired w' = [].
Proof. repeat split; vm_compute; reflexivity. Qed.

(** X7.  The name of a snapshot has the precision of a second.  A backup
    that follows another within the same second of the wall clock writes
    to the same file: the snapshot of the first backup is overwritten with
    what the live file holds now, the subfolder gets no new entry, and the
    event is fired a second time. *)
Theorem second_backup_in_the_same_second_overwrites
    tz platform home profile (this : Extension.UserDataBackupService) r (w w1 : World)
    (d2 : Date) (c2 : string) :
  let h := Model.host tz platform home profile in
  let folder := Extension.userDataBackupFolder this ++ [resource_string r] in
  let live := Extension.userDataPath this ++ [resource_string r +:+ ".json"] in
  let snapshot := folder ++ [stamp (fields_of (clock w)) +:+ ".json"] in
  clock_reading (clock w) → clock_reading d2 → fields_of d2 = fields_of (clock w) →
  Extension.backup h this r w = (Returned tt, w1) →
  let w2 := {| files := <[live := File c2]> (files w1); clock := d2; fired := fired w1 |} in
  ∃ w3 c,
    Extension.backup h this r w2 = (Returned tt, w3)
    ∧ files w !! live = Some (File c)
    ∧ files w1 !! snapshot = Some (File c)
    ∧ files w3 = <[snapshot := File c2]> (files w2)
    ∧ (∀ n, n ∈ Model.children (files w3) folder ↔ n ∈ Model.children (files w1) folder)
    ∧ fired w3 = fired w ++ [r; r].
Proof.
  intros h folder live snapshot Hc Hc2 Hsame H w2.
  destruct (backup_frame tz platform home profile this r w w1 H)
    as (c & Hlive & Hfolder & Hsnap & Hframe & Hfired & _).
  fold folder live in Hlive, Hfolder, Hsnap, Hframe.
  rewrite snapshot_stamp in Hsnap, Hframe by done. fold snapshot in Hsnap, Hframe.
  assert (Hne : live ≠ snapshot).
  { unfold live, snapshot. intros E.
    apply (f_equal (fun l => last l)) in E. rewrite !last_snoc in E. injection E as E.
    pose proof (clock_reading_in_width _ Hc) as (Hy' & _)%in_width_pow.
    unfold stamp in E.
    pose proof (fixed_head_range 3 _ Hy') as [Hd _].
    cbn [fixed fields_of f_year] in E, Hd.
    set (d := getFullYear (clock w) `div` 10 ^ Z.of_nat 3) in *. clearbody d.
    destruct r; cbn [resource_string String.append] in E; injection E as E _;
      each_digit Hd; discriminate E. }
  assert (Hlive1 : files w1 !! live = Some (File c)).
  { destruct (Hframe live Hne) as [->|(Hn & _)]; [done|congruence]. }
  assert (Hnf : live ≠ folder) by congruence.
  exists {| files := <[snapshot := File c2]> (files w2); clock := d2;
            fired := fired w1 ++ [r] |}, c.
  split.
  { unfold h. rewrite backup_steps. fold folder live. cbn [files clock fired w2].
    assert (E3 : Model.lookup_node (<[live:=File c2]> (files w1)) folder
                 = <[live:=File c2]> (files w1) !! folder) by apply lookup_node_snoc.
    rewrite E3. rewrite lookup_insert_ne by done. rewrite Hfolder.
    rewrite bool_decide_eq_true_2 by done.
    rewrite lookup_insert_eq. rewrite snapshot_stamp by done. rewrite Hsame. fold snapshot.
    rewrite !lookup_insert_ne by done. rewrite Hsnap, Hfolder. done. }
  split; [done|]. split; [done|]. split; [done|]. split.
  { intros n. rewrite !elem_of_children. cbn [files w2]. fold folder.
    destruct (decide (folder ++ [n] = snapshot)) as [->|H1].
    { rewrite lookup_insert_eq, Hsnap. split; eauto. }
    rewrite lookup_insert_ne by done.
    destruct (decide (folder ++ [n] = live)) as [->|H2].
    { rewrite lookup_insert_eq, Hlive1. split; eauto. }
    by rewrite lookup_insert_ne. }
  cbn [fired]. rewrite Hfired, <- (assoc_L (++)). done.
Qed.

(** The theorem at a first backup at 14:30:22.007 and a second one at
    14:30:22.900, the live file edited in between. *)
Lemma second_backup_in_the_same_second_overwrites_witness :
  let w := Examples.world Examples.fresh_disk Examples.noon in
  let w1 := snd (Extension.backup Model.linux_utc Examples.service Settings w) in
  let later := Build_Date 2023 5 15 14 30 22 900 in
  let w2 := {| files := <[["home"; "u"; "User"; "settings.json"] := File "{ 1 }"]> (files w1);
               clock := later; fired := fired w1 |} in
  ∃ w3, Extension.backup Model.linux_utc Examples.service Settings w2 = (Returned tt, w3)
        ∧ files w1 !! (Examples.settings_folder ++ ["20230615T143022.json"]) = Some (File "{ }")
        ∧ files w3 !! (Examples.settings_folder ++ ["20230615T143022.json"])
          = Some (File "{ 1 }")
        ∧ fired w3 = [Settings; Settings].
Proof.
  intros w w1 later w2.
  assert (H : Extension.backup Model.linux_utc Examples.service Settings w = (Returned tt, w1))
    by (vm_compute; reflexivity).
  destruct (second_backup_in_the_same_second_overwrites
              (fun _ => 0) "linux" ["home"; "u"] None Examples.service Settings w w1
              later "{ 1 }")
    as (w3 & c & Hrun & Hlive & Hsnap & Hfiles & _ & Hfired);
    [vm_compute; repeat split; discriminate|vm_compute; repeat split; discriminate
    |reflexivity|exact H|].
  exists w3. split; [exact Hrun|].
  assert (Hc : c = "{ }").
  { assert (Hl : files w !! (Extension.userDataPath Examples.service
                               ++ [resource_string Settings +:+ ".json"])
                 = Some (File "{ }")) by (vm_compute; reflexivity).
    rewrite Hl in Hlive. by injection Hlive as <-. }
  split; [rewrite <- Hc; exact Hsnap|].
  split; [|exact Hfired].
  rewrite Hfiles. apply lookup_insert_eq.
Defined.

(** ** Pages at any cursor *)

Lemma array_slice_start {A} (l : list A) (start : number) :
  ∃ from n, (n <= 10)%nat
    ∧ array_slice l start (num_add start (Num 10)) = take n (drop from l).
Proof.
  unfold array_slice. set (len := length l).
  exists (JsString.rel_index len (to_index start)),
    (JsString.rel_index len (to_index (num_add start (Num 10)))
     - JsString.rel_index len (to_index start))%nat.
  split; [|done].
  destruct start as [|z]; cbn [num_add to_index]; [lia|].
  unfold JsString.rel_index. repeat case_match; lia.
Qed.

(** X8.  Whatever the cursor, a number or not, negative or past the end, the
    items of a page are made from a run of consecutive entries of the list,
    in the order of the list, and there are at most ten of them. *)
Theorem page_is_a_run_of_at_most_ten
    (entries : list Resolver.IUserDataBackupEntry) (source : Uri) (options : TimelineOptions) :
  ∃ from n, (n <= 10)%nat
    ∧ Resolver.items (Resolver.page entries source options)
      = (fun e => Resolver.toTimelineItem e source) <$> take n (drop from entries)
    ∧ (length (Resolver.items (Resolver.page entries source options)) <= 10)%nat.
Proof.
  unfold Resolver.page, Resolver.filterEntries. cbn [Resolver.items].
  assert (H : ∃ from n, (n <= 10)%nat
            ∧ (if truthy (cursor options)
               then array_slice entries (JsString.parseInt (default EmptyString (cursor options)))
                      (num_add (JsString.parseInt (default EmptyString (cursor options))) (Num 10))
               else array_slice entries (Num 0) (Num 10))
              = take n (drop from entries)).
  { destruct (truthy (cursor options)); [apply array_slice_start|].
    apply (array_slice_start entries (Num 0)). }
  destruct H as (from & n & Hn & ->). exists from, n.
  split; [done|]. split; [done|].
  rewrite length_fmap, length_take. lia.
Qed.

(** X9.  Cursors that are no offset into the list.  The empty string counts
    as no cursor: the page is the first one.  A cursor of characters below
    128 that is not empty and that [parseInt] does not read as a number,
    such as [next], gives a page without items and without a next cursor;
    so does a cursor at or past the end of the list. *)
Theorem page_at_a_cursor_that_is_no_offset
    (entries : list Resolver.IUserDataBackupEntry) (source : Uri) :
  Resolver.page entries source {| cursor := Some EmptyString |}
  = Resolver.page entries source {| cursor := None |}
  ∧ (∀ c, c ≠ EmptyString → ascii_text c → JsString.parseInt c = NaN →
          Resolver.page entries source {| cursor := Some c |}
          = {| Resolver.items := []; Resolver.paging_cursor := None |})
  ∧ (ascii_text "next" ∧ JsString.parseInt "next" = NaN)
  ∧ (∀ k offset,
       0 <= offset < 10 ^ Z.of_nat (S k) → Z.of_nat (length entries) <= offset →
       Resolver.page entries source {| cursor := Some (fixed (S k) offset) |}
       = {| Resolver.items := []; Resolver.paging_cursor := None |}).
Proof.
  split; [reflexivity|]. split; [|split].
  - intros c Hc _ Hnan. unfold Resolver.page, Resolver.filterEntries. cbn [cursor default].
    assert (truthy (Some c) = true) as ->.
    { cbn [truthy]. destruct (String.eqb_spec c EmptyString); done. }
    unfold id. rewrite Hnan. cbn [num_add num_gt]. unfold array_slice. cbn [to_index].
    unfold JsString.rel_index. cbn. by rewrite Nat.sub_diag.
  - split; [|reflexivity]. unfold ascii_text. simpl. repeat constructor.
  - intros k offset Hoff Hlen. unfold Resolver.page, Resolver.filterEntries.
    cbn [cursor default].
    assert (truthy (Some (fixed (S k) offset)) = true) as -> by done.
    unfold id. rewrite parseInt_fixed by done. cbn [num_add num_gt Number_toString].
    rewrite array_slice_window by lia. rewrite drop_ge by lia.
    rewrite bool_decide_eq_false_2 by lia. done.
Qed.

(** ** Labels *)

(** X10.  The label of a timeline item is the name of the entry without its
    last five characters.  For a name with the suffix [.json] that is the
    stamp; for a name without the suffix, which the listing accepts as
    well, it is the first ten characters of the stamp: the date, the [T]
    and one digit of the hour.  The second generation labels alike. *)
Theorem label_drops_five_characters
    (e : Resolver.IUserDataBackupEntry) (e' : IUserDataBackupEntry) (source : Uri) (f : Fields) :
  (Resolver.name e = stamp f +:+ ".json" →
   Resolver.label (Resolver.toTimelineItem e source) = stamp f)
  ∧ (Resolver.name e = stamp f →
     Resolver.label (Resolver.toTimelineItem e source) = JsString.take 10 (stamp f)
     ∧ String.length (Resolver.label (Resolver.toTimelineItem e source)) = 10%nat)
  ∧ (name e' = Resolver.name e →
     Resolver.label (PagedProviders.toTimelineItem e' source)
     = Resolver.label (Resolver.toTimelineItem e source)).
Proof.
  unfold Resolver.toTimelineItem, PagedProviders.toTimelineItem. cbn [Resolver.label].
  split; [|split].
  - intros ->. rewrite substring_take_drop by (rewrite length_append, length_stamp; simpl; lia).
    rewrite length_append, length_stamp. change (JsString.drop (Z.to_nat 0) ?x) with x.
    replace (Z.to_nat (Z.of_nat (15 + String.length ".json") - 5) - Z.to_nat 0)%nat
      with (String.length (stamp f)) by (rewrite length_stamp; simpl; lia).
    apply take_append.
  - intros ->. rewrite substring_take_drop by (rewrite length_stamp; lia).
    rewrite length_stamp. change (JsString.drop (Z.to_nat 0) ?x) with x.
    change (Z.to_nat (Z.of_nat 15 - 5) - Z.to_nat 0)%nat with 10%nat.
    split; [done|].
    assert (Hl : ∀ n s, (n <= String.length s)%nat → String.length (JsString.take n s) = n).
    { intros n. induction n as [|n IH]; intros [|c s] Hn; simpl in *; try lia.
      rewrite IH by lia. done. }
    apply Hl. rewrite length_stamp. lia.
  - intros ->. done.
Qed.

(** The two labels for the stamp [20230615T143022]. *)
Example label_examples :
  let e n := {| Resolver.resource := Settings;
                Resolver.uri := snapshot_uri "userdata-timeline" Settings n;
                Resolver.name := n; Resolver.created := NaN |} in
  let source := {| scheme := "vscode-userdata"; uri_path := ["home"; "u"; "User"; "settings.json"] |} in
  Resolver.label (Resolver.toTimelineItem (e "20230615T143022.json") source) = "20230615T143022"
  ∧ Resolver.label (Resolver.toTimelineItem (e "20230615T143022") source) = "20230615T1".
Proof. split; reflexivity. Qed.

(** ** Creation times are numbers *)

Lemma DayFromYear_wide y :
  -1 <= y <= 10007 → -721000 <= DateMath.DayFromYear y <= 2940000.
Proof.
  intros H. unfold DateMath.DayFromYear. Z.to_euclidean_division_equations. lia.
Qed.

Lemma DayWithinYear_range mn leap :
  0 <= leap <= 1 → 0 <= DateMath.DayWithinYear mn leap <= 335.
Proof.
  intros H. unfold DateMath.DayWithinYear. repeat case_match; lia.
Qed.

Lemma InLeapYear_range y : 0 <= DateMath.InLeapYear y <= 1.
Proof. unfold DateMath.InLeapYear. pose proof (DaysInYear_range y). lia. Qed.

Lemma Date_getTime_in_width tz f :
  bounded_zone tz → in_width f →
  ∃ t, DateMath.Date_getTime tz
         (Num (f_year f)) (Num (f_month f - 1)) (Num (f_day f))
         (Num (f_hour f)) (Num (f_minute f)) (Num (f_second f)) = Num t
       ∧ Z.abs t <= 8640000000000000.
Proof.
  intros Htz (Hy & Hmo & Hd & Hh & Hmi & Hs).
  unfold DateMath.Date_getTime.
  assert (Hyr : 0 <= (if bool_decide (0 <= f_year f <= 99) then 1900 + f_year f else f_year f)
                <= 9999) by (case_bool_decide; lia).
  set (yr := if bool_decide (0 <= f_year f <= 99) then 1900 + f_year f else f_year f) in *.
  clearbody yr.
  set (t := DateMath.MakeDate (DateMath.MakeDay yr (f_month f - 1) (f_day f))
              (DateMath.MakeTime (f_hour f) (f_minute f) (f_second f) 0)).
  assert (Ht : Z.abs t <= 300000000000000).
  { unfold t, DateMath.MakeDate, DateMath.MakeDay, DateMath.MakeTime, DateMath.msPerDay,
      DateMath.msPerHour, DateMath.msPerMinute, DateMath.msPerSecond.
    pose proof (DayFromYear_wide (yr + (f_month f - 1) `div` 12)
                  ltac:(Z.to_euclidean_division_equations; lia)) as H1.
    pose proof (DayWithinYear_range ((f_month f - 1) `mod` 12)
                  (DateMath.InLeapYear (yr + (f_month f - 1) `div` 12))
                  (InLeapYear_range _)) as H2.
    lia. }
  clearbody t. specialize (Htz t). unfold DateMath.msPerDay in Htz.
  exists (DateMath.UTC tz t). unfold DateMath.TimeClip, DateMath.UTC.
  split; [|lia]. rewrite bool_decide_eq_false_2 by lia. done.
Qed.

(** X11.  In a time zone whose offset stays within a day, the [created]
    field of every entry [getAllEntries] returns is a number, never [NaN],
    and within the range of time values: the digits of an accepted name
    always make a date, whatever they are. *)
Theorem created_is_never_NaN
    {W} (host : Host W) (this : Extension.UserDataBackupService) r w :
  bounded_zone (LocalTZA host) →
  ∃ es w', Extension.getAllEntries host this r w = (Returned es, w') ∧
    ∀ e, e ∈ es → ∃ t, created e = Num t ∧ Z.abs t <= 8640000000000000.
Proof.
  intros Htz.
  destruct (entries_of_listing host this r w) as (es & w' & Hrun & Hes).
  exists es, w'. split; [done|]. intros e [Hacc Hcr]%Hes.
  apply accepted_stamp in Hacc as (f & sfx & Hf & Hsfx & Hname).
  rewrite Hcr, Hname, getCreationTime_stamp by done.
  by apply Date_getTime_in_width.
Qed.

(** The theorem at UTC. *)
Lemma created_is_never_NaN_witness :
  ∃ es w', Extension.getAllEntries Model.linux_utc Examples.service Settings
             (Examples.world Examples.used_disk Examples.noon) = (Returned es, w')
           ∧ ∀ e, e ∈ es → ∃ t, created e = Num t ∧ Z.abs t <= 8640000000000000.
Proof.
  apply created_is_never_NaN. intros t. vm_compute. discriminate.
Defined.

(** ** Members that are not there *)

Lemma get_property_missing members key :
  Forall (fun m => fst m ≠ key) members →
  JSON.get_property (JSON.Json (JSON.Object members)) key = Returned JSON.Undefined.
Proof.
  intros H. cbn [JSON.get_property].
  destruct (list_find _ (reverse members)) as [[i [k x]]|] eqn:E; [|done].
  apply list_find_Some in E as (Hi & Hk & _). simpl in Hk.
  apply list_elem_of_lookup_2 in Hi. rewrite elem_of_reverse in Hi.
  rewrite Forall_forall in H. by destruct (H _ Hi).
Qed.

Lemma parse_undefined text :
  JSON.parse (JSON.ToString text JSON.Undefined)
  = Thrown (SyntaxError "Unexpected token in JSON").
Proof. vm_compute. reflexivity. Qed.

(** X12.  What the sync resolver does with a stored value that lacks a
    member.  A stored [null] makes the first destructuring throw a
    [TypeError].  A stored object without a [content] member gives
    [undefined] for the content, the second [JSON.parse] is handed the text
    [undefined], and the call throws a [SyntaxError].  A content that is an
    object without a [settings] member makes the call return [undefined]
    and throw nothing. *)
Theorem sync_resolveContent_without_a_member
    {W} (host : Host W) (this : Resolver.UserDataBackupResolver) text r n w :
  ∃ s w', Resolver.resolveContent host this r n w = (Returned s, w')
    ∧ (JSON.parse s = Returned JSON.Null →
       Resolver.sync_resolveContent host this text r n w
       = (Thrown (TypeError "Cannot destructure null"), w'))
    ∧ (∀ members,
         JSON.parse s = Returned (JSON.Object members) →
         Forall (fun m => fst m ≠ "content") members →
         Resolver.sync_resolveContent host this text r n w
         = (Thrown (SyntaxError "Unexpected token in JSON"), w'))
    ∧ (∀ v c members,
         JSON.parse s = Returned v →
         JSON.get_property (JSON.Json v) "content" = Returned c →
         JSON.parse (JSON.ToString text c) = Returned (JSON.Object members) →
         Forall (fun m => fst m ≠ "settings") members →
         Resolver.sync_resolveContent host this text r n w = (Returned JSON.Undefined, w')).
Proof.
  rewrite sync_resolveContent_run, resolver_resolveContent_run.
  destruct (fs_readFile host _ w) as [[content|err] w'] eqn:E.
  - exists content, w'. split; [done|]. split; [|split].
    + intros ->. done.
    + intros members -> Hm. rewrite get_property_missing by done.
      by rewrite parse_undefined.
    + intros v c members -> -> -> Hm. by rewrite get_property_missing.
  - exists EmptyString, w'. split; [done|]. rewrite parse_empty. split; [|split].
    + intros [=].
    + intros members [=].
    + intros v c members [=].
Qed.

(** The three cases at the stored values [null], [{}] and an object whose
    [content] is the text [{}]. *)
Example sync_resolveContent_without_a_member_examples :
  let h := Model.linux_utc in
  let file := ["home"; "u"; "User"; "sync"; "settings"; "20230618T000000.json"] in
  let w text := Examples.world (<[file := File text]> Examples.sync_disk) Examples.noon in
  Resolver.sync_resolveContent h Examples.sync_resolver id Settings "20230618T000000.json"
    (w "null")
  = (Thrown (TypeError "Cannot destructure null"), w "null")
  ∧ Resolver.sync_resolveContent h Examples.sync_resolver id Settings "20230618T000000.json"
      (w "{}")
    = (Thrown (SyntaxError "Unexpected token in JSON"), w "{}")
  ∧ Resolver.sync_resolveContent h Examples.sync_resolver id Settings "20230618T000000.json"
      (w ("{" +:+ Examples.q +:+ "content" +:+ Examples.q +:+ ":" +:+ Examples.q +:+ "{}"
          +:+ Examples.q +:+ "}"))
    = (Returned JSON.Undefined,
       w ("{" +:+ Examples.q +:+ "content" +:+ Examples.q +:+ ":" +:+ Examples.q +:+ "{}"
          +:+ Examples.q +:+ "}")).
Proof. intros h file w. repeat split; vm_compute; reflexivity. Qed.

(** ** Uris of snapshots *)

Lemma join_cons base a rest :
  path.join base (a :: rest) = path.join (path.join base [a]) rest.
Proof.
  unfold path.join. cbn [fmap list_fmap concat]. rewrite app_nil_r. apply foldl_app.
Qed.

Lemma slash_free_accepted n : accepted n → slash_free n ∧ (String.length n > 2)%nat.
Proof.
  intros (f & sfx & Hf & Hsfx & ->)%accepted_stamp.
  apply in_width_pow in Hf as (Hy & Hmo & Hd & Hh & Hmi & Hs).
  split.
  - apply slash_free_append. split; [|by destruct Hsfx as [-> | ->]; repeat constructor].
    unfold stamp.
    repeat (apply slash_free_append; split); try (by apply slash_free_fixed);
      by repeat constructor.
  - rewrite length_append, length_stamp. lia.
Qed.

Lemma join_accepted base n : accepted n → path.join base [n] = base ++ [n].
Proof. intros [Hs Hl]%slash_free_accepted. by apply join_segment. Qed.

Lemma snapshot_uri_path scheme r n :
  accepted n → uri_path (snapshot_uri scheme r n) = [resource_string r; n].
Proof.
  intros Hn. unfold snapshot_uri. cbn [uri_path].
  rewrite join_cons. change (path.join [] [EmptyString]) with (@nil string).
  rewrite join_cons, join_resource, join_accepted by done. done.
Qed.

Lemma join_resource_name base r n :
  accepted n → path.join base [resource_string r; n] = base ++ [resource_string r; n].
Proof.
  intros Hn. rewrite join_cons, join_resource, join_accepted by done.
  by rewrite <- (assoc_L (++)).
Qed.

Lemma basename_snoc p x : path.basename (p ++ [x]) = x.
Proof. unfold path.basename. by rewrite last_snoc. Qed.

(** The parts [provideTextDocumentContent] and [replace] cut out of the uri
    of a snapshot. *)
Lemma snapshot_uri_parts scheme r n :
  accepted n →
  path.basename (uri_path (snapshot_uri scheme r n)) = n
  ∧ path.basename (path.dirname (uri_path (snapshot_uri scheme r n))) = resource_string r.
Proof.
  intros Hn. rewrite snapshot_uri_path by done.
  split; [apply (basename_snoc [resource_string r] n)|].
  change [resource_string r; n] with ([resource_string r] ++ [n]).
  rewrite dirname_snoc. apply (basename_snoc [] (resource_string r)).
Qed.

Lemma resolver_entries {W} (host : Host W) (this : Resolver.UserDataBackupResolver) r w :
  ∃ es w', Resolver.getAllEntries host this r w = (Returned es, w') ∧
    ∀ e, e ∈ es →
      accepted (Resolver.name e) ∧ Resolver.resource e = r
      ∧ Resolver.uri e = snapshot_uri (Resolver.resolver_scheme this) r (Resolver.name e).
Proof.
  unfold Resolver.getAllEntries, try_catch, mbind, IO_bind, bind, mret, IO_ret, ret.
  destruct (fs_readdir host _ w) as [[children|err] w']; eexists _, _; (split; [done|]).
  - intros e (n & -> & Hn)%list_elem_of_fmap. cbn [Resolver.name Resolver.resource Resolver.uri].
    split; [|done]. by apply (elem_of_listed n children).
  - intros e He. by apply elem_of_nil in He.
Qed.

(** X13.  The uri of an entry that [getAllEntries] of the third generation
    returns has the scheme of the resolver and the path
    [/resource/name]; [provideTextDocumentContent] cuts the resource and the
    name back out of it and resolves the content of that very snapshot,
    through the method of the base class and through the override of the
    sync resolver alike. *)
Theorem listed_uri_opens_its_snapshot
    {W} (host : Host W) (this : Resolver.UserDataBackupResolver) text r w :
  ∃ es w', Resolver.getAllEntries host this r w = (Returned es, w') ∧
    ∀ e, e ∈ es →
      scheme (Resolver.uri e) = Resolver.resolver_scheme this
      ∧ uri_path (Resolver.uri e) = [resource_string r; Resolver.name e]
      ∧ ResolverProviders.provideTextDocumentContent
          (resolveContent_text host (Resolver.userDataBackupFolder this)) (Resolver.uri e)
        = Resolver.resolveContent host this r (Resolver.name e)
      ∧ ResolverProviders.provideTextDocumentContent
          (sync_resolveContent_text host (Resolver.userDataBackupFolder this) text)
          (Resolver.uri e)
        = Resolver.sync_resolveContent host this text r (Resolver.name e).
Proof.
  destruct (resolver_entries host this r w) as (es & w' & Hrun & Hes).
  exists es, w'. split; [done|]. intros e (Hacc & Hr & Huri)%Hes.
  unfold ResolverProviders.provideTextDocumentContent.
  destruct (snapshot_uri_parts (Resolver.resolver_scheme this) r _ Hacc) as [Hn Hd].
  rewrite Huri, Hn, Hd. split; [done|]. split; [by apply snapshot_uri_path|]. done.
Qed.

Lemma entries_accepted {W} (host : Host W) (this : Extension.UserDataBackupService) r w :
  ∃ es w', Extension.getAllEntries host this r w = (Returned es, w') ∧
    ∀ e, e ∈ es → accepted (name e) ∧ resource e = r.
Proof.
  rewrite getAllEntries_run.
  destruct (fs_readdir host _ w) as [[children|err] w']; eexists _, _; (split; [done|]).
  - intros e (n & -> & Hn%elem_of_listed)%list_elem_of_fmap. simpl. tauto.
  - intros e He. by apply elem_of_nil in He.
Qed.

(** X14.  The provider of [src/extension.ts] does not page: it returns one
    item for every entry of the listing, in the order of the listing,
    labelled with the whole name.  The first argument of the command of an
    item is a uri with the scheme [userdata-timeline] and the path
    [/resource/name], and the document provider resolves that uri to the
    content of the snapshot with that name. *)
Theorem timeline_item_opens_its_snapshot
    {W} (host : Host W) (this : Extension.UserDataBackupService) r uri options w :
  ∃ es w',
    Extension.getAllEntries host this r w = (Returned es, w')
    ∧ ExtensionProviders.provideTimeline host this r uri options w
      = (Returned ((fun e => ExtensionProviders.toTimelineItem e uri) <$> es), w')
    ∧ ∀ e, e ∈ es →
        let item := ExtensionProviders.toTimelineItem e uri in
        ExtensionProviders.label item = name e
        ∧ ∃ backup,
            ExtensionProviders.command_arguments item = [backup; uri]
            ∧ scheme backup = "userdata-timeline"
            ∧ uri_path backup = [resource_string r; name e]
            ∧ ExtensionProviders.provideTextDocumentContent host this backup
              = Extension.resolveContent host this r (name e).
Proof.
  destruct (entries_accepted host this r w) as (es & w' & Hrun & Hes).
  exists es, w'. split; [done|]. split.
  { unfold ExtensionProviders.provideTimeline, ExtensionProviders.filterEntries,
      mbind, IO_bind, bind, mret, IO_ret, ret. by rewrite Hrun. }
  intros e [Hacc Hr]%Hes item. split; [done|].
  exists (snapshot_uri "userdata-timeline" (resource e) (name e)).
  split; [done|]. split; [done|]. rewrite Hr.
  split; [by apply snapshot_uri_path|].
  unfold ExtensionProviders.provideTextDocumentContent.
  destruct (snapshot_uri_parts "userdata-timeline" r _ Hacc) as [-> ->]. done.
Qed.


Lemma substring_drops_the_suffix s sfx :
  JsString.substring (s +:+ sfx) 0
    (Z.of_nat (String.length (s +:+ sfx)) - Z.of_nat (String.length sfx)) = s.
Proof.
  rewrite substring_take_drop by (rewrite length_append; lia).
  rewrite length_append. change (JsString.drop (Z.to_nat 0) ?x) with x.
  replace (Z.to_nat (Z.of_nat (String.length s + String.length sfx)
                     - Z.of_nat (String.length sfx)) - Z.to_nat 0)%nat
    with (String.length s) by lia.
  apply take_append.
Qed.

Lemma substring_of_a_short_name s :
  (String.length s <= 5)%nat →
  JsString.substring s 0 (Z.of_nat (String.length s) - 5) = EmptyString.
Proof.
  intros H. unfold JsString.substring, JsString.clamp.
  replace (Z.to_nat (Z.min (Z.max (Z.of_nat (String.length s) - 5) 0)
                       (Z.of_nat (String.length s)))) with 0%nat by lia.
  replace (Z.to_nat (Z.min (Z.max 0 0) (Z.of_nat (String.length s)))) with 0%nat by lia.
  done.
Qed.

(** X15.  The uri a provider fires for a change of a resource is that of
    the live file, [resource.json] in the user data path, and
    [provideTimeline] reads the resource back from it: the file name of a
    uri without its last five characters.  From any file name that ends in
    [.json] this takes the part before the suffix; from a file name of five
    characters or fewer it takes the empty string. *)
Theorem change_event_names_its_resource
    (A : Extension.UserDataBackupService) (B : Paged.UserDataBackupService) r :
  timeline_resource (ExtensionProviders.changed_uri A r) = resource_string r
  ∧ timeline_resource (PagedProviders.changed_uri B r) = resource_string r
  ∧ uri_path (ExtensionProviders.changed_uri A r)
    = Extension.userDataPath A ++ [resource_string r +:+ ".json"]
  ∧ uri_path (PagedProviders.changed_uri B r)
    = Paged.userDataPath B ++ [resource_string r +:+ ".json"]
  ∧ (∀ sch folder s,
       timeline_resource {| scheme := sch; uri_path := folder ++ [s +:+ ".json"] |} = s)
  ∧ (∀ sch folder s,
       (String.length s <= 5)%nat →
       timeline_resource {| scheme := sch; uri_path := folder ++ [s] |} = EmptyString).
Proof.
  unfold timeline_resource, ExtensionProviders.changed_uri, PagedProviders.changed_uri.
  cbn [uri_path]. rewrite !join_resource_json, !basename_snoc.
  split; [by destruct r|]. split; [by destruct r|]. split; [done|]. split; [done|].
  split.
  - intros _ folder s. rewrite basename_snoc. apply (substring_drops_the_suffix s ".json").
  - intros _ folder s Hs. rewrite basename_snoc. by apply substring_of_a_short_name.
Qed.

(** ** Replacing the live file *)

Lemma resolveContent_text_run {W} (host : Host W) folder resource n w :
  resolveContent_text host folder resource n w
  = match fs_readFile host (path.join folder [resource; n]) w with
    | (Returned content, w') => (Returned content, w')
    | (Thrown e, w') => (Returned EmptyString, w')
    end.
Proof.
  unfold resolveContent_text, try_catch, mbind, IO_bind, bind, mret, IO_ret, ret.
  by destruct (fs_readFile host _ w) as [[content|e] w'].
Qed.

(** Texts that are well-formed UTF-8, with one, two, three and four bytes
    to a character, and byte strings that are not: a byte that starts no
    character, an overlong form, a surrogate, a code point past 10FFFF, a
    character cut short, a continuation byte on its own. *)
Example well_formed_utf8_examples :
  Buffer.well_formed_utf8 "{ }" = true
  ∧ Buffer.well_formed_utf8 (Buffer.from [195; 169]) = true
  ∧ Buffer.well_formed_utf8 (Buffer.from [226; 130; 172; 65]) = true
  ∧ Buffer.well_formed_utf8 (Buffer.from [240; 159; 152; 128]) = true
  ∧ Buffer.well_formed_utf8 (Buffer.from [239; 187; 191; 123]) = true
  ∧ Buffer.well_formed_utf8 (Buffer.from [255; 65]) = false
  ∧ Buffer.well_formed_utf8 (Buffer.from [192; 128]) = false
  ∧ Buffer.well_formed_utf8 (Buffer.from [224; 128; 128]) = false
  ∧ Buffer.well_formed_utf8 (Buffer.from [237; 160; 128]) = false
  ∧ Buffer.well_formed_utf8 (Buffer.from [244; 144; 128; 128]) = false
  ∧ Buffer.well_formed_utf8 (Buffer.from [226; 130]) = false
  ∧ Buffer.well_formed_utf8 (Buffer.from [128]) = false.
Proof. repeat split; vm_compute; reflexivity. Qed.

(** X16.  [replace] of the primary store, on the item of an entry, reads
    the snapshot of the entry and, when what it has read is well-formed
    UTF-8, writes it to the path of the source as it is.  The read is the
    soft one: when it fails, [replace] does not stop, it writes the empty
    string to the source.  The method of the third generation, with the
    resolver of the base class, does the same as that of the second. *)
Theorem replace_writes_the_snapshot_or_an_empty_file
    {W} (host : Host W) (folder userData : path.t) (e : IUserDataBackupEntry)
    (source : Uri) (w : W) :
  let B := {| Paged.userDataPath := userData; Paged.userDataBackupFolder := folder |} in
  let e3 := {| Resolver.resource := resource e;
               Resolver.uri := snapshot_uri "userdata-timeline" (resource e) (name e);
               Resolver.name := name e;
               Resolver.created := created e |} in
  accepted (name e) →
  (∀ content w1,
     fs_readFile host (folder ++ [resource_string (resource e); name e]) w
     = (Returned content, w1) →
     Buffer.well_formed_utf8 content = true →
     PagedProviders.replace host B (PagedProviders.toTimelineItem e source) w
     = fs_writeFile host (uri_path source) content w1)
  ∧ (∀ err w1,
       fs_readFile host (folder ++ [resource_string (resource e); name e]) w
       = (Thrown err, w1) →
       PagedProviders.replace host B (PagedProviders.toTimelineItem e source) w
       = fs_writeFile host (uri_path source) EmptyString w1)
  ∧ ResolverProviders.replace (resolveContent_text host folder) (fs_writeFile host)
      (Resolver.toTimelineItem e3 source) w
    = PagedProviders.replace host B (PagedProviders.toTimelineItem e source) w.
Proof.
  intros B e3 Hacc.
  assert (E : PagedProviders.replace host B (PagedProviders.toTimelineItem e source) w
  = match fs_readFile host (folder ++ [resource_string (resource e); name e]) w with
    | (Returned content, w1) => fs_writeFile host (uri_path source) content w1
    | (Thrown _, w1) => fs_writeFile host (uri_path source) EmptyString w1
    end).
  { unfold PagedProviders.replace, PagedProviders.toTimelineItem.
    cbn [Resolver.backup_uri Resolver.source Paged.userDataBackupFolder B].
    destruct (snapshot_uri_parts "userdata-timeline" (resource e) _ Hacc) as [-> ->].
    unfold mbind, IO_bind, bind. rewrite resolveContent_text_run.
    rewrite join_resource_name by done.
    by destruct (fs_readFile host _ w) as [[content|err] w1]. }
  split; [|split; [|reflexivity]].
  - intros content w1 Hr _. by rewrite E, Hr.
  - intros err w1 Hr. by rewrite E, Hr.
Qed.

(** The theorem on a disk with the snapshot [20230101T000000.json]: the live
    file gets the content of the snapshot, and it is emptied by the item of
    a snapshot that is not there. *)
Lemma replace_writes_the_snapshot_or_an_empty_file_witness :
  let B := {| Paged.userDataPath := ["home"; "u"; "User"];
              Paged.userDataBackupFolder := ["storage"; "userdata-backup"] |} in
  let source := {| scheme := "vscode-userdata";
                   uri_path := ["home"; "u"; "User"; "settings.json"] |} in
  let e n := {| resource := Settings; name := n; created := NaN |} in
  let w := Examples.world Examples.used_disk Examples.noon in
  let w1 := snd (PagedProviders.replace Model.linux_utc B
                   (PagedProviders.toTimelineItem (e "20230101T000000.json") source) w) in
  let w2 := snd (PagedProviders.replace Model.linux_utc B
                   (PagedProviders.toTimelineItem (e "19990101T000000.json") source) w) in
  files w !! ["home"; "u"; "User"; "settings.json"] = Some (File "{ }")
  ∧ files w1 !! ["home"; "u"; "User"; "settings.json"] = Some (File "new")
  ∧ files w2 !! ["home"; "u"; "User"; "settings.json"] = Some (File EmptyString).
Proof.
  intros B source e w w1 w2.
  assert (H1 : accepted (name (e "20230101T000000.json"))).
  { apply entry_pattern_accepted. vm_compute. reflexivity. }
  assert (H2 : accepted (name (e "19990101T000000.json"))).
  { apply entry_pattern_accepted. vm_compute. reflexivity. }
  split; [vm_compute; reflexivity|]. split.
  - unfold w1, B.
    rewrite (proj1 (replace_writes_the_snapshot_or_an_empty_file Model.linux_utc
               ["storage"; "userdata-backup"] ["home"; "u"; "User"]
               (e "20230101T000000.json") source w H1) "new" w);
      [vm_compute; reflexivity|vm_compute; reflexivity|reflexivity].
  - unfold w2, B.
    rewrite (proj1 (proj2 (replace_writes_the_snapshot_or_an_empty_file Model.linux_utc
               ["storage"; "userdata-backup"] ["home"; "u"; "User"]
               (e "19990101T000000.json") source w H2)) (SystemError "ENOENT") w);
      [vm_compute; reflexivity|vm_compute; reflexivity].
Defined.

(** X17.  [replace] with the sync resolver writes to the source the string
    the resolver returns, and stops with the error of the resolver when it
    throws; a value that is no string is handed to [writeFile] as it is.  A
    snapshot that cannot be read makes it throw a [SyntaxError], and
    nothing is written. *)
Theorem sync_replace_writes_a_string_or_throws
    {W} (host : Host W) (this : Resolver.UserDataBackupResolver) text
    (write_other : path.t → JSON.js → IO W unit)
    (e : Resolver.IUserDataBackupEntry) (source : Uri) (w : W) :
  accepted (Resolver.name e) →
  Resolver.uri e
  = snapshot_uri (Resolver.resolver_scheme this) (Resolver.resource e) (Resolver.name e) →
  let replace :=
    ResolverProviders.replace
      (sync_resolveContent_text host (Resolver.userDataBackupFolder this) text)
      (ResolverProviders.writeFile_js host write_other)
      (Resolver.toTimelineItem e source) in
  replace w
  = match Resolver.sync_resolveContent host this text (Resolver.resource e) (Resolver.name e) w
    with
    | (Returned (JSON.Json (JSON.Str s)), w1) => fs_writeFile host (uri_path source) s w1
    | (Returned other, w1) => write_other (uri_path source) other w1
    | (Thrown err, w1) => (Thrown err, w1)
    end
  ∧ (∀ err w1,
       fs_readFile host
         (path.join (Resolver.userDataBackupFolder this)
            [resource_string (Resolver.resource e); Resolver.name e]) w
       = (Thrown err, w1) →
       replace w = (Thrown (SyntaxError "Unexpected token in JSON"), w1)).
Proof.
  intros Hacc Huri replace.
  assert (E : replace w
  = match Resolver.sync_resolveContent host this text (Resolver.resource e) (Resolver.name e) w
    with
    | (Returned (JSON.Json (JSON.Str s)), w1) => fs_writeFile host (uri_path source) s w1
    | (Returned other, w1) => write_other (uri_path source) other w1
    | (Thrown err, w1) => (Thrown err, w1)
    end).
  { unfold replace, ResolverProviders.replace, Resolver.toTimelineItem.
    cbn [Resolver.backup_uri Resolver.source]. rewrite Huri.
    destruct (snapshot_uri_parts (Resolver.resolver_scheme this) (Resolver.resource e) _ Hacc)
      as [-> ->].
    change (sync_resolveContent_text host (Resolver.userDataBackupFolder this) text
              (resource_string (Resolver.resource e)) (Resolver.name e))
      with (Resolver.sync_resolveContent host this text (Resolver.resource e) (Resolver.name e)).
    unfold mbind, IO_bind, bind.
    destruct (Resolver.sync_resolveContent host this text _ _ w) as [[x|err] w1]; [|done].
    unfold ResolverProviders.writeFile_js. by destruct x as [|[]]. }
  split; [exact E|].
  intros err w1 Hmiss. rewrite E.
  rewrite sync_resolveContent_run, resolver_resolveContent_run, Hmiss, parse_empty. done.
Qed.

(** The theorem on the sync disk: a snapshot that is not there, and the
    snapshot of the example. *)
Lemma sync_replace_writes_a_string_or_throws_witness :
  let source := {| scheme := "vscode-userdata";
                   uri_path := ["home"; "u"; "User"; "settings.json"] |} in
  let e n := {| Resolver.resource := Settings;
                Resolver.uri := snapshot_uri "userdata-sync-timeline" Settings n;
                Resolver.name := n; Resolver.created := NaN |} in
  let replace n :=
    ResolverProviders.replace
      (sync_resolveContent_text Model.linux_utc
         (Resolver.userDataBackupFolder Examples.sync_resolver) id)
      (ResolverProviders.writeFile_js Model.linux_utc (fun _ _ => mret tt))
      (Resolver.toTimelineItem (e n) source) in
  let w := Examples.world Examples.sync_disk Examples.noon in
  replace "19990101T000000.json" w = (Thrown (SyntaxError "Unexpected token in JSON"), w)
  ∧ files (snd (replace "20230615T143022.json" w)) !! ["home"; "u"; "User"; "settings.json"]
    = Some (File "FOO").
Proof.
  intros source e replace w.
  assert (H1 : accepted (Resolver.name (e "19990101T000000.json"))).
  { apply entry_pattern_accepted. vm_compute. reflexivity. }
  split; [|vm_compute; reflexivity].
  apply (proj2 (sync_replace_writes_a_string_or_throws Model.linux_utc Examples.sync_resolver
                  id (fun _ _ => mret tt) (e "19990101T000000.json") source w H1 eq_refl)
           (SystemError "ENOENT") w).
  vm_compute. reflexivity.
Defined.

(** ** The command that replaces *)

(** X18.  The command [userdata.timeline.replace] goes by the scheme of the
    backup uri of the item.  An item made from an entry of the changes
    service is replaced through the changes service, which reads under
    [userdata-backup] in the global storage; an item made from an entry of
    the sync resolver is replaced through the sync resolver, which reads
    under [sync] two levels above the global storage. *)
Theorem replace_command_goes_back_to_the_resolver
    {W} (host : Host W) text (write_other : path.t → JSON.js → IO W unit)
    (context : ExtensionContext) (source : Uri) r w :
  let changes := Resolver.new_UserDataChangesBackupService context in
  let sync := Resolver.new_UserDataSyncBackupResolver context in
  (∃ es w', Resolver.getAllEntries host changes r w = (Returned es, w') ∧
     ∀ e, e ∈ es →
       ResolverProviders.replace_command host text write_other context
         (Resolver.toTimelineItem e source)
       = ResolverProviders.replace
           (resolveContent_text host (Resolver.userDataBackupFolder changes))
           (fs_writeFile host) (Resolver.toTimelineItem e source))
  ∧ (∃ es w', Resolver.getAllEntries host sync r w = (Returned es, w') ∧
       ∀ e, e ∈ es →
         ResolverProviders.replace_command host text write_other context
           (Resolver.toTimelineItem e source)
         = ResolverProviders.replace
             (sync_resolveContent_text host (Resolver.userDataBackupFolder sync) text)
             (ResolverProviders.writeFile_js host write_other)
             (Resolver.toTimelineItem e source))
  ∧ Resolver.userDataBackupFolder changes
    = path.join (globalStoragePath context) ["userdata-backup"]
  ∧ Resolver.userDataBackupFolder sync
    = path.dirname (path.dirname (globalStoragePath context)) ++ ["sync"].
Proof.
  intros changes sync. split; [|split; [|split; [done|]]].
  - destruct (resolver_entries host changes r w) as (es & w' & Hrun & Hes).
    exists es, w'. split; [done|]. intros e (_ & _ & Huri)%Hes.
    unfold ResolverProviders.replace_command, Resolver.toTimelineItem.
    cbn [Resolver.backup_uri]. rewrite Huri. done.
  - destruct (resolver_entries host sync r w) as (es & w' & Hrun & Hes).
    exists es, w'. split; [done|]. intros e (_ & _ & Huri)%Hes.
    unfold ResolverProviders.replace_command, Resolver.toTimelineItem.
    cbn [Resolver.backup_uri]. rewrite Huri. done.
  - unfold sync, Resolver.new_UserDataSyncBackupResolver, Resolver.new_UserDataBackupResolver.
    cbn [Resolver.userDataBackupFolder]. apply join_segment; [by repeat constructor|simpl; lia].
Qed.

(** ** Providers that do not throw *)

Lemma page_nil source options :
  Resolver.items (Resolver.page [] source options) = []
  ∧ (cursor options = None → Resolver.page [] source options
                             = {| Resolver.items := []; Resolver.paging_cursor := None |}).
Proof.
  split.
  - unfold Resolver.page, Resolver.filterEntries, array_slice. cbn [Resolver.items].
    destruct (truthy (cursor options)); by rewrite drop_nil, take_nil.
  - intros Hc. unfold Resolver.page, Resolver.filterEntries. rewrite Hc. reflexivity.
Qed.

(** X20.  The providers of the primary store do not throw.  When the
    listing fails, [provideTimeline] returns a timeline without items, and
    in the third generation without a next cursor when it was given none;
    when the read fails, [provideTextDocumentContent] returns the empty
    string. *)
Theorem providers_of_the_primary_store_do_not_throw
    {W} (host : Host W) (A : Extension.UserDataBackupService)
    (C : Resolver.UserDataBackupResolver) r (uri : Uri) options w :
  (∃ items w', ExtensionProviders.provideTimeline host A r uri options w = (Returned items, w')
     ∧ ∀ e w1,
         fs_readdir host (path.join (Extension.userDataBackupFolder A) [resource_string r]) w
         = (Thrown e, w1) → items = [] ∧ w' = w1)
  ∧ (∃ t w', Resolver.provideTimeline host C r uri options w = (Returned t, w')
       ∧ ∀ e w1,
           fs_readdir host (path.join (Resolver.userDataBackupFolder C) [resource_string r]) w
           = (Thrown e, w1) →
           Resolver.items t = [] ∧ w' = w1
           ∧ (cursor options = None → Resolver.paging_cursor t = None))
  ∧ (∃ s w', ExtensionProviders.provideTextDocumentContent host A uri w = (Returned s, w')
       ∧ ∀ e w1,
           fs_readFile host
             (path.join (Extension.userDataBackupFolder A)
                [path.basename (path.dirname (uri_path uri)); path.basename (uri_path uri)]) w
           = (Thrown e, w1) → s = EmptyString ∧ w' = w1).
Proof.
  split; [|split].
  - unfold ExtensionProviders.provideTimeline, ExtensionProviders.filterEntries,
      mbind, IO_bind, bind, mret, IO_ret, ret.
    rewrite getAllEntries_run.
    destruct (fs_readdir host _ w) as [[children|err] w']; eexists _, _; (split; [done|]).
    + intros e w1 [=].
    + by intros e w1 [= _ ->].
  - unfold Resolver.provideTimeline, Resolver.getAllEntries, try_catch,
      mbind, IO_bind, bind, mret, IO_ret, ret.
    destruct (fs_readdir host _ w) as [[children|err] w']; eexists _, _; (split; [done|]).
    + intros e w1 [=].
    + intros e w1 [= _ ->]. destruct (page_nil uri options) as [H1 H2].
      split; [done|]. split; [done|]. intros Hc. by rewrite H2.
  - unfold ExtensionProviders.provideTextDocumentContent. rewrite resolveContent_text_run.
    destruct (fs_readFile host _ w) as [[content|err] w']; eexists _, _; (split; [done|]).
    + intros e w1 [=].
    + by intros e w1 [= _ ->].
Qed.


(** ** A backup and what is read afterwards *)

(** X21.  What [backup] writes, [resolveContent] reads back.  After a
    backup that succeeds, whatever the clock showed, [resolveContent] of the
    resource and of the name the backup gave its snapshot returns the
    content the live file held when the backup started, when that content
    is well-formed UTF-8. *)
Theorem resolveContent_reads_what_backup_wrote
    tz platform home profile (this : Extension.UserDataBackupService) r (w w' : World) :
  let h := Model.host tz platform home profile in
  let name := replace_separators (Extension.toLocalISOString (clock w)) +:+ ".json" in
  Extension.backup h this r w = (Returned tt, w') →
  ∃ content,
    Model.lookup_node (files w)
      (Extension.userDataPath this ++ [resource_string r +:+ ".json"]) = Some (File content)
    ∧ (Buffer.well_formed_utf8 content = true →
       Extension.resolveContent h this r name w' = (Returned content, w')).
Proof.
  intros h name H.
  destruct (backup_frame tz platform home profile this r w w' H)
    as (content & Hlive & _ & Hsnap & _).
  exists content. split; [by rewrite lookup_node_snoc|]. intros _.
  rewrite resolveContent_run. rewrite join_cons, join_resource.
  unfold name. rewrite snapshot_name_segment.
  cbn [fs_readFile h Model.host]. unfold Model.readFile.
  rewrite lookup_node_snoc, Hsnap. done.
Qed.

(** The theorem at a first backup at 14:30:22.007. *)
Lemma resolveContent_reads_what_backup_wrote_witness :
  let w := Examples.world Examples.fresh_disk Examples.noon in
  let w' := snd (Extension.backup Model.linux_utc Examples.service Settings w) in
  Extension.resolveContent Model.linux_utc Examples.service Settings
    "20230615T143022.json" w' = (Returned "{ }", w').
Proof.
  intros w w'.
  assert (H : Extension.backup Model.linux_utc Examples.service Settings w = (Returned tt, w'))
    by (vm_compute; reflexivity).
  destruct (resolveContent_reads_what_backup_wrote
              (fun _ => 0) "linux" ["home"; "u"] None Examples.service Settings w w' H)
    as (content & Hlive & Hread).
  assert (Hc : content = "{ }").
  { assert (Hl : Model.lookup_node (files w)
                   (Extension.userDataPath Examples.service
                    ++ [resource_string Settings +:+ ".json"])
                 = Some (File "{ }")) by (vm_compute; reflexivity).
    rewrite Hl in Hlive. by injection Hlive as <-. }
  subst content.
  assert (Hn : replace_separators (Extension.toLocalISOString (clock w)) +:+ ".json"
               = "20230615T143022.json") by (vm_compute; reflexivity).
  rewrite Hn in Hread. apply Hread. reflexivity.
Defined.

Lemma resource_string_inj r1 r2 : resource_string r1 = resource_string r2 → r1 = r2.
Proof. by destruct r1, r2. Qed.

(** X22.  A backup of one resource leaves the other resource as it was:
    [getAllEntries] of the other resource returns the same sequence after
    the backup as before, and [resolveContent] of the other resource returns
    the same content for every name the listing accepts. *)
Theorem backup_leaves_the_other_resource_alone
    tz platform home profile (this : Extension.UserDataBackupService) r r' n (w w' : World) :
  let h := Model.host tz platform home profile in
  r' ≠ r → accepted n →
  Extension.backup h this r w = (Returned tt, w') →
  fst (Extension.getAllEntries h this r' w') = fst (Extension.getAllEntries h this r' w)
  ∧ fst (Extension.resolveContent h this r' n w') = fst (Extension.resolveContent h this r' n w).
Proof.
  intros h Hr Hn H.
  destruct (backup_frame tz platform home profile this r w w' H)
    as (content & _ & _ & _ & Hframe & _).
  set (base := Extension.userDataBackupFolder this) in *.
  set (name := replace_separators (Extension.toLocalISOString (clock w)) +:+ ".json") in *.
  assert (Hother : ∀ q, files w' !! (base ++ [resource_string r'] ++ q)
                        = files w !! (base ++ [resource_string r'] ++ q)).
  { intros q.
    destruct (Hframe (base ++ [resource_string r'] ++ q)) as [?|(_ & _ & [tl Hpre] & _)];
      [|done|].
    - intros E. rewrite <- (assoc_L (++)) in E.
      apply app_inv_head in E. simpl in E. injection E as E _.
      by apply resource_string_inj in E.
    - rewrite <- !(assoc_L (++)) in Hpre. apply app_inv_head in Hpre. simpl in Hpre.
      injection Hpre as E _. by apply resource_string_inj in E. }
  split.
  - rewrite !getAllEntries_run. fold base. rewrite join_resource.
    cbn [fs_readdir h Model.host]. unfold Model.readdir.
    rewrite !lookup_node_snoc.
    pose proof (Hother []) as H0. rewrite app_nil_r in H0. rewrite H0.
    destruct (files w !! (base ++ [resource_string r'])) as [[c|]|]; [done| |done].
    cbn [fst]. f_equal. f_equal. apply listed_Permutation.
    apply NoDup_Permutation; [apply NoDup_children..|].
    intros x. rewrite !elem_of_children.
    pose proof (Hother [x]) as Hx. rewrite !(assoc_L (++)) in Hx. by rewrite Hx.
  - rewrite !resolveContent_run. fold base. rewrite join_resource_name by done.
    cbn [fs_readFile h Model.host]. unfold Model.readFile.
    pose proof (Hother [n]) as Hx.
    change (base ++ [resource_string r'; n]) with (base ++ [resource_string r'] ++ [n]).
    assert (E : ∀ fs, Model.lookup_node fs (base ++ [resource_string r'] ++ [n])
                      = fs !! (base ++ [resource_string r'] ++ [n])).
    { intros fs. rewrite (assoc_L (++)). apply lookup_node_snoc. }
    rewrite !E, Hx.
    by destruct (files w !! (base ++ [resource_string r'] ++ [n])) as [[c|]|].
Qed.

(** The theorem at a backup of the settings and the keybindings. *)
Lemma backup_leaves_the_other_resource_alone_witness :
  let w := Examples.world Examples.used_disk Examples.noon in
  let w' := snd (Extension.backup Model.linux_utc Examples.service Settings w) in
  fst (Extension.getAllEntries Model.linux_utc Examples.service Keybindings w')
  = fst (Extension.getAllEntries Model.linux_utc Examples.service Keybindings w)
  ∧ fst (Extension.resolveContent Model.linux_utc Examples.service Keybindings
           "20230101T000000.json" w')
    = fst (Extension.resolveContent Model.linux_utc Examples.service Keybindings
             "20230101T000000.json" w).
Proof.
  intros w w'.
  assert (H : Extension.backup Model.linux_utc Examples.service Settings w = (Returned tt, w'))
    by (vm_compute; reflexivity).
  assert (Hn : accepted "20230101T000000.json").
  { apply entry_pattern_accepted. vm_compute. reflexivity. }
  apply (backup_leaves_the_other_resource_alone
           (fun _ => 0) "linux" ["home"; "u"] None Examples.service Settings Keybindings
           "20230101T000000.json" w w' ltac:(discriminate) Hn H).
Defined.
